(** * Task lifecycle and dependency engine (model/task/task.go)

    A shallow embedding of the task entity, its pure predicates and the
    store-updating operations of package [task], together with the
    properties of the specification that concern them.

    Conventions.
    - Go [string] is [string]; Go [int], [int64] and [time.Duration] are [Z]
      (with the 64-bit wrap-around written out where an operation can
      leave the range); a [time.Time] is the instant it denotes, as a
      number of nanoseconds relative to the Unix epoch.
    - A collection of the document store is the list of its documents; a
      query is a boolean predicate on documents and an update a function
      on documents.
    - Go maps used as sets or lookup tables are [gset]/[gmap].
    - [time.Now()] and [utility.RandomString()] are inputs of the
      operations that call them. *)

From Stdlib Require Import ZArith String List Bool Lia.
From Stdlib Require Import DecimalString.
From stdpp Require Import base option list gmap sets strings.

Local Open Scope string_scope.

(** ** Time *)

Definition Time : Type := Z.
Definition Duration : Type := Z.

Module time.
Definition Nanosecond : Duration := 1%Z.
Definition Second : Duration := 1000000000%Z.
Definition Hour : Duration := (3600 * Second)%Z.

Definition minDuration : Duration := (- 2 ^ 63)%Z.
Definition maxDuration : Duration := (2 ^ 63 - 1)%Z.

(** The zero value [time.Time{}]: January 1, year 1, 00:00 UTC. *)
Definition zero : Time := (-62135596800 * Second)%Z.

Definition Add (t : Time) (d : Duration) : Time := (t + d)%Z.
Definition Before (t u : Time) : bool := (t <? u)%Z.
Definition Equal (t u : Time) : bool := (t =? u)%Z.
Definition IsZero (t : Time) : bool := (t =? zero)%Z.

(** [t.Sub(u)]: the duration [t - u], saturated to the range of
    [Duration]. *)
Definition Sub (t u : Time) : Duration :=
  if (t - u <? minDuration)%Z then minDuration
  else if (maxDuration <? t - u)%Z then maxDuration
  else (t - u)%Z.
End time.

(** Package [utility]: [ZeroTime] is [time.Unix(0, 0)] and [IsZeroTime]
    accepts both it and Go's zero [time.Time]. *)
Module utility.
Definition ZeroTime : Time := 0%Z.
Definition IsZeroTime (t : Time) : bool :=
  time.Equal t ZeroTime || time.IsZero t.

Definition StringSliceContains (l : list string) (s : string) : bool :=
  existsb (String.eqb s) l.
End utility.

(** Go's [int] on a 64-bit platform. *)
Definition wrapInt (z : Z) : Z := ((z + 2 ^ 63) mod 2 ^ 64 - 2 ^ 63)%Z.

(** ** Constants of package [evergreen] *)

Module evergreen.
(** Modelled from the spec: the status constants of package evergreen
    (globals.go is not among the sources); the spec names the statuses
    undispatched, dispatched, started, succeeded, failed and the system
    failures, and calls the finished ones terminal. *)
Definition TaskUndispatched : string := "undispatched".
Definition TaskDispatched : string := "dispatched".
Definition TaskStarted : string := "started".
Definition TaskSucceeded : string := "succeeded".
Definition TaskFailed : string := "failed".
Definition TaskSystemFailed : string := "system-failed".
Definition TaskSystemUnresponse : string := "system-unresponsive".
Definition TaskSystemTimedOut : string := "system-timed-out".
Definition TaskTimedOut : string := "timed-out".

(** Modelled from the spec: the terminal statuses S, F, SF, SU, ST, T. *)
Definition TaskCompletedStatuses : list string :=
  [TaskSucceeded; TaskFailed; TaskSystemFailed; TaskSystemUnresponse;
   TaskSystemTimedOut; TaskTimedOut].

(** Modelled from the spec: DISABLED_PRIORITY, below every priority a
    task can be scheduled with. *)
Definition DisabledTaskPriority : Z := (-1)%Z.
End evergreen.

(** ** The task entity *)

Module TaskEndDetail.
(** [apimodels.TaskEndDetail], the fields the task package reads. *)
Record t : Type := mk {
  Status : string;
  Type_ : string;
  Description : string;
  TimedOut : bool
}.
Definition empty : t := mk "" "" "" false.
(** Modelled from the spec: an end detail is empty when it is absent
    or carries no status (package apimodels is not among the sources). *)
Definition IsEmpty (d : option t) : bool :=
  match d with
  | None => true
  | Some d => Status d =? ""
  end.
End TaskEndDetail.

Module Dependency.
Record t : Type := mk {
  TaskId : string;
  Status : string;
  Unattainable : bool;
  Finished : bool;
  OmitGeneratedTasks : bool
}.
Definition set_Finished (v : bool) (d : t) : t :=
  mk (TaskId d) (Status d) (Unattainable d) v (OmitGeneratedTasks d).
Definition set_Unattainable (v : bool) (d : t) : t :=
  mk (TaskId d) (Status d) v (Finished d) (OmitGeneratedTasks d).
End Dependency.

Module HostCreateDetail.
Record t : Type := mk { HostId : string; Error : string }.
End HostCreateDetail.

Module AbortInfo.
Record t : Type := mk {
  User : string;
  TaskID : string;
  NewVersion : string;
  PRClosed : bool
}.
Definition empty : t := mk "" "" "" false.
End AbortInfo.

Definition ExecutionPlatformHost : string := "host".
Definition ExecutionPlatformContainer : string := "container".

Record Task : Type := mkTask {
  Id : string;
  Secret : string;
  CreateTime : Time;
  IngestTime : Time;
  DispatchTime : Time;
  ScheduledTime : Time;
  StartTime : Time;
  FinishTime : Time;
  ActivatedTime : Time;
  DependenciesMetTime : Time;
  ContainerAllocatedTime : Time;
  Version : string;
  Project : string;
  Revision : string;
  Priority : Z;
  TaskGroup : string;
  TaskGroupMaxHosts : Z;
  TaskGroupOrder : Z;
  LogServiceVersion : option Z;
  ResultsService : string;
  HasCedarResults : bool;
  ResultsFailed : bool;
  MustHaveResults : bool;
  LastHeartbeat : Time;
  Activated : bool;
  ActivatedBy : string;
  DeactivatedForDependency : bool;
  StepbackDepth : Z;
  ContainerAllocated : bool;
  ContainerAllocationAttempts : Z;
  BuildId : string;
  DistroId : string;
  Container : string;
  BuildVariant : string;
  DependsOn : list Dependency.t;
  UnattainableDependency : bool;
  NumDependents : Z;
  OverrideDependencies : bool;
  SecondaryDistros : list string;
  DisplayName : string;
  Tags : list string;
  HostId : string;
  PodID : string;
  ExecutionPlatform : string;
  AgentVersion : string;
  IsGithubCheck : bool;
  CanReset : bool;
  Execution : Z;
  OldTaskId : string;
  Archived : bool;
  RevisionOrderNumber : Z;
  Requester : string;
  Status : string;
  Details : TaskEndDetail.t;
  Aborted : bool;
  AbortInfo : AbortInfo.t;
  HostCreateDetails : list HostCreateDetail.t;
  TimeTaken : Duration;
  ExpectedDuration : Duration;
  DisplayOnly : bool;
  ExecutionTasks : list string;
  LatestParentExecution : Z;
  ResetWhenFinished : bool;
  ResetFailedWhenFinished : bool;
  GenerateTask : bool;
  GeneratedTasks : bool;
  GeneratedBy : string;
  CanSync : bool;
  IsEssentialToSucceed : bool
}.

Definition etaTask (t : Task) : Task :=
  mkTask (Id t) (Secret t) (CreateTime t) (IngestTime t) (DispatchTime t)
    (ScheduledTime t) (StartTime t) (FinishTime t) (ActivatedTime t)
    (DependenciesMetTime t) (ContainerAllocatedTime t) (Version t) (Project t)
    (Revision t) (Priority t) (TaskGroup t) (TaskGroupMaxHosts t)
    (TaskGroupOrder t) (LogServiceVersion t) (ResultsService t)
    (HasCedarResults t) (ResultsFailed t) (MustHaveResults t) (LastHeartbeat
    t) (Activated t) (ActivatedBy t) (DeactivatedForDependency t)
    (StepbackDepth t) (ContainerAllocated t) (ContainerAllocationAttempts t)
    (BuildId t) (DistroId t) (Container t) (BuildVariant t) (DependsOn t)
    (UnattainableDependency t) (NumDependents t) (OverrideDependencies t)
    (SecondaryDistros t) (DisplayName t) (Tags t) (HostId t) (PodID t)
    (ExecutionPlatform t) (AgentVersion t) (IsGithubCheck t) (CanReset t)
    (Execution t) (OldTaskId t) (Archived t) (RevisionOrderNumber t)
    (Requester t) (Status t) (Details t) (Aborted t) (AbortInfo t)
    (HostCreateDetails t) (TimeTaken t) (ExpectedDuration t) (DisplayOnly t)
    (ExecutionTasks t) (LatestParentExecution t) (ResetWhenFinished t)
    (ResetFailedWhenFinished t) (GenerateTask t) (GeneratedTasks t)
    (GeneratedBy t) (CanSync t) (IsEssentialToSucceed t).

(** Field update. [etaTask] lists every field once; a setter is [etaTask]
    with one projection replaced by the new value. *)
Ltac setter proj v :=
  let e := eval cbv delta [etaTask] in etaTask in
  lazymatch eval pattern proj in e with
  | ?F _ => let r := eval cbv beta in (F (fun _ => v)) in exact r
  end.

Definition set_Id (v : string) : Task -> Task := ltac:(setter Id v).
Definition set_Secret (v : string) : Task -> Task := ltac:(setter Secret v).
Definition set_DispatchTime (v : Time) : Task -> Task := ltac:(setter DispatchTime v).
Definition set_ScheduledTime (v : Time) : Task -> Task := ltac:(setter ScheduledTime v).
Definition set_StartTime (v : Time) : Task -> Task := ltac:(setter StartTime v).
Definition set_FinishTime (v : Time) : Task -> Task := ltac:(setter FinishTime v).
Definition set_ActivatedTime (v : Time) : Task -> Task := ltac:(setter ActivatedTime v).
Definition set_DependenciesMetTime (v : Time) : Task -> Task := ltac:(setter DependenciesMetTime v).
Definition set_ContainerAllocatedTime (v : Time) : Task -> Task := ltac:(setter ContainerAllocatedTime v).
Definition set_CreateTime (v : Time) : Task -> Task := ltac:(setter CreateTime v).
Definition set_IngestTime (v : Time) : Task -> Task := ltac:(setter IngestTime v).
Definition set_LogServiceVersion (v : option Z) : Task -> Task := ltac:(setter LogServiceVersion v).
Definition set_ResultsService (v : string) : Task -> Task := ltac:(setter ResultsService v).
Definition set_HasCedarResults (v : bool) : Task -> Task := ltac:(setter HasCedarResults v).
Definition set_ResultsFailed (v : bool) : Task -> Task := ltac:(setter ResultsFailed v).
Definition set_LastHeartbeat (v : Time) : Task -> Task := ltac:(setter LastHeartbeat v).
Definition set_Activated (v : bool) : Task -> Task := ltac:(setter Activated v).
Definition set_ActivatedBy (v : string) : Task -> Task := ltac:(setter ActivatedBy v).
Definition set_DeactivatedForDependency (v : bool) : Task -> Task := ltac:(setter DeactivatedForDependency v).
Definition set_ContainerAllocated (v : bool) : Task -> Task := ltac:(setter ContainerAllocated v).
Definition set_ContainerAllocationAttempts (v : Z) : Task -> Task := ltac:(setter ContainerAllocationAttempts v).
Definition set_BuildId (v : string) : Task -> Task := ltac:(setter BuildId v).
Definition set_DistroId (v : string) : Task -> Task := ltac:(setter DistroId v).
Definition set_DependsOn (v : list Dependency.t) : Task -> Task := ltac:(setter DependsOn v).
Definition set_UnattainableDependency (v : bool) : Task -> Task := ltac:(setter UnattainableDependency v).
Definition set_OverrideDependencies (v : bool) : Task -> Task := ltac:(setter OverrideDependencies v).
Definition set_HostId (v : string) : Task -> Task := ltac:(setter HostId v).
Definition set_PodID (v : string) : Task -> Task := ltac:(setter PodID v).
Definition set_AgentVersion (v : string) : Task -> Task := ltac:(setter AgentVersion v).
Definition set_CanReset (v : bool) : Task -> Task := ltac:(setter CanReset v).
Definition set_Execution (v : Z) : Task -> Task := ltac:(setter Execution v).
Definition set_OldTaskId (v : string) : Task -> Task := ltac:(setter OldTaskId v).
Definition set_Archived (v : bool) : Task -> Task := ltac:(setter Archived v).
Definition set_Status (v : string) : Task -> Task := ltac:(setter Status v).
Definition set_Details (v : TaskEndDetail.t) : Task -> Task := ltac:(setter Details v).
Definition set_Aborted (v : bool) : Task -> Task := ltac:(setter Aborted v).
Definition set_AbortInfo (v : AbortInfo.t) : Task -> Task := ltac:(setter AbortInfo v).
Definition set_HostCreateDetails (v : list HostCreateDetail.t) : Task -> Task := ltac:(setter HostCreateDetails v).
Definition set_TimeTaken (v : Duration) : Task -> Task := ltac:(setter TimeTaken v).
Definition set_LatestParentExecution (v : Z) : Task -> Task := ltac:(setter LatestParentExecution v).
Definition set_ResetWhenFinished (v : bool) : Task -> Task := ltac:(setter ResetWhenFinished v).
Definition set_ResetFailedWhenFinished (v : bool) : Task -> Task := ltac:(setter ResetFailedWhenFinished v).
Definition set_Priority (v : Z) : Task -> Task := ltac:(setter Priority v).
Definition set_Version (v : string) : Task -> Task := ltac:(setter Version v).
Definition set_DisplayOnly (v : bool) : Task -> Task := ltac:(setter DisplayOnly v).
Definition set_ExecutionTasks (v : list string) : Task -> Task := ltac:(setter ExecutionTasks v).
Definition set_ExecutionPlatform (v : string) : Task -> Task := ltac:(setter ExecutionPlatform v).

(** The zero value of the struct. *)
Definition zeroTask : Task := {|
  Id := "";
  Secret := "";
  CreateTime := time.zero;
  IngestTime := time.zero;
  DispatchTime := time.zero;
  ScheduledTime := time.zero;
  StartTime := time.zero;
  FinishTime := time.zero;
  ActivatedTime := time.zero;
  DependenciesMetTime := time.zero;
  ContainerAllocatedTime := time.zero;
  Version := "";
  Project := "";
  Revision := "";
  Priority := 0%Z;
  TaskGroup := "";
  TaskGroupMaxHosts := 0%Z;
  TaskGroupOrder := 0%Z;
  LogServiceVersion := None;
  ResultsService := "";
  HasCedarResults := false;
  ResultsFailed := false;
  MustHaveResults := false;
  LastHeartbeat := time.zero;
  Activated := false;
  ActivatedBy := "";
  DeactivatedForDependency := false;
  StepbackDepth := 0%Z;
  ContainerAllocated := false;
  ContainerAllocationAttempts := 0%Z;
  BuildId := "";
  DistroId := "";
  Container := "";
  BuildVariant := "";
  DependsOn := [];
  UnattainableDependency := false;
  NumDependents := 0%Z;
  OverrideDependencies := false;
  SecondaryDistros := [];
  DisplayName := "";
  Tags := [];
  HostId := "";
  PodID := "";
  ExecutionPlatform := "";
  AgentVersion := "";
  IsGithubCheck := false;
  CanReset := false;
  Execution := 0%Z;
  OldTaskId := "";
  Archived := false;
  RevisionOrderNumber := 0%Z;
  Requester := "";
  Status := "";
  Details := TaskEndDetail.empty;
  Aborted := false;
  AbortInfo := AbortInfo.empty;
  HostCreateDetails := [];
  TimeTaken := 0%Z;
  ExpectedDuration := 0%Z;
  DisplayOnly := false;
  ExecutionTasks := [];
  LatestParentExecution := 0%Z;
  ResetWhenFinished := false;
  ResetFailedWhenFinished := false;
  GenerateTask := false;
  GeneratedTasks := false;
  GeneratedBy := "";
  CanSync := false;
  IsEssentialToSucceed := false
|}.

(** ** Pure predicates of the task model *)

Definition AllStatuses : string := "*".

Definition maxContainerAllocationAttempts : Z := 5%Z.

(** [Blocked] returns if a task cannot run given the state of the task. *)
Definition Blocked (t : Task) : bool :=
  if OverrideDependencies t then false
  else existsb Dependency.Unattainable (DependsOn t).

Definition WillRun (t : Task) : bool :=
  (Status t =? evergreen.TaskUndispatched) && Activated t && negb (Blocked t).

Definition IsHostTask (t : Task) : bool :=
  ((ExecutionPlatform t =? "") || (ExecutionPlatform t =? ExecutionPlatformHost))
  && negb (DisplayOnly t).

Definition IsHostDispatchable (t : Task) : bool := IsHostTask t && WillRun t.

Definition IsContainerTask (t : Task) : bool :=
  ExecutionPlatform t =? ExecutionPlatformContainer.

Definition IsRestartFailedOnly (t : Task) : bool :=
  ResetFailedWhenFinished t && negb (ResetWhenFinished t).

Definition RemainingContainerAllocationAttempts (t : Task) : Z :=
  wrapInt (maxContainerAllocationAttempts - ContainerAllocationAttempts t).

(** The loop over [DependsOn] of [isContainerScheduled]: the first edge
    that is unattainable or unfinished answers false. *)
Fixpoint dependenciesReady (deps : list Dependency.t) : bool :=
  match deps with
  | [] => true
  | dep :: rest =>
      if Dependency.Unattainable dep then false
      else if negb (Dependency.Finished dep) then false
      else dependenciesReady rest
  end.

Definition isContainerScheduled (t : Task) : bool :=
  if negb (IsContainerTask t) then false
  else if negb (Status t =? evergreen.TaskUndispatched) then false
  else if negb (Activated t) then false
  else if (Priority t <=? evergreen.DisabledTaskPriority)%Z then false
  else if negb (OverrideDependencies t) then dependenciesReady (DependsOn t)
  else true.

Definition ShouldAllocateContainer (t : Task) : bool :=
  if ContainerAllocated t then false
  else if (RemainingContainerAllocationAttempts t =? 0)%Z then false
  else isContainerScheduled t.

Definition IsContainerDispatchable (t : Task) : bool :=
  if negb (ContainerAllocated t) then false else isContainerScheduled t.

Definition IsDispatchable (t : Task) : bool :=
  IsHostDispatchable t || ShouldAllocateContainer t || IsContainerDispatchable t.

(** [SatisfiesDependency]: the edges are scanned in order; an edge for
    [depTask] whose status is one of the cases of the switch returns; any
    other edge is passed over. *)
Fixpoint satisfiesDependencyFrom (deps : list Dependency.t) (depTask : Task)
  : bool :=
  match deps with
  | [] => false
  | dep :: rest =>
      if Dependency.TaskId dep =? Id depTask then
        if (Dependency.Status dep =? evergreen.TaskSucceeded)
           || (Dependency.Status dep =? "")
        then Status depTask =? evergreen.TaskSucceeded
        else if Dependency.Status dep =? evergreen.TaskFailed
        then Status depTask =? evergreen.TaskFailed
        else if Dependency.Status dep =? AllStatuses
        then (Status depTask =? evergreen.TaskFailed)
             || (Status depTask =? evergreen.TaskSucceeded)
             || Blocked depTask
        else satisfiesDependencyFrom rest depTask
      else satisfiesDependencyFrom rest depTask
  end.

Definition SatisfiesDependency (t depTask : Task) : bool :=
  satisfiesDependencyFrom (DependsOn t) depTask.

(** ** The document store *)

Inductive error : Type :=
| ErrNotFound
| ErrDuplicateKey
| ErrMsg (msg : string)
| ErrWrap (msg : string) (cause : error).

(** [errors.Wrap(err, msg)]: nil stays nil. *)
Definition Wrap (err : option error) (msg : string) : option error :=
  match err with
  | None => None
  | Some e => Some (ErrWrap msg e)
  end.

(** The two collections of the package: [Collection] holds the live
    records and [OldCollection] the archived executions. *)
Record DB : Type := mkDB {
  tasks : list Task;
  old_tasks : list Task
}.

Definition Query : Type := Task -> bool.
Definition Update : Type := Task -> Task.

(** The driver's [UpdateOne]: the first document matching the filter is
    rewritten; the count of matched documents is reported. *)
Fixpoint updateOne (q : Query) (u : Update) (c : list Task) : list Task * Z :=
  match c with
  | [] => ([], 0%Z)
  | d :: rest =>
      if q d then (u d :: rest, 1%Z)
      else let '(rest', n) := updateOne q u rest in (d :: rest', n)
  end.

(** The driver's [UpdateMany]: every matching document is rewritten. *)
Definition updateMany (q : Query) (u : Update) (c : list Task)
  : list Task * Z :=
  (map (fun d => if q d then u d else d) c, Z.of_nat (length (filter q c))).

(** [FindAll]: the matching documents, in collection order. *)
Definition FindAll (q : Query) (db : DB) : list Task := filter q (tasks db).

(** [WithFields]: a query with a projection returns, for each matching
    document, its [_id] and the projected fields; every other field of
    the decoded struct has its zero value. [fields] builds that struct
    from the stored record. *)
Definition FindAllWithFields (q : Query) (fields : Task -> Task) (db : DB)
  : list Task :=
  map fields (FindAll q db).

(** Insertion under the unique index on [_id]. *)
Definition insert (d : Task) (c : list Task) : list Task * option error :=
  if existsb (fun d' => Id d' =? Id d) c then (c, Some ErrDuplicateKey)
  else ((c ++ [d])%list, None).

Definition IsDuplicateKey (e : option error) : bool :=
  match e with Some ErrDuplicateKey => true | _ => false end.

Definition ResultsNotFound (e : option error) : bool :=
  match e with Some ErrNotFound => true | _ => false end.

(** Modelled from the spec: the update helpers of the package (task/db.go
    is not among the sources). The spec's store contract: every
    transition is an update whose filter re-states the precondition, and
    a zero-match result is not an error but a contention indicator. *)
Definition UpdateOne (q : Query) (u : Update) (db : DB) : DB * option error :=
  (mkDB (fst (updateOne q u (tasks db))) (old_tasks db), None).

(** Modelled from the spec: as [UpdateOne], with a context (task/db.go is
    not among the sources). *)
Definition UpdateOneContext (q : Query) (u : Update) (db : DB)
  : DB * option error :=
  UpdateOne q u db.

(** Modelled from the spec: the multi-document update of the package
    (task/db.go is not among the sources). *)
Definition UpdateAll (q : Query) (u : Update) (db : DB) : DB * option error :=
  (mkDB (fst (updateMany q u (tasks db))) (old_tasks db), None).

(** The aggregation expression that recomputes the cached flag,
    [$cond: {if: {$isArray: "$depends_on.unattainable"},
             then: {$anyElementTrue: "$depends_on.unattainable"},
             else: false}]. A document without the array has no edge. *)
Definition anyElementTrue (l : list bool) : bool := existsb (fun b => b) l.

Definition unattainableDependencyExpr (d : Task) : bool :=
  anyElementTrue (map Dependency.Unattainable (DependsOn d)).

(** ** Container allocation *)

(** Modelled from the spec: the query for tasks that need a container
    (task/db.go is not among the sources): the task is scheduled to run
    on a container and none is allocated to it. *)
Definition needsContainerAllocation : Query :=
  fun d => isContainerScheduled d && negb (ContainerAllocated d).

Definition containerAllocatedUpdate (allocatedAt : Time) : Update :=
  fun d =>
    set_ContainerAllocationAttempts (ContainerAllocationAttempts d + 1)%Z
      (set_ContainerAllocatedTime allocatedAt (set_ContainerAllocated true d)).

(** [MarkAsContainerAllocated]; the update always changes the document it
    matches, so the driver's modified count is its matched count. *)
Definition MarkAsContainerAllocated (allocatedAt : Time) (t : Task) (db : DB)
  : Task * DB * option error :=
  if ContainerAllocated t then
    (t, db, Some (ErrMsg
       "cannot allocate a container task if it's currently allocated"))
  else if (RemainingContainerAllocationAttempts t =? 0)%Z then
    (t, db, Some (ErrMsg
       "task execution has hit the max allowed allocation attempts (5)"))
  else
    let q : Query := fun d =>
      needsContainerAllocation d && (Id d =? Id t)
      && (ContainerAllocationAttempts d <? maxContainerAllocationAttempts)%Z in
    let '(c, modifiedCount) :=
      updateOne q (containerAllocatedUpdate allocatedAt) (tasks db) in
    let db' := mkDB c (old_tasks db) in
    if (modifiedCount =? 0)%Z then
      (t, db', Some (ErrMsg "task was not updated"))
    else
      (set_ContainerAllocatedTime allocatedAt (set_ContainerAllocated true t),
       db', None).

Definition containerDeallocatedUpdate : Update :=
  fun d => set_ContainerAllocatedTime time.zero (set_ContainerAllocated false d).

Definition MarkAsContainerDeallocated (t : Task) (db : DB)
  : Task * DB * option error :=
  if negb (ContainerAllocated t) then
    (t, db, Some (ErrMsg
       "cannot deallocate a container task if it's not currently allocated"))
  else
    let q : Query := fun d =>
      (Id d =? Id t) && (ExecutionPlatform d =? ExecutionPlatformContainer)
      && ContainerAllocated d in
    let '(c, modifiedCount) := updateOne q containerDeallocatedUpdate (tasks db) in
    let db' := mkDB c (old_tasks db) in
    if (modifiedCount =? 0)%Z then
      (t, db', Some (ErrMsg "task was not updated"))
    else
      (set_ContainerAllocatedTime time.zero (set_ContainerAllocated false t),
       db', None).

(** ** Host dispatch *)

(** The driver's [UpdateByID]. *)
Definition UpdateByID (id : string) (u : Update) (db : DB) : DB * option error :=
  (mkDB (fst (updateOne (fun d => Id d =? id) u (tasks db))) (old_tasks db),
   None).

(** The update document of [markAsHostDispatchedWithFunc]; an unset field
    reads back as the zero value of its type. *)
Definition hostDispatchedUpdate (hostID distroID agentRevision : string)
  (dispatchTime : Time) : Update :=
  fun d =>
    set_Details TaskEndDetail.empty
      (set_AbortInfo AbortInfo.empty
        (set_Aborted false
          (set_AgentVersion agentRevision
            (set_DistroId distroID
              (set_LastHeartbeat dispatchTime
                (set_HostId hostID
                  (set_Status evergreen.TaskDispatched
                    (set_DispatchTime dispatchTime d)))))))).

Definition markAsHostDispatchedWithFunc
  (doUpdate : Update -> DB -> DB * option error)
  (hostID distroID agentRevision : string) (dispatchTime : Time)
  (t : Task) (db : DB) : Task * DB * option error :=
  let '(db', err) :=
    doUpdate (hostDispatchedUpdate hostID distroID agentRevision dispatchTime)
      db in
  match err with
  | Some e => (t, db', Some e)
  | None =>
      (set_Details TaskEndDetail.empty
        (set_AbortInfo AbortInfo.empty
          (set_Aborted false
            (set_DistroId distroID
              (set_LastHeartbeat dispatchTime
                (set_AgentVersion agentRevision
                  (set_HostId hostID
                    (set_Status evergreen.TaskDispatched
                      (set_DispatchTime dispatchTime t)))))))),
       db', None)
  end.

Definition MarkAsHostDispatchedWithContext
  (hostID distroID agentRevision : string) (dispatchTime : Time)
  (t : Task) (db : DB) : Task * DB * option error :=
  markAsHostDispatchedWithFunc (UpdateByID (Id t))
    hostID distroID agentRevision dispatchTime t db.

(** The update document of [markAsHostUndispatchedWithFunc]. *)
Definition hostUndispatchedUpdate : Update :=
  fun d =>
    set_Details TaskEndDetail.empty
      (set_AbortInfo AbortInfo.empty
        (set_Aborted false
          (set_AgentVersion ""
            (set_HostId ""
              (set_LastHeartbeat utility.ZeroTime
                (set_DispatchTime utility.ZeroTime
                  (set_Status evergreen.TaskUndispatched d))))))).

Definition markAsHostUndispatchedWithFunc
  (doUpdate : Update -> DB -> DB * option error)
  (t : Task) (db : DB) : Task * DB * option error :=
  let '(db', err) := doUpdate hostUndispatchedUpdate db in
  match err with
  | Some e => (t, db', Some e)
  | None =>
      (set_Details TaskEndDetail.empty
        (set_AbortInfo AbortInfo.empty
          (set_Aborted false
            (set_AgentVersion ""
              (set_HostId ""
                (set_LastHeartbeat utility.ZeroTime
                  (set_DispatchTime utility.ZeroTime
                    (set_Status evergreen.TaskUndispatched t))))))),
       db', None)
  end.

Definition MarkAsHostUndispatchedWithContext (t : Task) (db : DB)
  : Task * DB * option error :=
  markAsHostUndispatchedWithFunc (UpdateByID (Id t)) t db.

(** ** End of a task *)

(** The start time [MarkEnd] works with: a zero start time is replaced by
    the finish time minus two hours, or by the ingest time when that
    instant is before it. *)
Definition markEndStartTime (finishTime : Time) (t : Task) : Time :=
  if utility.IsZeroTime (StartTime t) then
    let timedOutStart := time.Add finishTime (-2 * time.Hour)%Z in
    if time.Before timedOutStart (IngestTime t) then IngestTime t
    else timedOutStart
  else StartTime t.

Definition MarkEnd (finishTime : Time) (detail : option TaskEndDetail.t)
  (t : Task) (db : DB) : Task * DB * option error :=
  let t := set_StartTime (markEndStartTime finishTime t) t in
  let t := set_TimeTaken (time.Sub finishTime (StartTime t)) t in
  let detail :=
    if TaskEndDetail.IsEmpty detail
    then TaskEndDetail.mk evergreen.TaskFailed "" "" false
    else default TaskEndDetail.empty detail in
  let t := set_Status (TaskEndDetail.Status detail) t in
  let t := set_FinishTime finishTime t in
  let t := set_Details detail t in
  let t := set_ContainerAllocated false t in
  let t := set_ContainerAllocatedTime time.zero t in
  let '(db', err) :=
    UpdateOne (fun d => Id d =? Id t)
      (fun d =>
         set_ContainerAllocatedTime time.zero
           (set_ContainerAllocated false
             (set_StartTime (StartTime t)
               (set_Details detail
                 (set_TimeTaken (TimeTaken t)
                   (set_Status (TaskEndDetail.Status detail)
                     (set_FinishTime finishTime d)))))))
      db in
  (t, db', err).

(** ** Dependency bookkeeping *)

(** [MarkDependenciesFinished]: on every task with an edge to [t], the
    edges to [t] get their [finished] flag set. *)
Definition markFinishedUpdate (id : string) (finished : bool) : Update :=
  fun d =>
    set_DependsOn
      (map (fun dep =>
              if Dependency.TaskId dep =? id
              then Dependency.set_Finished finished dep else dep)
           (DependsOn d)) d.

Definition MarkDependenciesFinished (finished : bool) (t : Task) (db : DB)
  : DB * option error :=
  if DisplayOnly t then (db, None)
  else
    let q : Query :=
      fun d => existsb (fun dep => Dependency.TaskId dep =? Id t) (DependsOn d) in
    (mkDB (fst (updateMany q (markFinishedUpdate (Id t) finished) (tasks db)))
       (old_tasks db), None).

(** ** Reset *)

(** The in-memory part of [resetTaskUpdate]. *)
Definition resetInMemory (now : Time) (newSecret : string) (t : Task) : Task :=
  set_CanReset false
    (set_ContainerAllocationAttempts 0%Z
      (set_OverrideDependencies false
        (set_HostCreateDetails []
          (set_AgentVersion ""
            (set_ResetFailedWhenFinished false
              (set_ResetWhenFinished false
                (set_HasCedarResults false
                  (set_ResultsFailed false
                    (set_ResultsService ""
                      (set_LogServiceVersion None
                        (set_Details TaskEndDetail.empty
                          (set_LastHeartbeat utility.ZeroTime
                            (set_TimeTaken 0%Z
                              (set_DependenciesMetTime utility.ZeroTime
                                (set_FinishTime utility.ZeroTime
                                  (set_ScheduledTime utility.ZeroTime
                                    (set_StartTime utility.ZeroTime
                                      (set_DispatchTime utility.ZeroTime
                                        (set_Status evergreen.TaskUndispatched
                                          (set_PodID ""
                                            (set_HostId ""
                                              (set_Secret newSecret
                                                (set_ActivatedTime now
                                                  (set_Activated true t)))))))))))))))))))))))).

(** The first stage of the update pipeline, [$set]. *)
Definition resetSetStage (now : Time) (newSecret : string) : Update :=
  fun d =>
    set_UnattainableDependency (unattainableDependencyExpr d)
      (set_ContainerAllocationAttempts 0%Z
        (set_LastHeartbeat utility.ZeroTime
          (set_TimeTaken 0%Z
            (set_DependenciesMetTime utility.ZeroTime
              (set_FinishTime utility.ZeroTime
                (set_ScheduledTime utility.ZeroTime
                  (set_StartTime utility.ZeroTime
                    (set_DispatchTime utility.ZeroTime
                      (set_Status evergreen.TaskUndispatched
                        (set_Secret newSecret
                          (set_ActivatedTime now
                            (set_Activated true d)))))))))))).

(** The second stage, [$unset]. *)
Definition resetUnsetStage : Update :=
  fun d =>
    set_CanReset false
      (set_OverrideDependencies false
        (set_HostCreateDetails []
          (set_PodID ""
            (set_HostId ""
              (set_AgentVersion ""
                (set_ResetFailedWhenFinished false
                  (set_ResetWhenFinished false
                    (set_HasCedarResults false
                      (set_ResultsFailed false
                        (set_ResultsService ""
                          (set_LogServiceVersion None
                            (set_Details TaskEndDetail.empty d)))))))))))).

(** [resetTaskUpdate(t)]: the receiver, when there is one, is rewritten
    in memory; the result is the update pipeline. *)
Definition resetTaskUpdate (now : Time) (newSecret : string) (t : option Task)
  : option Task * Update :=
  (resetInMemory now newSecret <$> t,
   fun d => resetUnsetStage (resetSetStage now newSecret d)).

(** The guard shared by both reset queries: the status is one of the
    completed statuses and [can_reset] is true. *)
Definition resetGuard : Query :=
  fun d =>
    utility.StringSliceContains evergreen.TaskCompletedStatuses (Status d)
    && CanReset d.

Definition resetOneQuery (id : string) : Query :=
  fun d => (Id d =? id) && resetGuard d.

Definition resetManyQuery (taskIDs : list string) : Query :=
  fun d => utility.StringSliceContains taskIDs (Id d) && resetGuard d.

Definition Reset (now : Time) (newSecret : string) (t : Task) (db : DB)
  : Task * DB * option error :=
  let q := resetOneQuery (Id t) in
  let '(t', update) := resetTaskUpdate now newSecret (Some t) in
  let '(db', err) := UpdateOneContext q update db in
  (default t t', db', err).

Definition ResetTasks (now : Time) (newSecret : string) (ts : list Task)
  (db : DB) : DB * option error :=
  match ts with
  | [] => (db, None)
  | _ =>
      let taskIDs := map Id ts in
      let '(_, update) := resetTaskUpdate now newSecret None in
      UpdateAll (resetManyQuery taskIDs) update db
  end.

(** ** Archive *)

(** Modelled from the spec: the id of an archived execution,
    [live.id + "_" + live.execution] (task/db.go is not among the
    sources). *)
Definition MakeOldID (taskID : string) (execution : Z) : string :=
  taskID ++ "_" ++ NilZero.string_of_int (Z.to_int execution).

Definition makeArchivedTask (t : Task) : Task :=
  set_Archived true (set_OldTaskId (Id t) (set_Id (MakeOldID (Id t) (Execution t)) t)).

(** Modelled from the spec: the update applied to the live record by the
    archive step, [can_reset = true] and [aborted = false] (the variable
    is declared in task/db.go, which is not among the sources). *)
Definition updateDisplayTasksAndTasksExpression : Update :=
  fun d => set_CanReset true (set_Aborted false d).

Definition archiveQuery (id : string) : Query :=
  fun d =>
    (Id d =? id)
    && utility.StringSliceContains evergreen.TaskCompletedStatuses (Status d)
    && negb (CanReset d).

Section Archive.
(** [ArchiveMany] archives a display task together with its execution
    tasks inside a transaction; [Archive] hands display tasks over to
    it. *)
Variable ArchiveMany : list Task -> DB -> DB * option error.

Definition Archive (t : Task) (db : DB) : Task * DB * option error :=
  if negb (utility.StringSliceContains evergreen.TaskCompletedStatuses
             (Status t))
  then (t, db, None)
  else if DisplayOnly t && (0 <? length (ExecutionTasks t))%nat then
    let '(db', err) := ArchiveMany [t] db in
    (t, db', Wrap err "archiving display task")
  else
    let archiveTask := makeArchivedTask t in
    let '(old', err) := insert archiveTask (old_tasks db) in
    let db := mkDB (tasks db) old' in
    if bool_decide (err <> None) && negb (IsDuplicateKey err) then
      (t, db, Wrap err "inserting archived task into old tasks")
    else
      let t := set_Aborted false t in
      let '(db', err) :=
        UpdateOne (archiveQuery (Id t)) updateDisplayTasksAndTasksExpression
          db in
      if ResultsNotFound err then (t, db', None)
      else (t, db', Wrap err "updating task").
End Archive.

(** ** Vocabulary of the properties *)

(** The statuses the switch of [SatisfiesDependency] has a case for. *)
Definition recognisedStatus (s : string) : bool :=
  (s =? evergreen.TaskSucceeded) || (s =? "")
  || (s =? evergreen.TaskFailed) || (s =? AllStatuses).

(** The table of the specification: whether the status an edge requires
    is met by the upstream task. *)
Definition requirementMet (dep : Dependency.t) (upstream : Task) : bool :=
  if (Dependency.Status dep =? evergreen.TaskSucceeded)
     || (Dependency.Status dep =? "")
  then Status upstream =? evergreen.TaskSucceeded
  else if Dependency.Status dep =? evergreen.TaskFailed
  then Status upstream =? evergreen.TaskFailed
  else if Dependency.Status dep =? AllStatuses
  then (Status upstream =? evergreen.TaskSucceeded)
       || (Status upstream =? evergreen.TaskFailed)
       || Blocked upstream
  else false.

(** An edge of [t] to [upstream] whose requirement is met. *)
Definition hasMetEdge (t upstream : Task) : Prop :=
  exists dep, In dep (DependsOn t)
    /\ Dependency.TaskId dep = Id upstream
    /\ requirementMet dep upstream = true.

(** The edge that decides: the first one to [upstream] whose status the
    switch has a case for. *)
Definition decidingEdge (t upstream : Task) : option Dependency.t :=
  find (fun dep => (Dependency.TaskId dep =? Id upstream)
                   && recognisedStatus (Dependency.Status dep))
       (DependsOn t).

(** A task with two edges to the same upstream task, the first requiring
    failure and the second success, and that upstream task, succeeded. *)
Definition twoEdgesTask : Task :=
  set_DependsOn
    [Dependency.mk "a" evergreen.TaskFailed false false false;
     Dependency.mk "a" evergreen.TaskSucceeded false false false]
    (set_Id "t" zeroTask).

Definition succeededUpstream : Task :=
  set_Status evergreen.TaskSucceeded (set_Id "a" zeroTask).

(** [t] has at most one edge to [upstream]. *)
Definition singleEdgeTo (t upstream : Task) : Prop :=
  forall d1 d2, In d1 (DependsOn t) -> In d2 (DependsOn t) ->
    Dependency.TaskId d1 = Id upstream -> Dependency.TaskId d2 = Id upstream ->
    d1 = d2.

(** A stored record [d] of the task [t] that waits for a container:
    scheduled to run on a container, with none allocated and fewer than
    the allowed attempts made. *)
Definition awaitsContainer (t d : Task) : Prop :=
  Id d = Id t /\ isContainerScheduled d = true
  /\ ContainerAllocated d = false
  /\ (ContainerAllocationAttempts d < maxContainerAllocationAttempts)%Z.

(** The record with the three fields of a container allocation blanked:
    two records that agree after this differ in those fields only. *)
Definition clearAllocation (d : Task) : Task :=
  set_ContainerAllocationAttempts 0%Z
    (set_ContainerAllocatedTime time.zero (set_ContainerAllocated false d)).

(** The counter of a Go [int]. *)
Definition inIntRange (z : Z) : Prop := (- 2 ^ 63 <= z < 2 ^ 63)%Z.

(** A waiting container task with four attempts made, alone in the store
    or after a record of another task. *)
Definition fourAttemptsTask : Task :=
  set_ContainerAllocationAttempts 4%Z
    (set_ExecutionPlatform ExecutionPlatformContainer
      (set_Activated true
        (set_Status evergreen.TaskUndispatched (set_Id "c" zeroTask)))).

Definition fourAttemptsStore : DB :=
  mkDB [set_Id "other" zeroTask; fourAttemptsTask] [].

(** A task that never started, ingested 100ns after the epoch, and the
    instant three hours after the epoch. *)
Definition neverStartedTask : Task :=
  set_IngestTime 100%Z (set_StartTime utility.ZeroTime (set_Id "t" zeroTask)).

Definition threeHours : Time := (3 * time.Hour)%Z.

(** The receiver after an operation that returns it with the store and
    the error. *)
Definition receiverOf (r : Task * DB * option error) : Task := fst (fst r).
Definition storeOf (r : Task * DB * option error) : DB := snd (fst r).
Definition errorOf (r : Task * DB * option error) : option error := snd r.

(** The record with every instant set to the same value: two records
    that agree after this differ in time fields only. *)
Definition clearTimes (t : Task) : Task :=
  set_CreateTime 0%Z
    (set_IngestTime 0%Z
      (set_DispatchTime 0%Z
        (set_ScheduledTime 0%Z
          (set_StartTime 0%Z
            (set_FinishTime 0%Z
              (set_ActivatedTime 0%Z
                (set_DependenciesMetTime 0%Z
                  (set_ContainerAllocatedTime 0%Z
                    (set_LastHeartbeat 0%Z t))))))))).

Definition equalUpToTimes (a b : Task) : Prop := clearTimes a = clearTimes b.

(** A host task as it is before a dispatch: undispatched, on no host,
    with no agent, abort or end detail recorded. *)
Definition preDispatch (t : Task) : Prop :=
  Status t = evergreen.TaskUndispatched
  /\ HostId t = "" /\ AgentVersion t = ""
  /\ Aborted t = false /\ AbortInfo t = AbortInfo.empty
  /\ Details t = TaskEndDetail.empty.

(** An undispatched host task of distro d1. *)
Definition distroOneTask : Task :=
  set_DistroId "d1" (set_Status evergreen.TaskUndispatched (set_Id "t" zeroTask)).

(** A display task and a store with a task that depends on it. *)
Definition displayTask : Task :=
  set_ExecutionTasks ["e1"] (set_DisplayOnly true (set_Id "display" zeroTask)).

Definition dependentOf (id : string) : Task :=
  set_DependsOn [Dependency.mk id "" false false false]
    (set_Id ("after-" ++ id) zeroTask).

(** A blocked host task: undispatched and activated, with an
    unattainable dependency. *)
Definition blockedHostTask : Task :=
  set_DependsOn [Dependency.mk "a" "" true false false]
    (set_Activated true
      (set_Status evergreen.TaskUndispatched (set_Id "t" zeroTask))).

(** A container task that waits for a container. *)
Definition waitingContainerTask : Task :=
  set_ExecutionPlatform ExecutionPlatformContainer
    (set_Activated true
      (set_Status evergreen.TaskUndispatched (set_Id "c" zeroTask))).

(** The cached flag of a record agrees with its edges: it is the
    disjunction of [unattainable] over [depends_on]. *)
Definition unattainableCacheOk (d : Task) : Prop :=
  UnattainableDependency d
  = fold_right (fun dep acc => Dependency.Unattainable dep || acc) false
      (DependsOn d).

(** Record by record, [c'] is [c] with some records matching [q]
    replaced by their image under [u]. *)
Definition rewrites (q : Query) (u : Update) (c c' : list Task) : Prop :=
  Forall2 (fun d d' => d' = d \/ (q d = true /\ d' = u d)) c c'.

(** A finished task that may be reset, with one unattainable edge and a
    stale cached flag. *)
Definition resettableTask : Task :=
  set_DependsOn [Dependency.mk "a" "" true true false]
    (set_CanReset true
      (set_Status evergreen.TaskFailed (set_Id "t" zeroTask))).

(** A task that is running. *)
Definition runningTask : Task :=
  set_Status evergreen.TaskStarted (set_Id "t" zeroTask).

(** [Archive] takes the branch for a single task: the task is in a
    completed status and is not a display task with execution tasks. *)
Definition archivesAlone (t : Task) : Prop :=
  In (Status t) evergreen.TaskCompletedStatuses
  /\ (DisplayOnly t = false \/ ExecutionTasks t = []).

(** A failed task, and a stand-in for [ArchiveMany] where no display
    task is involved. *)
Definition failedTask : Task :=
  set_Aborted true (set_Execution 2%Z
    (set_Status evergreen.TaskFailed (set_Id "t" zeroTask))).

Definition noArchiveMany : list Task -> DB -> DB * option error :=
  fun _ db => (db, None).

(** A task that started at the given instant. *)
Definition startedAt (start : Time) : Task :=
  set_StartTime start (set_Status evergreen.TaskStarted (set_Id "t" zeroTask)).

(** The record with the fields written at the end of a task blanked:
    two records that agree after this differ in those fields only. *)
Definition clearEnd (d : Task) : Task :=
  set_ContainerAllocatedTime time.zero
    (set_ContainerAllocated false
      (set_StartTime time.zero
        (set_Details TaskEndDetail.empty
          (set_TimeTaken 0%Z
            (set_Status "" (set_FinishTime time.zero d)))))).

(** A store with the record of another task before the record of the
    task that started at 20ns, here activated and with an edge. *)
Definition startedStore : DB :=
  mkDB [set_Id "other" zeroTask;
        set_DependsOn [Dependency.mk "other" "" false false false]
          (set_Activated true (startedAt 20%Z))] [].

(** ** Editing the edges of a task *)

(** What the loop of [AddDependency] over the existing edges decides:
    to return without a change, to hand over to
    [MarkUnattainableDependency], or to fall through to the append. *)
Inductive addDecision : Type :=
| AddNothing
| AddMarkUnattainable (dependencyId : string)
| AddAppend.

Fixpoint addDependencyScan (t : Task) (d : Dependency.t)
  (existing : list Dependency.t) : addDecision :=
  match existing with
  | [] => AddAppend
  | existingDependency :: rest =>
      if Dependency.TaskId d =? Id t then AddNothing
      else if (Dependency.TaskId existingDependency =? Dependency.TaskId d)
              && (Dependency.Status existingDependency =? Dependency.Status d)
      then
        if Bool.eqb (Dependency.Unattainable existingDependency)
             (Dependency.Unattainable d)
        then AddNothing
        else AddMarkUnattainable (Dependency.TaskId existingDependency)
      else addDependencyScan t d rest
  end.

Section AddDependency.
(** [MarkUnattainableDependency] rewrites the matching edges through a
    helper of the package's query file. *)
Variable MarkUnattainableDependency :
  string -> bool -> Task -> DB -> Task * DB * option error.

Definition AddDependency (d : Dependency.t) (t : Task) (db : DB)
  : Task * DB * option error :=
  match addDependencyScan t d (DependsOn t) with
  | AddNothing => (t, db, None)
  | AddMarkUnattainable dependencyId =>
      let '(t', db', err) :=
        MarkUnattainableDependency dependencyId (Dependency.Unattainable d)
          t db in
      (t', db', Wrap err "updating matching dependency")
  | AddAppend =>
      let t' := set_DependsOn (DependsOn t ++ [d])%list t in
      let '(db', err) :=
        UpdateOne (fun doc => Id doc =? Id t')
          (fun doc => set_DependsOn (DependsOn doc ++ [d])%list doc) db in
      (t', db', err)
  end.
End AddDependency.

(** The edges with the one at the highest index among those to
    [dependencyId] taken out, as the loop of [RemoveDependency] from the
    end of the slice does; [None] when there is no such edge. *)
Fixpoint removeFirstEdge (dependencyId : string) (deps : list Dependency.t)
  : option (list Dependency.t) :=
  match deps with
  | [] => None
  | d :: rest =>
      if Dependency.TaskId d =? dependencyId then Some rest
      else cons d <$> removeFirstEdge dependencyId rest
  end.

Definition removeLastEdge (dependencyId : string) (deps : list Dependency.t)
  : option (list Dependency.t) :=
  rev (A:=Dependency.t) <$> removeFirstEdge dependencyId (rev deps).

(** [$pull]: every element of the array that matches is removed. *)
Definition pullEdges (dependencyId : string) : Update :=
  fun doc =>
    set_DependsOn
      (filter (fun d => negb (Dependency.TaskId d =? dependencyId))
         (DependsOn doc)) doc.

Definition RemoveDependency (dependencyId : string) (t : Task) (db : DB)
  : Task * DB * option error :=
  match removeLastEdge dependencyId (DependsOn t) with
  | None =>
      (t, db, Some (ErrMsg ("dependency '" ++ dependencyId ++ "' not found")))
  | Some dependsOn =>
      let t' := set_DependsOn dependsOn t in
      let '(db', err) :=
        UpdateOne (fun doc => Id doc =? Id t') (pullEdges dependencyId) db in
      (t', db', err)
  end.

(** A task with no edge, and edges to the tasks a and b. *)
Definition lonelyTask : Task := set_Id "t" zeroTask.
Definition edgeTo (id status : string) : Dependency.t :=
  Dependency.mk id status false false false.

(** A store with the record of another task before the record of
    [lonelyTask] with the given edges. *)
Definition edgesStore (deps : list Dependency.t) : DB :=
  mkDB [set_Id "other" zeroTask;
        set_Priority 7%Z (set_DependsOn deps lonelyTask)] [].

(** ** Walking the dependency graph downwards *)

(** The query of [getRecursiveDependenciesDown]: the records with an edge
    to one of the given tasks. *)
Definition dependsOnAny (taskIDs : list string) : Query :=
  fun d =>
    existsb (fun dep => utility.StringSliceContains taskIDs
                          (Dependency.TaskId dep))
      (DependsOn d).

(** The projection of the query of [getRecursiveDependenciesDown]:
    [WithFields(IdKey, ActivatedKey, DeactivatedForDependencyKey,
    ExecutionKey, DependsOnKey, BuildIdKey)]. *)
Definition recursiveDependencyFields (d : Task) : Task :=
  set_BuildId (BuildId d)
    (set_DependsOn (DependsOn d)
      (set_Execution (Execution d)
        (set_DeactivatedForDependency (DeactivatedForDependency d)
          (set_Activated (Activated d) (set_Id (Id d) zeroTask))))).

(** The projection of the query for the missing tasks of
    [ActivateDeactivatedDependencies]: [WithFields(ActivatedKey)]. *)
Definition activatedField (d : Task) : Task :=
  set_Activated (Activated d) (set_Id (Id d) zeroTask).

Definition notVisited (taskMap : gset string) : Query :=
  fun t => negb (bool_decide (Id t ∈ taskMap)).

(** [getRecursiveDependenciesDown]: the tasks that depend on the given
    ones, directly or through other tasks, level by level, each as the
    projection of its stored record. [taskMap] is the set of the ids met
    so far ([nil] is the empty set). The recursion is bounded by [fuel];
    [None] is an exhausted bound. *)
Fixpoint getRecursiveDependenciesDown (fuel : nat) (taskIDs : list string)
  (taskMap : gset string) (db : DB) : option (list Task) :=
  match fuel with
  | O => None
  | S fuel' =>
      let taskMap := list_to_set taskIDs ∪ taskMap in
      let dependOnUsTasks :=
        FindAllWithFields (dependsOnAny taskIDs) recursiveDependencyFields db
      in
      let newDeps := List.filter (notVisited taskMap) dependOnUsTasks in
      match newDeps with
      | [] => Some []
      | _ =>
          match getRecursiveDependenciesDown fuel' (map Id newDeps) taskMap db
          with
          | None => None
          | Some recurseTasks => Some (newDeps ++ recurseTasks)%list
          end
      end
  end.

(** Every level adds the id of a stored record that was not met before,
    so one more than the number of records is fuel enough. *)
Definition walkFuel (db : DB) : nat := S (length (tasks db)).

(** The chain a <- b <- c: b depends on a and c on b. *)
Definition chainStore : DB :=
  mkDB [set_Id "a" zeroTask;
        set_DependsOn [edgeTo "a" ""] (set_Id "b" zeroTask);
        set_DependsOn [edgeTo "b" ""] (set_Id "c" zeroTask)] [].

(** ** Topological order of a set of tasks *)

(** [taskNodeMap]: the node of a task id; nodes are numbered in the order
    of the slice, and a later task with the same id replaces an earlier
    one. *)
Definition taskNodeMap (ts : list Task) : gmap string nat :=
  fold_left (fun m it => <[Id (snd it) := fst it]> m)
    (combine (seq 0 (length ts)) ts) ∅.

(** The edges set on the graph, in the order of the two loops: from the
    node of a dependency that is among the tasks to the node of the task
    that has it. *)
Definition dependencyEdges (ts : list Task) : list (nat * nat) :=
  let nodes := taskNodeMap ts in
  flat_map
    (fun task =>
       flat_map
         (fun dep =>
            match nodes !! Dependency.TaskId dep with
            | Some fromNode => [(fromNode, default 0 (nodes !! Id task))]
            | None => []
            end)
         (DependsOn task))
    ts.

Section Activation.
(** The library's topological sort of a directed graph, given by the
    number of its nodes and its edges: an order of the nodes, or [None]
    when the graph cannot be ordered. *)
Variable topoSort : nat -> list (nat * nat) -> option (list nat).

(** [topologicalSort]. Setting an edge from a node to itself panics in
    the graph library; the deferred handler recovers and logs, and the
    function returns its zero results, no tasks and no error. *)
Definition topologicalSort (ts : list Task) : list Task * option error :=
  let edges := dependencyEdges ts in
  if existsb (fun e => Nat.eqb (fst e) (snd e)) edges then ([], None)
  else
    match topoSort (length ts) edges with
    | None =>
        ([], Some (ErrMsg "topologically sorting dependency graph"))
    | Some sorted => (map (fun node => nth node ts zeroTask) sorted, None)
    end.

(** A task the cascade looks at: not activated, and deactivated because
    of a dependency. *)
Definition deactivatedForDependency (t : Task) : bool :=
  negb (Activated t || negb (DeactivatedForDependency t)).

(** One round of the first loop of [ActivateDeactivatedDependencies],
    over [depTaskMap] and [tasksToGet]. *)
Definition collectMissing (taskMap : gset string)
  (st : gset string * list string) (t : Task) : gset string * list string :=
  let depTaskMap := {[Id t]} ∪ fst st in
  if Activated t || negb (DeactivatedForDependency t)
  then (depTaskMap, snd st)
  else
    (depTaskMap,
     (snd st
      ++ map Dependency.TaskId
           (List.filter
              (fun dep =>
                 negb (bool_decide (Dependency.TaskId dep ∈ taskMap))
                 && negb (bool_decide (Dependency.TaskId dep ∈ depTaskMap)))
              (DependsOn t)))%list).

(** The inner loop of the second pass: the first dependency that is
    neither being activated, nor one of the given tasks, nor found
    activated among the fetched tasks, ends it. *)
Fixpoint depsSatisfied (taskMap : gset string)
  (missingTaskMap tasksToActivate : gmap string Task)
  (deps : list Dependency.t) : bool :=
  match deps with
  | [] => true
  | dep :: rest =>
      if negb (bool_decide (is_Some (tasksToActivate !! Dependency.TaskId dep)))
         && negb (bool_decide (Dependency.TaskId dep ∈ taskMap))
      then
        if negb (Activated
                   (default zeroTask (missingTaskMap !! Dependency.TaskId dep)))
        then false
        else depsSatisfied taskMap missingTaskMap tasksToActivate rest
      else depsSatisfied taskMap missingTaskMap tasksToActivate rest
  end.

(** One round of the second loop, over [tasksToActivate]. *)
Definition decideActivation (taskMap : gset string)
  (missingTaskMap : gmap string Task)
  (tasksToActivate : gmap string Task) (t : Task) : gmap string Task :=
  if Activated t || negb (DeactivatedForDependency t) then tasksToActivate
  else if depsSatisfied taskMap missingTaskMap tasksToActivate (DependsOn t)
  then <[Id t := t]> tasksToActivate
  else tasksToActivate.

Definition activationUpdate (caller : string) (now : Time) : Update :=
  fun d =>
    set_UnattainableDependency (unattainableDependencyExpr d)
      (set_ActivatedTime now
        (set_ActivatedBy caller
          (set_DeactivatedForDependency false (set_Activated true d)))).

(** The tasks the cascade decides to activate, by id. *)
Definition tasksToActivateOf (taskIDs : list string)
  (sortedDependencies : list Task) (db : DB) : gmap string Task :=
  let taskMap : gset string := list_to_set taskIDs in
  let tasksToGet :=
    snd (fold_left (collectMissing taskMap) sortedDependencies (∅, [])) in
  let missingTaskMap : gmap string Task :=
    match tasksToGet with
    | [] => ∅
    | _ =>
        fold_left (fun m t => <[Id t := t]> m)
          (FindAllWithFields
             (fun d => utility.StringSliceContains tasksToGet (Id d))
             activatedField db)
          ∅
    end in
  fold_left (decideActivation taskMap missingTaskMap) sortedDependencies ∅.

Definition ActivateDeactivatedDependencies (now : Time) (taskIDs : list string)
  (caller : string) (db : DB) : DB * option error :=
  match getRecursiveDependenciesDown (walkFuel db) taskIDs ∅ db with
  | None => (db, Some (ErrMsg "getting recursive dependencies down"))
  | Some tasksDependingOnTheseTasks =>
      let '(sortedDependencies, err) :=
        topologicalSort tasksDependingOnTheseTasks in
      match err with
      | Some e => (db, Some e)
      | None =>
          let tasksToActivate :=
            tasksToActivateOf taskIDs sortedDependencies db in
          if (size tasksToActivate =? 0)%nat then (db, None)
          else
            let taskIDsToActivate :=
              map (fun kt => Id (snd kt)) (map_to_list tasksToActivate) in
            let '(db', err) :=
              UpdateAll
                (fun d => utility.StringSliceContains taskIDsToActivate (Id d))
                (activationUpdate caller now) db in
            (db', Wrap err "updating activation for dependencies")
      end
  end.
End Activation.

(** ** Deactivation *)

Definition dependencyDeactivatedUpdate : Update :=
  fun d =>
    set_ScheduledTime utility.ZeroTime
      (set_DeactivatedForDependency true (set_Activated false d)).

Definition DeactivateDependencies (taskIDs : list string) (caller : string)
  (db : DB) : DB * option error :=
  match getRecursiveDependenciesDown (walkFuel db) taskIDs ∅ db with
  | None => (db, Some (ErrMsg "getting recursive dependencies down"))
  | Some tasksDependingOnTheseTasks =>
      let tasksToUpdate := List.filter Activated tasksDependingOnTheseTasks in
      let taskIDsToUpdate := map Id tasksToUpdate in
      match tasksToUpdate with
      | [] => (db, None)
      | _ =>
          let '(db', err) :=
            UpdateAll
              (fun d => utility.StringSliceContains taskIDsToUpdate (Id d))
              dependencyDeactivatedUpdate db in
          (db', Wrap err "deactivating dependencies")
      end
  end.

Definition DeactivateTasks (ts : list Task) (updateDependencies : bool)
  (caller : string) (db : DB) : DB * option error :=
  let taskIDs :=
    flat_map
      (fun t => if DisplayOnly t then (ExecutionTasks t ++ [Id t])%list
                else [Id t])
      ts in
  let '(db', err) :=
    UpdateAll (fun d => utility.StringSliceContains taskIDs (Id d))
      (fun d =>
         set_ScheduledTime utility.ZeroTime
           (set_ActivatedBy caller (set_Activated false d)))
      db in
  match err with
  | Some e => (db', Some (ErrWrap "deactivating tasks" e))
  | None =>
      if updateDependencies then DeactivateDependencies taskIDs caller db'
      else (db', None)
  end.

(** A sorter to run the cascade with: it picks, again and again, the
    first node left that has no edge from a node left. *)
Fixpoint pickSort (fuel : nat) (remaining : list nat) (edges : list (nat * nat))
  : option (list nat) :=
  match remaining with
  | [] => Some []
  | _ =>
      match fuel with
      | O => None
      | S fuel' =>
          match
            find (fun v =>
                    forallb
                      (fun e => negb (Nat.eqb (snd e) v
                                      && existsb (Nat.eqb (fst e)) remaining))
                      edges)
              remaining
          with
          | None => None
          | Some v =>
              cons v <$>
                pickSort fuel' (List.filter (fun w => negb (Nat.eqb w v))
                                  remaining) edges
          end
      end
  end.

Definition firstReadySort (n : nat) (edges : list (nat * nat))
  : option (list nat) :=
  pickSort n (seq 0 n) edges.

(** The chain a <- b <- c after a was deactivated with its dependents. *)
Definition deactivatedChain : DB :=
  mkDB [set_Activated true (set_Id "a" zeroTask);
        set_DeactivatedForDependency true
          (set_DependsOn [edgeTo "a" ""] (set_Id "b" zeroTask));
        set_DeactivatedForDependency true
          (set_DependsOn [edgeTo "b" ""] (set_Id "c" zeroTask))] [].

(** The order the cascade relies on: no task of the list has an edge to
    itself or to a task that comes after it. *)
Fixpoint dependenciesFirst (sorted : list Task) : bool :=
  match sorted with
  | [] => true
  | t :: rest =>
      forallb
        (fun dep =>
           negb (utility.StringSliceContains (map Id (t :: rest))
                   (Dependency.TaskId dep)))
        (DependsOn t)
      && dependenciesFirst rest
  end.

(** A dependency that is settled for the cascade: one of the given
    tasks, a task the pass activates, or a task outside the sorted ones
    whose stored record is activated. *)
Definition dependencySettled (taskIDs : list string) (sorted : list Task)
  (db : DB) (acc : gmap string Task) (dep : Dependency.t) : Prop :=
  In (Dependency.TaskId dep) taskIDs
  \/ is_Some (acc !! Dependency.TaskId dep)
  \/ (~ In (Dependency.TaskId dep) (map Id sorted)
      /\ (exists d, In d (tasks db) /\ Id d = Dependency.TaskId dep)
      /\ forall d, In d (tasks db) -> Id d = Dependency.TaskId dep ->
           Activated d = true).

(** The two dependents of a in [deactivatedChain]. *)
Definition chainB : Task :=
  set_DeactivatedForDependency true
    (set_DependsOn [edgeTo "a" ""] (set_Id "b" zeroTask)).
Definition chainC : Task :=
  set_DeactivatedForDependency true
    (set_DependsOn [edgeTo "b" ""] (set_Id "c" zeroTask)).

(** The order [out] of the nodes respects the edges: the source of an
    edge into a node is not that node and does not come after it. *)
Fixpoint respectsEdges (out : list nat) (edges : list (nat * nat)) : bool :=
  match out with
  | [] => true
  | x :: post =>
      forallb
        (fun e => negb (Nat.eqb (snd e) x
                        && existsb (Nat.eqb (fst e)) (x :: post)))
        edges
      && respectsEdges post edges
  end.

(** A task that depends on itself, alone in the store with the task it
    also depends on. *)
Definition selfDependentStore : DB :=
  mkDB [set_Id "a" zeroTask;
        set_DeactivatedForDependency true
          (set_DependsOn [edgeTo "a" ""; edgeTo "b" ""]
             (set_Id "b" zeroTask))] [].

(** [taskNodeMap] from a first node number and a map on. *)
Definition nodeFold (s : nat) (l : list Task) (m0 : gmap string nat)
  : gmap string nat :=
  fold_left (fun m it => <[Id (snd it) := fst it]> m)
    (combine (seq s (length l)) l) m0.

(** The record-wise effect of [DeactivateDependencies] when the tasks
    with the given ids are the activated dependents. *)
Definition deactivateIn (ids : list string) : Update :=
  fun d =>
    if utility.StringSliceContains ids (Id d)
    then dependencyDeactivatedUpdate d else d.

(** The chain a <- b <- c with every task activated. *)
Definition activeChain : DB :=
  mkDB [set_Activated true (set_Id "a" zeroTask);
        set_Activated true
          (set_DependsOn [edgeTo "a" ""] (set_Id "b" zeroTask));
        set_Activated true
          (set_DependsOn [edgeTo "b" ""] (set_Id "c" zeroTask))] [].

(** Two activated tasks, the second with an edge to the first and an
    edge to itself. *)
Definition activeSelfDependent : DB :=
  mkDB [set_Activated true (set_Id "a" zeroTask);
        set_Activated true
          (set_DependsOn [edgeTo "a" ""; edgeTo "b" ""]
             (set_Id "b" zeroTask))] [].

(** The two dependents of a in [activeChain]. *)
Definition activeB : Task :=
  set_Activated true (set_DependsOn [edgeTo "a" ""] (set_Id "b" zeroTask)).
Definition activeC : Task :=
  set_Activated true (set_DependsOn [edgeTo "b" ""] (set_Id "c" zeroTask)).

(** The ids [DeactivateTasks] deactivates: the given tasks and, for a
    display task, its execution tasks. *)
Definition deactivatedTaskIDs (ts : list Task) : list string :=
  flat_map
    (fun t => if DisplayOnly t then (ExecutionTasks t ++ [Id t])%list
              else [Id t])
    ts.

(** ** Time spent on a set of tasks *)

Section TimeSpent.
(** [utility.MaxTime], the latest instant the package works with. *)
Variable MaxTime : Time.

(** One round of the loop of [GetTimeSpent] over the total time taken,
    the earliest start and the latest finish. *)
Definition timeSpentStep (st : Duration * Time * Time) (t : Task)
  : Duration * Time * Time :=
  if DisplayOnly t then st
  else
    let timeTaken := wrapInt (fst (fst st) + TimeTaken t) in
    let earliestStartTime :=
      if negb (utility.IsZeroTime (StartTime t))
         && time.Before (StartTime t) (snd (fst st))
      then StartTime t else snd (fst st) in
    let latestFinishTime :=
      if time.Before (snd st) (FinishTime t) then FinishTime t else snd st in
    (timeTaken, earliestStartTime, latestFinishTime).

(** The final test compares with [==]; the two variables differ from
    their initial values exactly when the loop assigned them, and it
    assigns only instants strictly before [MaxTime], resp. strictly after
    [ZeroTime], so comparing instants decides the same. *)
Definition GetTimeSpent (ts : list Task) : Duration * Duration :=
  let st := fold_left timeSpentStep ts (0%Z, MaxTime, utility.ZeroTime) in
  if time.Equal (snd (fst st)) MaxTime || time.Equal (snd st) utility.ZeroTime
  then (0%Z, 0%Z)
  else (fst (fst st), time.Sub (snd st) (snd (fst st))).
End TimeSpent.

(** * Properties *)

(** The status constants are compared, never computed with. *)
Arguments evergreen.TaskUndispatched : simpl never.
Arguments evergreen.TaskDispatched : simpl never.
Arguments evergreen.TaskSucceeded : simpl never.
Arguments evergreen.TaskFailed : simpl never.
Arguments evergreen.TaskCompletedStatuses : simpl never.
Arguments AllStatuses : simpl never.

(** ** Strings *)

Lemma eqb_true (a b : string) : (a =? b) = true <-> a = b.
Proof. apply String.eqb_eq. Qed.

Lemma eqb_false (a b : string) : (a =? b) = false <-> a <> b.
Proof. apply String.eqb_neq. Qed.

Lemma contains_In (l : list string) (s : string) :
  utility.StringSliceContains l s = true <-> In s l.
Proof.
  unfold utility.StringSliceContains. rewrite existsb_exists. split.
  - intros (x & Hx & He). apply eqb_true in He. now subst.
  - intros H. exists s. split; [assumption | apply String.eqb_refl].
Qed.

(** ** SatisfiesDependency *)

Lemma requirementMet_recognised dep upstream :
  requirementMet dep upstream = true ->
  recognisedStatus (Dependency.Status dep) = true.
Proof.
  unfold requirementMet, recognisedStatus.
  destruct (Dependency.Status dep =? evergreen.TaskSucceeded); [reflexivity |].
  destruct (Dependency.Status dep =? ""); [reflexivity |].
  destruct (Dependency.Status dep =? evergreen.TaskFailed); [reflexivity |].
  destruct (Dependency.Status dep =? AllStatuses); [reflexivity | discriminate].
Qed.

Lemma satisfiesDependencyFrom_find deps upstream :
  satisfiesDependencyFrom deps upstream =
  match find (fun dep => (Dependency.TaskId dep =? Id upstream)
                         && recognisedStatus (Dependency.Status dep)) deps with
  | Some dep => requirementMet dep upstream
  | None => false
  end.
Proof.
  induction deps as [| dep rest IH]; simpl; [reflexivity |].
  destruct (Dependency.TaskId dep =? Id upstream); simpl; [| exact IH].
  unfold recognisedStatus, requirementMet.
  destruct (Dependency.Status dep =? evergreen.TaskSucceeded) eqn:E1; simpl;
    [now rewrite E1 |].
  destruct (Dependency.Status dep =? "") eqn:E2; simpl;
    [now rewrite E1, E2 |].
  destruct (Dependency.Status dep =? evergreen.TaskFailed) eqn:E3; simpl;
    [now rewrite E1, E2, E3 |].
  destruct (Dependency.Status dep =? AllStatuses) eqn:E4; simpl; [| exact IH].
  rewrite E1, E2, E3, E4. simpl.
  destruct (Status upstream =? evergreen.TaskFailed),
           (Status upstream =? evergreen.TaskSucceeded); reflexivity.
Qed.

(** C8, as stated, fails: with two edges to the same upstream task the
    first one decides, although the second one's requirement is met. *)
Lemma SatisfiesDependency_first_edge_decides :
  ~ (SatisfiesDependency twoEdgesTask succeededUpstream = true
     <-> hasMetEdge twoEdgesTask succeededUpstream).
Proof.
  intros [_ H].
  assert (Hf : SatisfiesDependency twoEdgesTask succeededUpstream = false)
    by reflexivity.
  rewrite H in Hf; [discriminate |].
  exists (Dependency.mk "a" evergreen.TaskSucceeded false false false).
  split; [right; left; reflexivity | split; reflexivity].
Qed.

(** C8 (amended): [SatisfiesDependency t upstream] is the verdict of the
    first edge of [t] to [upstream] whose required status is succeeded,
    unset, failed or any, by the table of the specification; it is false
    when there is no edge to [upstream]; and when [t] has at most one edge
    to [upstream] it is true iff [t] has an edge to [upstream] whose
    requirement is met. *)
Theorem SatisfiesDependency_decided_by_first_edge (t upstream : Task) :
  SatisfiesDependency t upstream =
    match decidingEdge t upstream with
    | Some dep => requirementMet dep upstream
    | None => false
    end
  /\ ((forall dep, In dep (DependsOn t) ->
         Dependency.TaskId dep <> Id upstream) ->
      SatisfiesDependency t upstream = false)
  /\ (singleEdgeTo t upstream ->
      (SatisfiesDependency t upstream = true <-> hasMetEdge t upstream)).
Proof.
  unfold SatisfiesDependency, decidingEdge.
  rewrite satisfiesDependencyFrom_find.
  split; [reflexivity |]. split.
  - intros Hno.
    destruct (find _ (DependsOn t)) as [dep |] eqn:Hfind; [| reflexivity].
    apply find_some in Hfind as [Hin Hb].
    apply andb_prop in Hb as [Hid _]. apply eqb_true in Hid.
    now destruct (Hno dep Hin).
  - intros Huniq. split.
    + destruct (find _ (DependsOn t)) as [dep |] eqn:Hfind; [| discriminate].
      intros Hmet. apply find_some in Hfind as [Hin Hb].
      apply andb_prop in Hb as [Hid _]. apply eqb_true in Hid.
      exists dep. auto.
    + intros (dep & Hin & Hid & Hmet).
      destruct (find _ (DependsOn t)) as [dep' |] eqn:Hfind.
      * apply find_some in Hfind as [Hin' Hb].
        apply andb_prop in Hb as [Hid' _]. apply eqb_true in Hid'.
        now rewrite (Huniq dep' dep Hin' Hin Hid' Hid).
      * apply (find_none _ _ Hfind) in Hin.
        rewrite (requirementMet_recognised _ _ Hmet), andb_true_r in Hin.
        apply eqb_false in Hin. contradiction.
Qed.

Lemma SatisfiesDependency_decided_by_first_edge_witness :
  SatisfiesDependency
    (set_DependsOn [Dependency.mk "a" AllStatuses false false false]
       (set_Id "t" zeroTask))
    succeededUpstream = true.
Proof.
  apply (proj2 (proj2 (SatisfiesDependency_decided_by_first_edge
    (set_DependsOn [Dependency.mk "a" AllStatuses false false false]
       (set_Id "t" zeroTask)) succeededUpstream))).
  - intros d1 d2 [H1 | []] [H2 | []] _ _. now rewrite <- H1, <- H2.
  - exists (Dependency.mk "a" AllStatuses false false false).
    split; [left; reflexivity | split; reflexivity].
Defined.

(** ** The driver's single-document update *)

Lemma updateOne_count q u c :
  snd (updateOne q u c) = 0%Z \/ snd (updateOne q u c) = 1%Z.
Proof.
  induction c as [| d rest IH]; simpl; [now left |].
  destruct (q d); simpl; [now right |].
  destruct (updateOne q u rest); simpl in *. exact IH.
Qed.

Lemma updateOne_none q u c :
  (forall d, In d c -> q d = false) -> updateOne q u c = (c, 0%Z).
Proof.
  induction c as [| d rest IH]; simpl; intros H; [reflexivity |].
  rewrite (H d (or_introl eq_refl)), IH; auto.
Qed.

Lemma updateOne_zero q u c :
  snd (updateOne q u c) = 0%Z ->
  fst (updateOne q u c) = c /\ forall d, In d c -> q d = false.
Proof.
  induction c as [| d rest IH]; simpl; [now intuition |].
  destruct (q d) eqn:Hq; simpl; [discriminate |].
  destruct (updateOne q u rest) as [rest' n]; simpl in *.
  intros Hn. destruct (IH Hn) as [-> Hall]. split; [reflexivity |].
  intros d' [<- | Hin]; auto.
Qed.

Lemma updateOne_one q u c :
  snd (updateOne q u c) <> 0%Z ->
  exists pre d post,
    c = (pre ++ d :: post)%list /\ q d = true
    /\ (forall x, In x pre -> q x = false)
    /\ fst (updateOne q u c) = (pre ++ u d :: post)%list.
Proof.
  induction c as [| d rest IH]; simpl; [congruence |].
  destruct (q d) eqn:Hq; simpl.
  - intros _. exists [], d, rest. simpl. intuition.
  - destruct (updateOne q u rest) as [rest' n]; simpl in *.
    intros Hn. destruct (IH Hn) as (pre & d' & post & -> & Hd' & Hpre & ->).
    exists (d :: pre), d', post. simpl. repeat split; auto.
    intros x [<- | Hx]; auto.
Qed.

Lemma updateOne_at (q : Query) u pre d post :
  q d = true -> (forall x, In x pre -> q x = false) ->
  updateOne q u (pre ++ d :: post) = ((pre ++ u d :: post)%list, 1%Z).
Proof.
  intros Hd Hpre. induction pre as [| x pre IH]; simpl.
  - now rewrite Hd.
  - rewrite (Hpre x (or_introl eq_refl)), IH; [reflexivity |].
    intros y Hy. apply Hpre. now right.
Qed.

(** ** Container allocation (C2) *)

Lemma Remaining_at_limit t :
  ContainerAllocationAttempts t = maxContainerAllocationAttempts ->
  RemainingContainerAllocationAttempts t = 0%Z.
Proof.
  unfold RemainingContainerAllocationAttempts. intros ->.
  now rewrite Z.sub_diag.
Qed.

Lemma Remaining_zero t :
  inIntRange (ContainerAllocationAttempts t) ->
  RemainingContainerAllocationAttempts t = 0%Z ->
  ContainerAllocationAttempts t = maxContainerAllocationAttempts.
Proof.
  unfold RemainingContainerAllocationAttempts, wrapInt,
    maxContainerAllocationAttempts, inIntRange.
  intros Hr H. Z.div_mod_to_equations. lia.
Qed.

(** The filter of the update of [MarkAsContainerAllocated] picks the
    records that wait for a container. *)
Lemma allocation_filter_spec t d :
  needsContainerAllocation d && (Id d =? Id t)
  && (ContainerAllocationAttempts d <? maxContainerAllocationAttempts)%Z
  = true
  <-> awaitsContainer t d.
Proof.
  unfold awaitsContainer, needsContainerAllocation.
  rewrite !andb_true_iff, negb_true_iff, Z.ltb_lt. split.
  - intros [[[H1 H2] H3] H4]. apply eqb_true in H3. auto.
  - intros (H1 & H2 & H3 & H4). apply eqb_true in H1. auto.
Qed.

Lemma allocation_filter_false t d :
  ~ awaitsContainer t d ->
  needsContainerAllocation d && (Id d =? Id t)
  && (ContainerAllocationAttempts d <? maxContainerAllocationAttempts)%Z
  = false.
Proof.
  intros Hn. apply not_true_is_false. intros H. apply Hn.
  now apply allocation_filter_spec.
Qed.




(** ** End of a task (C3) *)

Lemma markEndStartTime_zero finishTime t :
  utility.IsZeroTime (StartTime t) = true ->
  markEndStartTime finishTime t
  = Z.max (finishTime - 2 * time.Hour) (IngestTime t).
Proof.
  unfold markEndStartTime, time.Before, time.Add. intros ->.
  destruct (Z.ltb_spec (finishTime + -2 * time.Hour) (IngestTime t)); lia.
Qed.

(** C3, as stated, fails: the backfilled start time of a task ingested
    long before the finish time is the finish time minus two hours, which
    is the larger of the two instants, not the smaller. *)
Lemma MarkEnd_backfill_is_not_min :
  StartTime (receiverOf (MarkEnd threeHours None neverStartedTask (mkDB [] [])))
  <> Z.min (threeHours - 2 * time.Hour) (IngestTime neverStartedTask).
Proof. vm_compute. discriminate. Qed.

(** C3 (amended): in [MarkEnd], a zero start time is backfilled as
    max(finish_time − 2h, ingest_time), before time_taken is computed as
    finish_time − start_time (saturated to the range of a duration, which
    it stays within unless the task was ingested after it finished); the
    first stored record of the task gets the same two values. *)
Theorem MarkEnd_backfills_start_time
  (finishTime : Time) (detail : option TaskEndDetail.t) (t : Task) (db : DB) :
  utility.IsZeroTime (StartTime t) = true ->
  let t' := receiverOf (MarkEnd finishTime detail t db) in
  let start := Z.max (finishTime - 2 * time.Hour) (IngestTime t) in
  StartTime t' = start
  /\ TimeTaken t' = time.Sub finishTime start
  /\ ((IngestTime t <= finishTime)%Z ->
      TimeTaken t' = (finishTime - start)%Z
      /\ (0 <= TimeTaken t' <= 2 * time.Hour)%Z)
  /\ (forall pre d post,
        tasks db = (pre ++ d :: post)%list -> Id d = Id t ->
        (forall x, In x pre -> Id x <> Id t) ->
        exists d',
          tasks (storeOf (MarkEnd finishTime detail t db))
          = (pre ++ d' :: post)%list
          /\ StartTime d' = start
          /\ TimeTaken d' = time.Sub finishTime start).
Proof.
  intros Hzero t' start.
  assert (Hs : StartTime t' = start).
  { subst t' start. unfold MarkEnd, receiverOf. simpl.
    now apply markEndStartTime_zero. }
  assert (Ht : TimeTaken t' = time.Sub finishTime start).
  { subst t' start. unfold MarkEnd, receiverOf. simpl.
    now rewrite markEndStartTime_zero. }
  split; [exact Hs |]. split; [exact Ht |]. split.
  - intros Hle. rewrite Ht. unfold time.Sub, time.minDuration, time.maxDuration.
    subst start. unfold time.Hour, time.Second.
    destruct (Z.ltb_spec (finishTime - Z.max (finishTime - 2 * (3600 * 1000000000)) (IngestTime t)) (- 2 ^ 63));
      [lia |].
    destruct (Z.ltb_spec (2 ^ 63 - 1) (finishTime - Z.max (finishTime - 2 * (3600 * 1000000000)) (IngestTime t)));
      lia.
  - intros pre d post Hc Hid Hpre.
    unfold MarkEnd, storeOf, UpdateOne. simpl. rewrite Hc.
    match goal with
    | |- context [updateOne ?q ?u ?c] =>
        assert (Hupd : fst (updateOne q u c) = (pre ++ u d :: post)%list)
    end.
    { clear - Hid Hpre. induction pre as [| x pre IH]; simpl.
      - apply eqb_true in Hid. now rewrite Hid.
      - assert (Hx : (Id x =? Id t) = false)
          by (apply eqb_false, Hpre; now left).
        rewrite Hx.
        match goal with
        | |- context [updateOne ?q ?u ?c] =>
            destruct (updateOne q u c) as [c' n] eqn:E
        end.
        simpl in *. rewrite <- IH; [reflexivity |].
        intros y Hy. apply Hpre. now right. }
    rewrite Hupd. eexists. split; [reflexivity |]. simpl.
    rewrite markEndStartTime_zero by assumption. split; reflexivity.
Qed.

Lemma MarkEnd_backfills_start_time_witness :
  StartTime (receiverOf (MarkEnd threeHours None neverStartedTask (mkDB [] [])))
  = time.Hour.
Proof.
  exact (proj1 (MarkEnd_backfills_start_time threeHours None neverStartedTask
                  (mkDB [] []) eq_refl)).
Defined.

(** ** Dependents of a display task (C10) *)

(** C10: for a display-only task, [MarkDependenciesFinished] returns
    without error and leaves every record as it is, whichever flag it is
    given. *)
Theorem MarkDependenciesFinished_display_only (finished : bool) (t : Task)
  (db : DB) :
  DisplayOnly t = true ->
  MarkDependenciesFinished finished t db = (db, None).
Proof. unfold MarkDependenciesFinished. now intros ->. Qed.

Lemma MarkDependenciesFinished_display_only_witness :
  MarkDependenciesFinished true displayTask
    (mkDB [dependentOf "display"] [])
  = (mkDB [dependentOf "display"] [], None).
Proof.
  apply (MarkDependenciesFinished_display_only true displayTask).
  reflexivity.
Defined.

(** For a task that is not display-only the update is carried out. *)
Example MarkDependenciesFinished_marks_dependents :
  map (fun d => map Dependency.Finished (DependsOn d))
    (tasks (fst (MarkDependenciesFinished true (set_Id "a" zeroTask)
                   (mkDB [dependentOf "a"; dependentOf "b"] []))))
  = [[true]; [false]].
Proof. reflexivity. Qed.

(** ** Updates addressed by id *)

Lemma UpdateByID_at id u pre d post old :
  Id d = id -> (forall x, In x pre -> Id x <> id) ->
  UpdateByID id u (mkDB (pre ++ d :: post) old)
  = (mkDB (pre ++ u d :: post) old, None).
Proof.
  intros Hd Hpre. unfold UpdateByID. simpl.
  rewrite updateOne_at; [reflexivity | now apply eqb_true |].
  intros x Hx. now apply eqb_false, Hpre.
Qed.

(** ** Host dispatch and its inverse (C7) *)

(** The receiver is rewritten as the stored record is. *)
Lemma MarkAsHostDispatchedWithContext_receiver h di a ts t db :
  receiverOf (MarkAsHostDispatchedWithContext h di a ts t db)
  = hostDispatchedUpdate h di a ts t
  /\ errorOf (MarkAsHostDispatchedWithContext h di a ts t db) = None.
Proof. split; reflexivity. Qed.

Lemma MarkAsHostUndispatchedWithContext_receiver t db :
  receiverOf (MarkAsHostUndispatchedWithContext t db)
  = hostUndispatchedUpdate t
  /\ errorOf (MarkAsHostUndispatchedWithContext t db) = None.
Proof. split; reflexivity. Qed.

(** C7, as stated, fails: dispatching a task of distro d1 to a host of
    distro d2 and undoing the dispatch leaves the task in distro d2. *)
Lemma undispatch_keeps_dispatch_distro :
  preDispatch distroOneTask
  /\ ~ equalUpToTimes
         (hostUndispatchedUpdate
            (hostDispatchedUpdate "h" "d2" "v" 5%Z distroOneTask))
         distroOneTask.
Proof.
  split; [repeat split |].
  intros H. apply (f_equal DistroId) in H. vm_compute in H. discriminate.
Qed.

(** C7 (amended): the dispatch update followed by the undispatch update
    leaves a record whose status is undispatched, whose host and agent
    version are cleared and whose dispatch time and last heartbeat are
    zero; for a record that was undispatched with no host, agent, abort
    or end detail before the dispatch, the result differs from it in no
    field other than the time fields and the distro, and in no field
    other than the time fields when the dispatch was to the task's own
    distro. The receiver and the stored record are rewritten alike. *)
Theorem undispatch_after_dispatch
  (hostID distroID agentRevision : string) (dispatchTime : Time) (t : Task) :
  let t2 :=
    hostUndispatchedUpdate
      (hostDispatchedUpdate hostID distroID agentRevision dispatchTime t) in
  (Status t2 = evergreen.TaskUndispatched
   /\ HostId t2 = "" /\ AgentVersion t2 = ""
   /\ DispatchTime t2 = utility.ZeroTime
   /\ LastHeartbeat t2 = utility.ZeroTime)
  /\ (preDispatch t -> equalUpToTimes (set_DistroId (DistroId t) t2) t)
  /\ (preDispatch t -> DistroId t = distroID -> equalUpToTimes t2 t)
  /\ (forall db,
        let r1 :=
          MarkAsHostDispatchedWithContext hostID distroID agentRevision
            dispatchTime t db in
        let r2 :=
          MarkAsHostUndispatchedWithContext (receiverOf r1) (storeOf r1) in
        receiverOf r2 = t2 /\ errorOf r2 = None
        /\ forall pre d post,
             tasks db = (pre ++ d :: post)%list -> Id d = Id t ->
             (forall x, In x pre -> Id x <> Id t) ->
             tasks (storeOf r2)
             = (pre ++ hostUndispatchedUpdate
                         (hostDispatchedUpdate hostID distroID agentRevision
                            dispatchTime d) :: post)%list).
Proof.
  intros t2. split; [repeat split |]. split; [| split].
  - intros (Hs & Hh & Ha & Hab & Hai & Hd). subst t2.
    unfold equalUpToTimes. destruct t; simpl in *. now subst.
  - intros (Hs & Hh & Ha & Hab & Hai & Hd) Hdi. subst t2.
    unfold equalUpToTimes. destruct t; simpl in *. now subst.
  - intros db r1 r2. split; [reflexivity |]. split; [reflexivity |].
    intros pre d post Hc Hid Hpre. subst r2 r1.
    unfold MarkAsHostUndispatchedWithContext, MarkAsHostDispatchedWithContext,
      markAsHostUndispatchedWithFunc, markAsHostDispatchedWithFunc.
    destruct db as [c old]. simpl in Hc. subst c.
    rewrite UpdateByID_at by assumption.
    cbn beta iota. unfold receiverOf, storeOf. cbn [fst snd].
    change (Id (set_Details _ _)) with (Id t).
    rewrite UpdateByID_at by assumption. reflexivity.
Qed.

Lemma undispatch_after_dispatch_witness :
  equalUpToTimes
    (hostUndispatchedUpdate
       (hostDispatchedUpdate "h" "d1" "v" 5%Z distroOneTask))
    distroOneTask.
Proof.
  pose proof (undispatch_after_dispatch "h" "d1" "v" 5%Z distroOneTask) as H.
  cbv zeta in H. destruct H as (_ & _ & H & _).
  apply H; [repeat split | reflexivity].
Defined.

(** ** Dispatchability *)

Lemma dependenciesReady_all deps :
  dependenciesReady deps = true ->
  forall dep, In dep deps ->
    Dependency.Unattainable dep = false /\ Dependency.Finished dep = true.
Proof.
  induction deps as [| d rest IH]; simpl; [now intros _ dep [] |].
  destruct (Dependency.Unattainable d) eqn:Hu; [discriminate |].
  destruct (Dependency.Finished d) eqn:Hf; simpl; [| discriminate].
  intros Hrest dep [<- | Hin]; auto.
Qed.

Lemma isContainerScheduled_inv t :
  isContainerScheduled t = true ->
  IsContainerTask t = true
  /\ Status t = evergreen.TaskUndispatched
  /\ Activated t = true
  /\ (evergreen.DisabledTaskPriority < Priority t)%Z
  /\ Blocked t = false.
Proof.
  unfold isContainerScheduled, Blocked.
  destruct (IsContainerTask t); simpl; [| discriminate].
  destruct (Status t =? evergreen.TaskUndispatched) eqn:Hs; simpl;
    [| discriminate].
  destruct (Activated t); simpl; [| discriminate].
  destruct (Z.leb_spec (Priority t) evergreen.DisabledTaskPriority);
    [discriminate |].
  apply eqb_true in Hs.
  destruct (OverrideDependencies t); simpl; intros Hd; repeat split; auto.
  apply not_true_is_false. intros He. apply existsb_exists in He.
  destruct He as (dep & Hin & Hu).
  destruct (dependenciesReady_all _ Hd dep Hin) as [Hn _]. congruence.
Qed.

(** A blocked task will not run and is not dispatchable to a host. *)
Theorem Blocked_excludes_WillRun (t : Task) :
  Blocked t = true ->
  WillRun t = false /\ IsHostDispatchable t = false
  /\ isContainerScheduled t = false.
Proof.
  intros Hb. assert (Hw : WillRun t = false).
  { unfold WillRun. rewrite Hb. simpl. now rewrite andb_false_r. }
  split; [exact Hw |]. split.
  - unfold IsHostDispatchable. rewrite Hw. apply andb_false_r.
  - destruct (isContainerScheduled t) eqn:Hc; [| reflexivity].
    apply isContainerScheduled_inv in Hc. destruct Hc as (_ & _ & _ & _ & Hn).
    congruence.
Qed.

Lemma Blocked_excludes_WillRun_witness :
  WillRun blockedHostTask = false.
Proof.
  exact (proj1 (Blocked_excludes_WillRun blockedHostTask eq_refl)).
Defined.

(** Whichever way a task is dispatchable, it is undispatched, activated
    and not blocked. *)
Theorem IsDispatchable_sound (t : Task) :
  IsDispatchable t = true ->
  Status t = evergreen.TaskUndispatched
  /\ Activated t = true
  /\ Blocked t = false.
Proof.
  unfold IsDispatchable. intros H.
  apply orb_prop in H as [H | H]; [apply orb_prop in H as [H | H] |].
  - unfold IsHostDispatchable, WillRun in H.
    apply andb_prop in H as [_ H]. apply andb_prop in H as [H Hb].
    apply andb_prop in H as [Hs Ha]. apply eqb_true in Hs.
    apply negb_true_iff in Hb. auto.
  - unfold ShouldAllocateContainer in H.
    destruct (ContainerAllocated t); [discriminate |].
    destruct (RemainingContainerAllocationAttempts t =? 0)%Z; [discriminate |].
    apply isContainerScheduled_inv in H. tauto.
  - unfold IsContainerDispatchable in H.
    destruct (ContainerAllocated t); [| discriminate]. simpl in H.
    apply isContainerScheduled_inv in H. tauto.
Qed.

Lemma IsDispatchable_sound_witness :
  Status waitingContainerTask = evergreen.TaskUndispatched.
Proof.
  exact (proj1 (IsDispatchable_sound waitingContainerTask eq_refl)).
Defined.

(** At most one of the three routes to dispatch applies to a task: a host
    task is not a container task, and a container is either still to be
    allocated or already allocated. *)
Theorem dispatch_routes_exclusive (t : Task) :
  (IsHostDispatchable t = true ->
   ShouldAllocateContainer t = false /\ IsContainerDispatchable t = false)
  /\ (ShouldAllocateContainer t = true -> IsContainerDispatchable t = false).
Proof.
  split.
  - unfold IsHostDispatchable, IsHostTask, ShouldAllocateContainer,
      IsContainerDispatchable, isContainerScheduled, IsContainerTask.
    intros H. apply andb_prop in H as [H _]. apply andb_prop in H as [H _].
    assert (Hc : (ExecutionPlatform t =? ExecutionPlatformContainer) = false).
    { apply eqb_false. intros Heq. rewrite Heq in H. discriminate. }
    rewrite Hc. simpl.
    destruct (ContainerAllocated t); simpl; [now split |].
    now destruct (RemainingContainerAllocationAttempts t =? 0)%Z.
  - unfold ShouldAllocateContainer, IsContainerDispatchable.
    now destruct (ContainerAllocated t).
Qed.

Lemma dispatch_routes_exclusive_witness :
  IsContainerDispatchable waitingContainerTask = false.
Proof.
  exact (proj2 (dispatch_routes_exclusive waitingContainerTask) eq_refl).
Defined.

(** ** Updates, record by record *)

Lemma rewrites_refl q u c : rewrites q u c c.
Proof. induction c; constructor; auto. Qed.

Lemma updateOne_rewrites q u c : rewrites q u c (fst (updateOne q u c)).
Proof.
  induction c as [| d rest IH]; simpl; [constructor |].
  destruct (q d) eqn:Hq; simpl.
  - constructor; [right; auto | apply rewrites_refl].
  - destruct (updateOne q u rest); simpl in *. constructor; auto.
Qed.

Lemma updateMany_rewrites q u c : rewrites q u c (fst (updateMany q u c)).
Proof.
  unfold updateMany. simpl. induction c as [| d rest IH]; simpl;
    constructor; auto.
  destruct (q d) eqn:Hq; auto.
Qed.

Lemma rewrites_Forall (P : Task -> Prop) q u c c' :
  rewrites q u c c' ->
  (forall d, q d = true -> P (u d)) ->
  Forall P c -> Forall P c'.
Proof.
  intros Hr Hu. induction Hr as [| d d' c c' Hd _ IH]; intros Hc;
    [constructor |].
  inversion Hc; subst. constructor; [| auto].
  destruct Hd as [-> | [Hq ->]]; auto.
Qed.

Lemma rewrites_none q u c c' :
  rewrites q u c c' -> (forall d, In d c -> q d = false) -> c' = c.
Proof.
  induction 1 as [| d d' c c' Hd _ IH]; intros Hn; [reflexivity |].
  rewrite IH by (intros; apply Hn; now right).
  destruct Hd as [-> | [Hq _]]; [reflexivity |].
  rewrite Hn in Hq by now left. discriminate.
Qed.

(** ** Reset *)

Lemma anyElementTrue_fold deps :
  anyElementTrue (map Dependency.Unattainable deps)
  = fold_right (fun dep acc => Dependency.Unattainable dep || acc) false deps.
Proof. induction deps as [| d r IH]; simpl; [reflexivity | now rewrite IH]. Qed.

Lemma reset_update_cache now newSecret d :
  unattainableCacheOk (resetUnsetStage (resetSetStage now newSecret d)).
Proof. unfold unattainableCacheOk. simpl. apply anyElementTrue_fold. Qed.

Lemma Reset_store now newSecret t db :
  storeOf (Reset now newSecret t db)
  = mkDB (fst (updateOne (resetOneQuery (Id t))
                 (fun d => resetUnsetStage (resetSetStage now newSecret d))
                 (tasks db)))
         (old_tasks db).
Proof. reflexivity. Qed.

Lemma ResetTasks_store now newSecret ts db :
  ts <> [] ->
  fst (ResetTasks now newSecret ts db)
  = mkDB (fst (updateMany (resetManyQuery (map Id ts))
                 (fun d => resetUnsetStage (resetSetStage now newSecret d))
                 (tasks db)))
         (old_tasks db).
Proof. destruct ts; [congruence | reflexivity]. Qed.

Lemma Reset_store_unchanged now newSecret t db :
  (forall d, In d (tasks db) -> Id d = Id t -> resetGuard d = false) ->
  storeOf (Reset now newSecret t db) = db.
Proof.
  intros Hno. rewrite Reset_store.
  rewrite (rewrites_none _ _ _ _ (updateOne_rewrites _ _ _)).
  - now destruct db.
  - intros d Hin. unfold resetOneQuery.
    destruct (Id d =? Id t) eqn:Hid; [| reflexivity].
    apply eqb_true in Hid. now rewrite (Hno d Hin Hid).
Qed.

(** [Reset] on a task none of whose stored records is in a completed
    status with [can_reset] set changes nothing in the store; the
    receiver is rewritten to the reset values all the same. *)
Theorem Reset_without_match (now : Time) (newSecret : string) (t : Task)
  (db : DB) :
  (forall d, In d (tasks db) -> Id d = Id t -> resetGuard d = false) ->
  storeOf (Reset now newSecret t db) = db
  /\ Status (receiverOf (Reset now newSecret t db))
     = evergreen.TaskUndispatched
  /\ Activated (receiverOf (Reset now newSecret t db)) = true
  /\ Secret (receiverOf (Reset now newSecret t db)) = newSecret.
Proof.
  intros Hno. split; [| repeat split].
  now apply Reset_store_unchanged.
Qed.

Lemma Reset_without_match_witness :
  storeOf (Reset 9%Z "s" runningTask (mkDB [runningTask] []))
  = mkDB [runningTask] [].
Proof.
  apply (Reset_without_match 9%Z "s" runningTask (mkDB [runningTask] [])).
  intros d [<- | []] _. reflexivity.
Defined.

(** [ResetTasks] likewise leaves the store as it is when no record of
    the given tasks passes the guard, and does nothing on an empty list. *)
Theorem ResetTasks_without_match (now : Time) (newSecret : string)
  (ts : list Task) (db : DB) :
  (forall d, In d (tasks db) -> In (Id d) (map Id ts) ->
     resetGuard d = false) ->
  fst (ResetTasks now newSecret ts db) = db.
Proof.
  intros Hno. destruct ts as [| t0 ts0] eqn:Hts; [reflexivity |].
  rewrite ResetTasks_store by discriminate.
  rewrite (rewrites_none _ _ _ _ (updateMany_rewrites _ _ _)).
  - now destruct db.
  - intros d Hin. unfold resetManyQuery.
    destruct (utility.StringSliceContains (map Id (t0 :: ts0)) (Id d)) eqn:Hc;
      [| reflexivity].
    apply contains_In in Hc. now rewrite (Hno d Hin Hc).
Qed.

Lemma ResetTasks_without_match_witness :
  fst (ResetTasks 9%Z "s" [runningTask] (mkDB [runningTask] []))
  = mkDB [runningTask] [].
Proof.
  apply (ResetTasks_without_match 9%Z "s" [runningTask]
           (mkDB [runningTask] [])).
  intros d [<- | []] _. reflexivity.
Defined.



(** A stale flag is repaired by a reset that applies. *)
Example Reset_repairs_stale_cache :
  map UnattainableDependency
    (tasks (storeOf (Reset 9%Z "s" resettableTask (mkDB [resettableTask] []))))
  = [true].
Proof. reflexivity. Qed.

Lemma resetGuard_after_reset now newSecret d :
  resetGuard (resetUnsetStage (resetSetStage now newSecret d)) = false.
Proof. unfold resetGuard. simpl. now rewrite ?andb_false_r. Qed.

(** What [Reset] leaves alone: the archive, the records of other tasks,
    and on the record it rewrites the id, the execution number and the
    edges; the record it rewrites becomes undispatched and activated,
    with no allocation attempt and [can_reset] cleared. *)
Theorem Reset_frame (now : Time) (newSecret : string) (t : Task) (db : DB) :
  old_tasks (storeOf (Reset now newSecret t db)) = old_tasks db
  /\ Forall2
       (fun d d' =>
          Id d' = Id d /\ Execution d' = Execution d
          /\ DependsOn d' = DependsOn d
          /\ (Id d <> Id t -> d' = d)
          /\ (d' = d
              \/ (Status d' = evergreen.TaskUndispatched
                  /\ Activated d' = true /\ CanReset d' = false
                  /\ ContainerAllocationAttempts d' = 0%Z
                  /\ Secret d' = newSecret /\ ActivatedTime d' = now)))
       (tasks db) (tasks (storeOf (Reset now newSecret t db))).
Proof.
  split; [reflexivity |].
  pose proof (updateOne_rewrites (resetOneQuery (Id t))
    (fun d => resetUnsetStage (resetSetStage now newSecret d)) (tasks db))
    as H.
  rewrite Reset_store. simpl tasks.
  induction H as [| d d' c c' Hd _ IH]; constructor; auto.
  destruct Hd as [-> | [Hq ->]].
  - repeat split; auto.
  - repeat split; auto.
    + intros Hne. unfold resetOneQuery in Hq.
      apply andb_prop in Hq as [Hid _]. apply eqb_true in Hid. contradiction.
    + right. repeat split.
Qed.

Lemma NoDup_ids_app_other pre (d : Task) post x :
  List.NoDup (map Id (pre ++ d :: post)) ->
  In x (pre ++ post) -> Id x <> Id d.
Proof.
  rewrite map_app. simpl. intros Hnd Hin Heq.
  apply NoDup_remove_2 in Hnd. apply Hnd.
  rewrite <- Heq, <- map_app. now apply in_map.
Qed.

(** A reset that is tried again finds nothing to do: with one record per
    task id, after [Reset] no record of the task passes the guard, and a
    second [Reset] of the task leaves the store as the first one left
    it. *)
Theorem Reset_retry_is_noop (now now' : Time) (newSecret newSecret' : string)
  (t t' : Task) (db : DB) :
  List.NoDup (map Id (tasks db)) -> Id t' = Id t ->
  let db1 := storeOf (Reset now newSecret t db) in
  (forall d, In d (tasks db1) -> Id d = Id t -> resetGuard d = false)
  /\ storeOf (Reset now' newSecret' t' db1) = db1.
Proof.
  intros Hnd Hid db1.
  assert (Hg : forall d, In d (tasks db1) -> Id d = Id t ->
                 resetGuard d = false).
  { subst db1. rewrite Reset_store. simpl tasks.
    set (q := resetOneQuery (Id t)).
    set (u := fun d => resetUnsetStage (resetSetStage now newSecret d)).
    destruct (updateOne_count q u (tasks db)) as [H0 | H1].
    - destruct (updateOne_zero q u (tasks db) H0) as [-> Hall].
      intros d Hin Hd. specialize (Hall d Hin). unfold q, resetOneQuery in Hall.
      apply eqb_true in Hd. now rewrite Hd in Hall.
    - destruct (updateOne_one q u (tasks db)) as
        (pre & d0 & post & Hc & Hq & _ & ->); [rewrite H1; discriminate |].
      rewrite Hc in Hnd.
      assert (Hd0 : Id d0 = Id t).
      { unfold q, resetOneQuery in Hq. apply andb_prop in Hq as [Hq _].
        now apply eqb_true in Hq. }
      intros d Hin Hd. apply in_app_or in Hin as [Hin | [<- | Hin]].
      + exfalso. apply (NoDup_ids_app_other pre d0 post d Hnd);
          [apply in_or_app; now left | congruence].
      + apply resetGuard_after_reset.
      + exfalso. apply (NoDup_ids_app_other pre d0 post d Hnd);
          [apply in_or_app; now right | congruence]. }
  split; [exact Hg |].
  apply Reset_store_unchanged. intros d Hin Hd. apply Hg; congruence.
Qed.

Lemma Reset_retry_is_noop_witness :
  storeOf (Reset 10%Z "s2" resettableTask
             (storeOf (Reset 9%Z "s" resettableTask
                         (mkDB [resettableTask] []))))
  = storeOf (Reset 9%Z "s" resettableTask (mkDB [resettableTask] [])).
Proof.
  apply (Reset_retry_is_noop 9%Z 10%Z "s" "s2" resettableTask resettableTask
           (mkDB [resettableTask] [])).
  - repeat constructor. intros [].
  - reflexivity.
Defined.

(** ** Archive *)

Lemma insert_present d c :
  existsb (fun d' => Id d' =? Id d) c = true ->
  insert d c = (c, Some ErrDuplicateKey).
Proof. unfold insert. now intros ->. Qed.

Lemma insert_absent d c :
  existsb (fun d' => Id d' =? Id d) c = false ->
  insert d c = ((c ++ [d])%list, None).
Proof. unfold insert. now intros ->. Qed.

Lemma existsb_id_after_insert d c :
  existsb (fun d' => Id d' =? Id d) (fst (insert d c)) = true.
Proof.
  unfold insert. destruct (existsb _ c) eqn:He; simpl; [exact He |].
  rewrite existsb_app. simpl. now rewrite String.eqb_refl, orb_true_r.
Qed.

Lemma Archive_alone AM t db :
  archivesAlone t ->
  Archive AM t db =
  (set_Aborted false t,
   mkDB (fst (updateOne (archiveQuery (Id t))
                updateDisplayTasksAndTasksExpression (tasks db)))
        (fst (insert (makeArchivedTask t) (old_tasks db))),
   None).
Proof.
  intros [Hs Hd]. unfold Archive.
  apply contains_In in Hs. rewrite Hs. simpl negb. cbv iota.
  assert (Hb : DisplayOnly t && (0 <? length (ExecutionTasks t))%nat = false).
  { destruct Hd as [-> | ->]; [reflexivity | apply andb_false_r]. }
  rewrite Hb. unfold insert.
  destruct (existsb _ (old_tasks db)); reflexivity.
Qed.

(** [Archive] copies the receiver into the archive under a new id: when
    no archived record has that id yet, the archive grows by exactly one
    record, which is marked archived, remembers the live id, and agrees
    with the receiver on every other field. A task that is not in a
    completed status is not archived at all. *)
Theorem Archive_inserts_copy
  (AM : list Task -> DB -> DB * option error) (t : Task) (db : DB) :
  (~ In (Status t) evergreen.TaskCompletedStatuses ->
   Archive AM t db = (t, db, None))
  /\ (archivesAlone t ->
      (forall d, In d (old_tasks db) -> Id d <> Id (makeArchivedTask t)) ->
      old_tasks (storeOf (Archive AM t db))
      = (old_tasks db ++ [makeArchivedTask t])%list
      /\ errorOf (Archive AM t db) = None
      /\ Archived (makeArchivedTask t) = true
      /\ OldTaskId (makeArchivedTask t) = Id t
      /\ set_Id (Id t) (set_OldTaskId (OldTaskId t)
           (set_Archived (Archived t) (makeArchivedTask t))) = t).
Proof.
  split.
  - intros Hn. unfold Archive.
    destruct (utility.StringSliceContains _ (Status t)) eqn:Hc;
      [| reflexivity].
    apply contains_In in Hc. contradiction.
  - intros Ha Hfree. rewrite Archive_alone by assumption.
    unfold storeOf, errorOf. simpl.
    rewrite insert_absent.
    + repeat split. now destruct t.
    + apply not_true_is_false. intros He. apply existsb_exists in He.
      destruct He as (d & Hin & Heq). apply eqb_true in Heq.
      now apply (Hfree d Hin).
Qed.

Lemma Archive_inserts_copy_witness :
  old_tasks (storeOf (Archive noArchiveMany failedTask (mkDB [failedTask] [])))
  = [makeArchivedTask failedTask].
Proof.
  apply (Archive_inserts_copy noArchiveMany failedTask (mkDB [failedTask] [])).
  - split; [right; left; reflexivity | left; reflexivity].
  - intros d [].
Defined.

(** Archiving the same execution of a task a second time adds nothing:
    the insert meets the record of the first call, the duplicate key is
    tolerated, and the archive is as the first call left it. *)
Theorem Archive_twice
  (AM : list Task -> DB -> DB * option error) (t t' : Task) (db : DB) :
  archivesAlone t -> archivesAlone t' ->
  Id t' = Id t -> Execution t' = Execution t ->
  let db1 := storeOf (Archive AM t db) in
  old_tasks (storeOf (Archive AM t' db1)) = old_tasks db1
  /\ errorOf (Archive AM t' db1) = None
  /\ existsb (fun d => Id d =? Id (makeArchivedTask t)) (old_tasks db1)
     = true.
Proof.
  intros Ha Ha' Hid Hex db1.
  assert (Hin : existsb (fun d => Id d =? Id (makeArchivedTask t'))
                  (old_tasks db1) = true).
  { subst db1. rewrite Archive_alone by assumption. unfold storeOf. simpl.
    rewrite Hid, Hex. apply (existsb_id_after_insert (makeArchivedTask t)). }
  rewrite Archive_alone by assumption. unfold storeOf, errorOf. simpl.
  rewrite insert_present by exact Hin. simpl.
  repeat split. simpl in Hin. simpl. now rewrite Hid, Hex in Hin.
Qed.

Lemma Archive_twice_witness :
  old_tasks
    (storeOf (Archive noArchiveMany failedTask
       (storeOf (Archive noArchiveMany failedTask (mkDB [failedTask] [])))))
  = old_tasks
      (storeOf (Archive noArchiveMany failedTask (mkDB [failedTask] []))).
Proof.
  apply (Archive_twice noArchiveMany failedTask failedTask
           (mkDB [failedTask] [])); try reflexivity;
    (split; [right; left; reflexivity | left; reflexivity]).
Defined.

(** ** End of a task, in general *)

(** [MarkEnd] keeps a start time that is set, takes the time between it
    and the finish time as the time taken, records the status of the end
    detail (failed when the detail is empty) and releases the container,
    keeping every other field of the receiver. The first stored record
    of the task gets the same values and keeps every other field; the
    records before and after it and the archive are as they were, and a
    store without a record of the task is not changed at all. *)
Theorem MarkEnd_records_end
  (finishTime : Time) (detail : option TaskEndDetail.t) (t : Task) (db : DB) :
  utility.IsZeroTime (StartTime t) = false ->
  let t' := receiverOf (MarkEnd finishTime detail t db) in
  (StartTime t' = StartTime t
   /\ TimeTaken t' = time.Sub finishTime (StartTime t)
   /\ FinishTime t' = finishTime
   /\ ContainerAllocated t' = false
   /\ Status t' = TaskEndDetail.Status (Details t')
   /\ (TaskEndDetail.IsEmpty detail = true ->
       Status t' = evergreen.TaskFailed)
   /\ (TaskEndDetail.IsEmpty detail = false ->
       Some (Details t') = detail)
   /\ clearEnd t' = clearEnd t)
  /\ old_tasks (storeOf (MarkEnd finishTime detail t db)) = old_tasks db
  /\ (forall pre d post,
        tasks db = (pre ++ d :: post)%list ->
        Id d = Id t ->
        (forall x, In x pre -> Id x <> Id t) ->
        exists d',
          tasks (storeOf (MarkEnd finishTime detail t db))
          = (pre ++ d' :: post)%list
          /\ StartTime d' = StartTime t' /\ TimeTaken d' = TimeTaken t'
          /\ FinishTime d' = finishTime /\ Status d' = Status t'
          /\ Details d' = Details t' /\ ContainerAllocated d' = false
          /\ ContainerAllocatedTime d' = time.zero
          /\ clearEnd d' = clearEnd d)
  /\ ((forall d, In d (tasks db) -> Id d <> Id t) ->
      tasks (storeOf (MarkEnd finishTime detail t db)) = tasks db).
Proof.
  intros Hz t'. subst t'. unfold MarkEnd, receiverOf, storeOf, UpdateOne.
  simpl. unfold markEndStartTime. rewrite Hz.
  split; [| split; [reflexivity | split]].
  - do 5 (split; [reflexivity |]). split; [| split].
    + now intros ->.
    + intros He. rewrite He. destruct detail; [reflexivity | discriminate].
    + reflexivity.
  - intros pre d post Hdb Hid Hpre. rewrite Hdb.
    rewrite updateOne_at.
    + simpl. eexists. split; [reflexivity |]. simpl.
      do 7 (split; [reflexivity |]). reflexivity.
    + now apply eqb_true.
    + intros x Hx. now apply eqb_false, Hpre.
  - intros Hno. rewrite updateOne_none; [reflexivity |].
    intros d Hd. now apply eqb_false, Hno.
Qed.

Lemma MarkEnd_records_end_witness :
  exists d',
    tasks (storeOf (MarkEnd 50%Z None (startedAt 20%Z) startedStore))
    = [set_Id "other" zeroTask; d']
    /\ TimeTaken d' = 30%Z /\ Status d' = evergreen.TaskFailed
    /\ Activated d' = true.
Proof.
  pose proof (MarkEnd_records_end 50%Z None (startedAt 20%Z) startedStore
                eq_refl) as H.
  cbv zeta in H. destruct H as (_ & _ & H & _).
  destruct (H [set_Id "other" zeroTask]
              (set_DependsOn [Dependency.mk "other" "" false false false]
                 (set_Activated true (startedAt 20%Z))) [] eq_refl eq_refl)
    as (d' & Hs & _ & Ht & _ & Hst & _ & _ & _ & Hrest).
  - intros x [<- | []]. discriminate.
  - exists d'. split; [exact Hs |]. split; [rewrite Ht; reflexivity |].
    split; [rewrite Hst; reflexivity |].
    change (Activated d') with (Activated (clearEnd d')).
    now rewrite Hrest.
Defined.

(** ** Editing the edges of a task *)

Lemma addDependencyScan_self t d existing :
  existing <> [] -> Dependency.TaskId d = Id t ->
  addDependencyScan t d existing = AddNothing.
Proof.
  destruct existing as [| e rest]; [congruence |]. intros _ Hid. simpl.
  apply eqb_true in Hid. now rewrite Hid.
Qed.

Lemma addDependencyScan_fresh t d existing :
  Dependency.TaskId d <> Id t ->
  (forall e, In e existing ->
     Dependency.TaskId e <> Dependency.TaskId d
     \/ Dependency.Status e <> Dependency.Status d) ->
  addDependencyScan t d existing = AddAppend.
Proof.
  intros Hne. apply eqb_false in Hne.
  induction existing as [| e rest IH]; simpl; [reflexivity |].
  intros Hall. rewrite Hne.
  assert (Hm : (Dependency.TaskId e =? Dependency.TaskId d)
               && (Dependency.Status e =? Dependency.Status d) = false).
  { destruct (Hall e (or_introl eq_refl)) as [H | H];
      apply eqb_false in H; rewrite H; [reflexivity | apply andb_false_r]. }
  rewrite Hm. apply IH. intros e' He'. apply Hall. now right.
Qed.

Lemma addDependencyScan_same t d existing :
  Dependency.TaskId d <> Id t ->
  (exists e, In e existing /\ Dependency.TaskId e = Dependency.TaskId d
             /\ Dependency.Status e = Dependency.Status d) ->
  (forall e, In e existing ->
     Dependency.TaskId e = Dependency.TaskId d ->
     Dependency.Status e = Dependency.Status d ->
     Dependency.Unattainable e = Dependency.Unattainable d) ->
  addDependencyScan t d existing = AddNothing.
Proof.
  intros Hne. apply eqb_false in Hne.
  induction existing as [| e rest IH]; simpl.
  - now intros (e & [] & _).
  - intros (e0 & Hin & Hid & Hst) Hall. rewrite Hne.
    destruct ((Dependency.TaskId e =? Dependency.TaskId d)
              && (Dependency.Status e =? Dependency.Status d)) eqn:Hm.
    + apply andb_prop in Hm as [H1 H2].
      apply eqb_true in H1. apply eqb_true in H2.
      rewrite (Hall e (or_introl eq_refl) H1 H2).
      now rewrite Bool.eqb_reflx.
    + apply IH.
      * destruct Hin as [<- | Hin].
        -- apply eqb_true in Hid. apply eqb_true in Hst.
           rewrite Hid, Hst in Hm. discriminate.
        -- exists e0. auto.
      * intros e' He'. apply Hall. now right.
Qed.



(** [AddDependency] compares edges by task and required status: an edge
    that is there already with the same flag changes nothing; an edge to
    another task, or to the same task with another required status, is
    appended after the existing ones, on the receiver and on the first
    stored record of the task, whose other fields are kept; the records
    before and after it and the archive are as they were, and a store
    without a record of the task is not changed. *)
Theorem AddDependency_appends_new_edges
  (M : string -> bool -> Task -> DB -> Task * DB * option error)
  (d : Dependency.t) (t : Task) (db : DB) :
  Dependency.TaskId d <> Id t ->
  ((exists e, In e (DependsOn t)
      /\ Dependency.TaskId e = Dependency.TaskId d
      /\ Dependency.Status e = Dependency.Status d) ->
   (forall e, In e (DependsOn t) ->
      Dependency.TaskId e = Dependency.TaskId d ->
      Dependency.Status e = Dependency.Status d ->
      Dependency.Unattainable e = Dependency.Unattainable d) ->
   AddDependency M d t db = (t, db, None))
  /\ ((forall e, In e (DependsOn t) ->
         Dependency.TaskId e <> Dependency.TaskId d
         \/ Dependency.Status e <> Dependency.Status d) ->
      receiverOf (AddDependency M d t db)
      = set_DependsOn (DependsOn t ++ [d])%list t
      /\ DependsOn (receiverOf (AddDependency M d t db))
         = (DependsOn t ++ [d])%list
      /\ old_tasks (storeOf (AddDependency M d t db)) = old_tasks db
      /\ (forall pre doc post,
            tasks db = (pre ++ doc :: post)%list ->
            Id doc = Id t ->
            (forall x, In x pre -> Id x <> Id t) ->
            tasks (storeOf (AddDependency M d t db))
            = (pre ++ set_DependsOn (DependsOn doc ++ [d])%list doc
                   :: post)%list)
      /\ ((forall doc, In doc (tasks db) -> Id doc <> Id t) ->
          tasks (storeOf (AddDependency M d t db)) = tasks db)).
Proof.
  intros Hne. split.
  - intros Hex Hall. unfold AddDependency.
    now rewrite addDependencyScan_same.
  - intros Hall. unfold AddDependency.
    rewrite addDependencyScan_fresh by assumption.
    unfold receiverOf, storeOf, UpdateOne. cbn [fst snd tasks old_tasks].
    do 3 (split; [reflexivity |]). split.
    + intros pre doc post Hdb Hid Hpre. rewrite Hdb, updateOne_at.
      * reflexivity.
      * now apply eqb_true.
      * intros x Hx. now apply eqb_false, Hpre.
    + intros Hno. rewrite updateOne_none; [reflexivity |].
      intros doc Hdoc. now apply eqb_false, Hno.
Qed.

Lemma AddDependency_appends_new_edges_witness :
  map DependsOn
    (tasks (storeOf (AddDependency (fun _ _ t db => (t, db, None))
       (edgeTo "a" evergreen.TaskSucceeded)
       (set_DependsOn [edgeTo "a" evergreen.TaskFailed] lonelyTask)
       (edgesStore [edgeTo "a" evergreen.TaskFailed]))))
  = [[]; [edgeTo "a" evergreen.TaskFailed; edgeTo "a" evergreen.TaskSucceeded]].
Proof.
  destruct (AddDependency_appends_new_edges (fun _ _ t db => (t, db, None))
              (edgeTo "a" evergreen.TaskSucceeded)
              (set_DependsOn [edgeTo "a" evergreen.TaskFailed] lonelyTask)
              (edgesStore [edgeTo "a" evergreen.TaskFailed]))
    as (_ & H).
  - discriminate.
  - destruct H as (_ & _ & _ & H & _).
    + intros e [<- | []]. right. discriminate.
    + rewrite (H [set_Id "other" zeroTask]
                 (set_Priority 7%Z
                    (set_DependsOn [edgeTo "a" evergreen.TaskFailed]
                       lonelyTask)) [] eq_refl eq_refl).
      * reflexivity.
      * intros x [<- | []]. discriminate.
Defined.

Lemma removeFirstEdge_none id deps :
  (forall d, In d deps -> Dependency.TaskId d <> id) ->
  removeFirstEdge id deps = None.
Proof.
  induction deps as [| d rest IH]; simpl; [reflexivity |]. intros H.
  assert (Hd : (Dependency.TaskId d =? id) = false)
    by (apply eqb_false, H; now left).
  rewrite Hd, IH; [reflexivity |]. intros; apply H; now right.
Qed.

Lemma removeFirstEdge_at id l1 e l2 :
  (forall d, In d l1 -> Dependency.TaskId d <> id) ->
  Dependency.TaskId e = id ->
  removeFirstEdge id (l1 ++ e :: l2) = Some (l1 ++ l2)%list.
Proof.
  intros H He. induction l1 as [| d rest IH]; simpl.
  - apply eqb_true in He. now rewrite He.
  - assert (Hd : (Dependency.TaskId d =? id) = false)
      by (apply eqb_false, H; now left).
    rewrite Hd, IH; [reflexivity |]. intros; apply H; now right.
Qed.

Lemma removeLastEdge_at id pre e post :
  Dependency.TaskId e = id ->
  (forall d, In d post -> Dependency.TaskId d <> id) ->
  removeLastEdge id (pre ++ e :: post) = Some (pre ++ post)%list.
Proof.
  intros He Hpost. unfold removeLastEdge.
  rewrite rev_app_distr. simpl. rewrite <- app_assoc. simpl.
  rewrite removeFirstEdge_at; auto.
  - simpl. now rewrite rev_app_distr, !rev_involutive.
  - intros d Hd. apply Hpost. now apply in_rev.
Qed.

Lemma filter_other_edges id pre e post :
  Dependency.TaskId e = id ->
  (forall d, In d (pre ++ post) -> Dependency.TaskId d <> id) ->
  filter (fun d => negb (Dependency.TaskId d =? id)) (pre ++ e :: post)%list
  = (pre ++ post)%list.
Proof.
  intros He H.
  assert (Hkeep : forall l, (forall d, In d l -> Dependency.TaskId d <> id) ->
            filter (fun d => negb (Dependency.TaskId d =? id)) l = l).
  { induction l as [| d l IH]; [reflexivity |]. intros Hl.
    rewrite filter_cons.
    assert (Hd : (Dependency.TaskId d =? id) = false)
      by (apply eqb_false, Hl; now left).
    rewrite decide_True by (rewrite Hd; exact I).
    rewrite IH; [reflexivity |]. intros; apply Hl; now right. }
  rewrite filter_app, filter_cons.
  apply eqb_true in He.
  rewrite decide_False by (rewrite He; simpl; tauto).
  rewrite !Hkeep; [reflexivity | |]; intros d Hd; apply H, in_or_app; auto.
Qed.

Lemma pullEdges_spec id doc d :
  In d (DependsOn (pullEdges id doc))
  <-> In d (DependsOn doc) /\ Dependency.TaskId d <> id.
Proof.
  unfold pullEdges. simpl.
  rewrite <- !list_elem_of_In, list_elem_of_filter.
  destruct (Dependency.TaskId d =? id) eqn:He.
  - apply eqb_true in He. simpl. tauto.
  - apply eqb_false in He. simpl. tauto.
Qed.

(** [RemoveDependency] fails, changing nothing, when the task has no edge
    to the given task. Otherwise the receiver loses one edge, the last
    one to that task, and keeps its other fields, while the first stored
    record of the task loses every edge to it and keeps its other edges,
    in their order, and its other fields; the records before and after
    it are as they were, and a store without a record of the task is not
    changed. The stored record and the receiver agree afterwards when
    they had the same edges and there was a single edge to remove, and
    differ when there was another. *)
Theorem RemoveDependency_removes_edges
  (dependencyId : string) (t : Task) (db : DB) :
  ((forall d, In d (DependsOn t) -> Dependency.TaskId d <> dependencyId) ->
   exists e, RemoveDependency dependencyId t db = (t, db, Some e))
  /\ (forall pre e post,
        DependsOn t = (pre ++ e :: post)%list ->
        Dependency.TaskId e = dependencyId ->
        (forall d, In d post -> Dependency.TaskId d <> dependencyId) ->
        receiverOf (RemoveDependency dependencyId t db)
        = set_DependsOn (pre ++ post)%list t
        /\ DependsOn (receiverOf (RemoveDependency dependencyId t db))
           = (pre ++ post)%list
        /\ old_tasks (storeOf (RemoveDependency dependencyId t db))
           = old_tasks db
        /\ (forall before doc after,
              tasks db = (before ++ doc :: after)%list ->
              Id doc = Id t ->
              (forall x, In x before -> Id x <> Id t) ->
              exists doc',
                tasks (storeOf (RemoveDependency dependencyId t db))
                = (before ++ doc' :: after)%list
                /\ doc' = set_DependsOn (DependsOn doc') doc
                /\ DependsOn doc'
                   = filter
                       (fun d => negb (Dependency.TaskId d =? dependencyId))
                       (DependsOn doc)
                /\ (forall d, In d (DependsOn doc') <->
                      In d (DependsOn doc)
                      /\ Dependency.TaskId d <> dependencyId)
                /\ (DependsOn doc = DependsOn t ->
                    ((forall d, In d pre ->
                        Dependency.TaskId d <> dependencyId) ->
                     DependsOn doc'
                     = DependsOn
                         (receiverOf (RemoveDependency dependencyId t db)))
                    /\ ((exists d, In d pre
                           /\ Dependency.TaskId d = dependencyId) ->
                        DependsOn doc'
                        <> DependsOn
                             (receiverOf
                                (RemoveDependency dependencyId t db)))))
        /\ ((forall doc, In doc (tasks db) -> Id doc <> Id t) ->
            tasks (storeOf (RemoveDependency dependencyId t db))
            = tasks db)).
Proof.
  split.
  - intros Hno. unfold RemoveDependency, removeLastEdge.
    rewrite removeFirstEdge_none; [simpl; eauto |].
    intros d Hd. apply Hno. now apply in_rev.
  - intros pre e post Hdeps He Hpost. unfold RemoveDependency.
    rewrite Hdeps, removeLastEdge_at by assumption.
    unfold receiverOf, storeOf, UpdateOne. cbn [fst snd tasks old_tasks].
    do 3 (split; [reflexivity |]). split.
    + intros before doc after Hdb Hid Hbefore. rewrite Hdb, updateOne_at.
      * cbn [fst]. exists (pullEdges dependencyId doc).
        split; [reflexivity |]. split; [reflexivity |].
        split; [reflexivity |]. split; [apply pullEdges_spec |].
        intros Hsame. split.
        -- intros Hpre. unfold pullEdges. simpl.
           rewrite Hsame. apply filter_other_edges; auto.
           intros d Hd. apply in_app_or in Hd as [Hd | Hd]; auto.
        -- intros (d0 & Hd0 & Hid0) Heq.
           assert (Hin : In d0 (DependsOn (pullEdges dependencyId doc))).
           { rewrite Heq. simpl. apply in_or_app. now left. }
           apply pullEdges_spec in Hin as [_ Hn]. contradiction.
      * now apply eqb_true.
      * intros x Hx. now apply eqb_false, Hbefore.
    + intros Hno. rewrite updateOne_none; [reflexivity |].
      intros doc Hdoc. now apply eqb_false, Hno.
Qed.

Lemma RemoveDependency_removes_edges_witness :
  DependsOn
    (receiverOf (RemoveDependency "a"
       (set_DependsOn [edgeTo "a" ""; edgeTo "b" ""; edgeTo "a" "*"]
          lonelyTask)
       (edgesStore [edgeTo "a" ""; edgeTo "b" ""; edgeTo "a" "*"])))
  = [edgeTo "a" ""; edgeTo "b" ""]
  /\ exists doc',
       tasks (storeOf (RemoveDependency "a"
          (set_DependsOn [edgeTo "a" ""; edgeTo "b" ""; edgeTo "a" "*"]
             lonelyTask)
          (edgesStore [edgeTo "a" ""; edgeTo "b" ""; edgeTo "a" "*"])))
       = [set_Id "other" zeroTask; doc']
       /\ DependsOn doc' = [edgeTo "b" ""] /\ Priority doc' = 7%Z.
Proof.
  destruct (proj2 (RemoveDependency_removes_edges "a"
              (set_DependsOn [edgeTo "a" ""; edgeTo "b" ""; edgeTo "a" "*"]
                 lonelyTask)
              (edgesStore [edgeTo "a" ""; edgeTo "b" ""; edgeTo "a" "*"]))
              [edgeTo "a" ""; edgeTo "b" ""] (edgeTo "a" "*") []
              eq_refl eq_refl ltac:(intros d []))
    as (_ & Hr & _ & Hs & _).
  split; [exact Hr |].
  destruct (Hs [set_Id "other" zeroTask]
              (set_Priority 7%Z
                 (set_DependsOn
                    [edgeTo "a" ""; edgeTo "b" ""; edgeTo "a" "*"]
                    lonelyTask)) [] eq_refl eq_refl)
    as (doc' & Hst & Hkeep & Hf & _).
  - intros x [<- | []]. discriminate.
  - exists doc'. split; [exact Hst |]. split; [rewrite Hf; reflexivity |].
    rewrite Hkeep. reflexivity.
Defined.

(** ** Allocation attempts across allocations and deallocations *)

Lemma MarkAsContainerAllocated_store allocatedAt t db :
  rewrites
    (fun d =>
       needsContainerAllocation d && (Id d =? Id t)
       && (ContainerAllocationAttempts d <? maxContainerAllocationAttempts)%Z)
    (containerAllocatedUpdate allocatedAt)
    (tasks db) (tasks (storeOf (MarkAsContainerAllocated allocatedAt t db)))
  /\ old_tasks (storeOf (MarkAsContainerAllocated allocatedAt t db))
     = old_tasks db.
Proof.
  unfold MarkAsContainerAllocated, storeOf.
  destruct (ContainerAllocated t); [split; [apply rewrites_refl | reflexivity] |].
  destruct (RemainingContainerAllocationAttempts t =? 0)%Z;
    [split; [apply rewrites_refl | reflexivity] |].
  match goal with
  | |- context [updateOne ?q ?u ?c] =>
      pose proof (updateOne_rewrites q u c) as H;
      destruct (updateOne q u c) as [c' n]
  end.
  simpl in H. destruct (n =? 0)%Z; simpl; auto.
Qed.

Lemma MarkAsContainerDeallocated_store t db :
  rewrites
    (fun d =>
       (Id d =? Id t) && (ExecutionPlatform d =? ExecutionPlatformContainer)
       && ContainerAllocated d)
    containerDeallocatedUpdate
    (tasks db) (tasks (storeOf (MarkAsContainerDeallocated t db)))
  /\ old_tasks (storeOf (MarkAsContainerDeallocated t db)) = old_tasks db.
Proof.
  unfold MarkAsContainerDeallocated, storeOf.
  destruct (ContainerAllocated t); simpl;
    [| split; [apply rewrites_refl | reflexivity]].
  match goal with
  | |- context [updateOne ?q ?u ?c] =>
      pose proof (updateOne_rewrites q u c) as H;
      destruct (updateOne q u c) as [c' n]
  end.
  simpl in H. destruct (n =? 0)%Z; simpl; auto.
Qed.

(** Whether they succeed or fail, [MarkAsContainerAllocated] and
    [MarkAsContainerDeallocated] never lower the allocation attempts of a
    stored record and never raise them above the maximum (or above what
    they were); deallocation keeps the count and allocates nothing. *)
Theorem allocation_attempts_monotone_and_bounded
  (allocatedAt : Time) (t : Task) (db : DB) :
  Forall2
    (fun d d' =>
       Id d' = Id d
       /\ (ContainerAllocationAttempts d <= ContainerAllocationAttempts d'
           <= Z.max (ContainerAllocationAttempts d)
                maxContainerAllocationAttempts)%Z)
    (tasks db) (tasks (storeOf (MarkAsContainerAllocated allocatedAt t db)))
  /\ Forall2
       (fun d d' =>
          Id d' = Id d
          /\ ContainerAllocationAttempts d' = ContainerAllocationAttempts d
          /\ (ContainerAllocated d' = true -> ContainerAllocated d = true))
       (tasks db) (tasks (storeOf (MarkAsContainerDeallocated t db))).
Proof.
  split.
  - destruct (MarkAsContainerAllocated_store allocatedAt t db) as [H _].
    induction H as [| d d' c c' Hd _ IH]; constructor; auto.
    destruct Hd as [-> | [Hq ->]]; [split; [reflexivity | lia] |].
    apply andb_prop in Hq as [_ Hlt]. apply Z.ltb_lt in Hlt.
    simpl. split; [reflexivity | lia].
  - destruct (MarkAsContainerDeallocated_store t db) as [H _].
    induction H as [| d d' c c' Hd _ IH]; constructor; auto.
    destruct Hd as [-> | [Hq ->]]; [repeat split; auto |].
    simpl. repeat split; auto. discriminate.
Qed.

(** ** Finished dependencies *)

Lemma set_DependsOn_twice a b d :
  set_DependsOn a (set_DependsOn b d) = set_DependsOn a d.
Proof. reflexivity. Qed.

Lemma markFinishedUpdate_idem id finished d :
  markFinishedUpdate id finished (markFinishedUpdate id finished d)
  = markFinishedUpdate id finished d.
Proof.
  unfold markFinishedUpdate. simpl. rewrite set_DependsOn_twice. f_equal.
  rewrite map_map. apply map_ext. intros dep.
  destruct (Dependency.TaskId dep =? id) eqn:He; simpl; now rewrite He.
Qed.

Lemma markFinishedUpdate_query id finished d :
  existsb (fun dep => Dependency.TaskId dep =? id)
    (DependsOn (markFinishedUpdate id finished d))
  = existsb (fun dep => Dependency.TaskId dep =? id) (DependsOn d).
Proof.
  unfold markFinishedUpdate. simpl.
  induction (DependsOn d) as [| dep rest IH]; simpl; [reflexivity |].
  rewrite IH. f_equal.
  now destruct (Dependency.TaskId dep =? id) eqn:He; simpl; rewrite ?He.
Qed.

(** [MarkDependenciesFinished] is idempotent, and after it every edge to
    the task, on every record, carries the given flag; an edge keeps its
    task, required status and [unattainable] flag, and an edge to another
    task is not touched. *)
Theorem MarkDependenciesFinished_idempotent (finished : bool) (t : Task)
  (db : DB) :
  let db1 := fst (MarkDependenciesFinished finished t db) in
  fst (MarkDependenciesFinished finished t db1) = db1
  /\ (DisplayOnly t = false ->
      forall d dep, In d (tasks db1) -> In dep (DependsOn d) ->
        Dependency.TaskId dep = Id t -> Dependency.Finished dep = finished)
  /\ Forall2
       (fun d d' =>
          Forall2
            (fun dep dep' =>
               Dependency.TaskId dep' = Dependency.TaskId dep
               /\ Dependency.Status dep' = Dependency.Status dep
               /\ Dependency.Unattainable dep' = Dependency.Unattainable dep
               /\ (Dependency.TaskId dep <> Id t -> dep' = dep))
            (DependsOn d) (DependsOn d')
          /\ set_DependsOn [] d' = set_DependsOn [] d)
       (tasks db) (tasks db1).
Proof.
  intros db1. subst db1. unfold MarkDependenciesFinished.
  destruct (DisplayOnly t) eqn:Hdisp.
  - simpl. split; [reflexivity |]. split; [discriminate |].
    induction (tasks db); constructor; auto. split; [| reflexivity].
    induction (DependsOn a); constructor; auto.
  - simpl. split; [| split].
    + f_equal. rewrite map_map. apply map_ext. intros d.
      destruct (existsb _ (DependsOn d)) eqn:Hq.
      * now rewrite markFinishedUpdate_query, Hq, markFinishedUpdate_idem.
      * now rewrite Hq.
    + intros _ d dep Hin Hdep Hid. apply in_map_iff in Hin.
      destruct Hin as (d0 & <- & _).
      destruct (existsb _ (DependsOn d0)) eqn:Hq.
      * simpl in Hdep. apply in_map_iff in Hdep.
        destruct Hdep as (dep0 & <- & _).
        destruct (Dependency.TaskId dep0 =? Id t) eqn:He; [reflexivity |].
        apply eqb_false in He. contradiction.
      * exfalso. assert (Hex : existsb
          (fun dep => Dependency.TaskId dep =? Id t) (DependsOn d0) = true).
        { apply existsb_exists. exists dep. split; [exact Hdep |].
          now apply eqb_true. }
        congruence.
    + induction (tasks db) as [| d rest IH]; simpl; constructor; auto.
      destruct (existsb _ (DependsOn d)).
      * split; [| reflexivity]. simpl.
        induction (DependsOn d) as [| dep deps IHd]; simpl; constructor; auto.
        destruct (Dependency.TaskId dep =? Id t) eqn:He.
        -- apply eqb_true in He. repeat split. tauto.
        -- repeat split.
      * split; [| reflexivity].
        induction (DependsOn d); constructor; auto.
Qed.

(** ** Walking the dependency graph downwards *)

Example getRecursiveDependenciesDown_chain :
  map Id <$> getRecursiveDependenciesDown (walkFuel chainStore) ["a"] ∅
               chainStore
  = Some ["b"; "c"].
Proof. vm_compute. reflexivity. Qed.

Lemma FindAll_In q db d :
  In d (FindAll q db) <-> In d (tasks db) /\ q d = true.
Proof.
  unfold FindAll. rewrite <- !list_elem_of_In, list_elem_of_filter.
  rewrite Is_true_true. tauto.
Qed.

Lemma FindAllWithFields_In q f db t :
  In t (FindAllWithFields q f db)
  <-> exists d, In d (tasks db) /\ q d = true /\ t = f d.
Proof.
  unfold FindAllWithFields. rewrite in_map_iff. split.
  - intros (d & <- & Hd). apply FindAll_In in Hd as [Hd Hq]. eauto.
  - intros (d & Hd & Hq & ->). exists d. split; [reflexivity |].
    now apply FindAll_In.
Qed.

Lemma notVisited_fields V d :
  notVisited V (recursiveDependencyFields d) = notVisited V d.
Proof. reflexivity. Qed.

Lemma notVisited_true V t : notVisited V t = true <-> Id t ∉ V.
Proof.
  unfold notVisited. rewrite negb_true_iff, bool_decide_eq_false. tauto.
Qed.

Lemma notVisited_false V t : notVisited V t = false <-> Id t ∈ V.
Proof.
  unfold notVisited. rewrite negb_false_iff, bool_decide_eq_true. tauto.
Qed.

Lemma in_of_set (x : string) (l : list string) :
  x ∈ (list_to_set l : gset string) <-> In x l.
Proof. rewrite elem_of_list_to_set. apply list_elem_of_In. Qed.

Lemma in_ids_set (l : list Task) (V : gset string) (t : Task) :
  In t l -> Id t ∈ (list_to_set (map Id l) ∪ V : gset string).
Proof.
  intros H. apply elem_of_union_l, in_of_set. now apply in_map.
Qed.

Lemma filter_length_lt (P Q : Task -> bool) l x :
  (forall y, P y = true -> Q y = true) ->
  In x l -> Q x = true -> P x = false ->
  length (List.filter P l) < length (List.filter Q l).
Proof.
  intros Hsub. induction l as [| y l IH]; simpl; [now intros [] |].
  assert (Hle : forall l', length (List.filter P l') <= length (List.filter Q l')).
  { induction l' as [| z l' IHl]; simpl; [lia |].
    destruct (P z) eqn:Hp; [rewrite (Hsub z Hp); simpl; lia |].
    destruct (Q z); simpl; lia. }
  intros [<- | Hin] Hq Hp.
  - rewrite Hq, Hp. simpl. specialize (Hle l). lia.
  - specialize (IH Hin Hq Hp).
    destruct (P y) eqn:Hpy; [rewrite (Hsub y Hpy); simpl; lia |].
    destruct (Q y); simpl; lia.
Qed.

Lemma getRecursiveDependenciesDown_enough fuel taskIDs (V : gset string) db :
  length (List.filter (notVisited (list_to_set taskIDs ∪ V)) (tasks db)) < fuel ->
  exists l, getRecursiveDependenciesDown fuel taskIDs V db = Some l.
Proof.
  revert taskIDs V. induction fuel as [| fuel IH]; intros taskIDs V Hlt;
    [lia |].
  simpl.
  destruct (List.filter (notVisited (list_to_set taskIDs ∪ V))
              (FindAllWithFields (dependsOnAny taskIDs)
                 recursiveDependencyFields db)) as [| x N] eqn:HN;
    [eauto |].
  destruct (IH (map Id (x :: N)) (list_to_set taskIDs ∪ V)) as [l Hl].
  - assert (Hx : In x (x :: N)) by now left.
    rewrite <- HN in Hx. apply filter_In in Hx as [Hx Hnv].
    apply FindAllWithFields_In in Hx as (d & Hd & _ & Hxd).
    rewrite Hxd, notVisited_fields in Hnv.
    assert (Hid : Id d = Id x) by now rewrite Hxd.
    assert (Hlt' :
      length (List.filter
                (notVisited (list_to_set (map Id (x :: N))
                             ∪ (list_to_set taskIDs ∪ V))) (tasks db))
      < length (List.filter (notVisited (list_to_set taskIDs ∪ V))
                  (tasks db))).
    { apply (filter_length_lt _ _ _ d); auto.
      - intros y Hy. apply notVisited_true in Hy. apply notVisited_true.
        intros Hc. apply Hy. now apply elem_of_union_r.
      - apply notVisited_false. rewrite Hid. apply in_ids_set. now left. }
    lia.
  - rewrite Hl. eauto.
Qed.

Lemma filter_length_le (P : Task -> bool) l :
  length (List.filter P l) <= length l.
Proof.
  induction l as [| y l IH]; simpl; [lia |]. destruct (P y); simpl; lia.
Qed.

(** The walk always comes to an end within [walkFuel]. *)
Lemma getRecursiveDependenciesDown_total taskIDs V db :
  exists l, getRecursiveDependenciesDown (walkFuel db) taskIDs V db = Some l.
Proof.
  apply getRecursiveDependenciesDown_enough. unfold walkFuel.
  pose proof (filter_length_le (notVisited (list_to_set taskIDs ∪ V))
                (tasks db)). lia.
Qed.

(** An edge of [d] to one of [ids]. *)
Lemma dependsOnAny_spec ids d :
  dependsOnAny ids d = true
  <-> exists dep, In dep (DependsOn d) /\ In (Dependency.TaskId dep) ids.
Proof.
  unfold dependsOnAny. rewrite existsb_exists. split.
  - intros (dep & Hin & Hc). apply contains_In in Hc. eauto.
  - intros (dep & Hin & Hc). exists dep. split; [exact Hin |].
    now apply contains_In.
Qed.

Lemma getRecursiveDependenciesDown_sound fuel :
  forall taskIDs (V : gset string) db l,
  getRecursiveDependenciesDown fuel taskIDs V db = Some l ->
  forall t, In t l ->
    (exists d, In d (tasks db) /\ t = recursiveDependencyFields d)
    /\ ~ In (Id t) taskIDs /\ (Id t ∉ V)
    /\ exists dep, In dep (DependsOn t)
         /\ (In (Dependency.TaskId dep) taskIDs
             \/ In (Dependency.TaskId dep) (map Id l)).
Proof.
  induction fuel as [| fuel IH]; intros taskIDs V db l; [discriminate |].
  simpl.
  destruct (List.filter (notVisited (list_to_set taskIDs ∪ V))
              (FindAllWithFields (dependsOnAny taskIDs)
                 recursiveDependencyFields db)) as [| x N] eqn:HN.
  - intros [= <-] t [].
  - destruct (getRecursiveDependenciesDown fuel (map Id (x :: N))
                (list_to_set taskIDs ∪ V) db) as [R |] eqn:HR;
      [| discriminate].
    intros [= <-] t Hin.
    change (x :: N ++ R)%list with ((x :: N) ++ R)%list in *.
    apply in_app_or in Hin as [Hin | Hin].
    + rewrite <- HN in Hin. apply filter_In in Hin as [Hf Hnv].
      apply FindAllWithFields_In in Hf as (d & Hdb & Hq & ->).
      apply notVisited_true in Hnv.
      apply dependsOnAny_spec in Hq as (dep & Hdep & Hid).
      split; [eauto |]. repeat split.
      * intros Hc. apply Hnv, elem_of_union_l. now apply in_of_set.
      * intros Hc. apply Hnv. now apply elem_of_union_r.
      * eauto.
    + destruct (IH _ _ _ _ HR t Hin) as (Hdb & Hn & Hv & dep & Hdep & Hor).
      repeat split; auto.
      * intros Hc. apply Hv, elem_of_union_l. now apply in_of_set.
      * intros Hc. apply Hv. now apply elem_of_union_r.
      * exists dep. split; [exact Hdep |]. right.
        rewrite map_app. apply in_or_app. tauto.
Qed.

Lemma getRecursiveDependenciesDown_closed fuel :
  forall taskIDs (V : gset string) db l,
  getRecursiveDependenciesDown fuel taskIDs V db = Some l ->
  forall d dep, In d (tasks db) -> In dep (DependsOn d) ->
    In (Dependency.TaskId dep) taskIDs
    \/ In (Dependency.TaskId dep) (map Id l) ->
    In (Id d) (map Id l) \/ In (Id d) taskIDs \/ Id d ∈ V.
Proof.
  induction fuel as [| fuel IH]; intros taskIDs V db l; [discriminate |].
  simpl.
  destruct (List.filter (notVisited (list_to_set taskIDs ∪ V))
              (FindAllWithFields (dependsOnAny taskIDs)
                 recursiveDependencyFields db)) as [| x N] eqn:HN.
  - intros [= <-] d dep Hd Hdep [Hid | []].
    destruct (notVisited (list_to_set taskIDs ∪ V) d) eqn:Hnv.
    + assert (Hin : In (recursiveDependencyFields d) []).
      { rewrite <- HN. apply filter_In. split; [| exact Hnv].
        apply FindAllWithFields_In. exists d.
        split; [exact Hd |]. split; [| reflexivity].
        apply dependsOnAny_spec. eauto. }
      destruct Hin.
    + apply notVisited_false in Hnv. apply elem_of_union in Hnv as [Hnv | Hnv].
      * right. left. now apply in_of_set.
      * right. now right.
  - destruct (getRecursiveDependenciesDown fuel (map Id (x :: N))
                (list_to_set taskIDs ∪ V) db) as [R |] eqn:HR;
      [| discriminate].
    intros [= <-] d dep Hd Hdep Hor.
    change (x :: N ++ R)%list with ((x :: N) ++ R)%list in *.
    rewrite map_app in *.
    assert (Hvis : Id d ∈ (list_to_set taskIDs ∪ V : gset string) ->
              In (Id d) (map Id (x :: N) ++ map Id R)
              \/ In (Id d) taskIDs \/ Id d ∈ V).
    { intros Hv. apply elem_of_union in Hv as [Hv | Hv].
      - right. left. now apply in_of_set.
      - right. now right. }
    assert (Hrec : In (Dependency.TaskId dep) (map Id (x :: N))
                   \/ In (Dependency.TaskId dep) (map Id R) ->
              In (Id d) (map Id (x :: N) ++ map Id R)
              \/ In (Id d) taskIDs \/ Id d ∈ V).
    { intros Hc.
      destruct (IH _ _ _ _ HR d dep Hd Hdep Hc) as [H | [H | H]].
      - left. apply in_or_app. now right.
      - left. apply in_or_app. now left.
      - now apply Hvis. }
    destruct Hor as [Hid | Hid].
    + destruct (notVisited (list_to_set taskIDs ∪ V) d) eqn:Hnv.
      * left. apply in_or_app. left.
        change (Id d) with (Id (recursiveDependencyFields d)).
        apply in_map. rewrite <- HN.
        apply filter_In. split; [| exact Hnv].
        apply FindAllWithFields_In. exists d.
        split; [exact Hd |]. split; [| reflexivity].
        apply dependsOnAny_spec. eauto.
      * apply Hvis. now apply notVisited_false.
    + apply in_app_or in Hid. apply Hrec. tauto.
Qed.

(** [getRecursiveDependenciesDown], started with an empty map, comes to
    an end; each task it returns is the projection of a stored record
    (id, activation, deactivation for a dependency, execution, edges and
    build, every other field zero), is none of the given tasks, and has
    an edge to a given task or to another returned one; and the result is
    closed: a stored record with an edge to a given or a returned task is
    itself returned (by its id) or is a given task. *)
Theorem getRecursiveDependenciesDown_closure (taskIDs : list string) (db : DB) :
  exists l,
    getRecursiveDependenciesDown (walkFuel db) taskIDs ∅ db = Some l
    /\ (forall t, In t l ->
          (exists d, In d (tasks db) /\ t = recursiveDependencyFields d)
          /\ ~ In (Id t) taskIDs
          /\ exists dep, In dep (DependsOn t)
               /\ (In (Dependency.TaskId dep) taskIDs
                   \/ In (Dependency.TaskId dep) (map Id l)))
    /\ (forall d dep, In d (tasks db) -> In dep (DependsOn d) ->
          In (Dependency.TaskId dep) taskIDs
          \/ In (Dependency.TaskId dep) (map Id l) ->
          In (Id d) (map Id l) \/ In (Id d) taskIDs).
Proof.
  destruct (getRecursiveDependenciesDown_total taskIDs ∅ db) as [l Hl].
  exists l. split; [exact Hl |]. split.
  - intros t Hin.
    destruct (getRecursiveDependenciesDown_sound _ _ _ _ _ Hl t Hin)
      as (H1 & H2 & _ & H3). auto.
  - intros d dep Hd Hdep Hor.
    destruct (getRecursiveDependenciesDown_closed _ _ _ _ _ Hl d dep Hd Hdep Hor)
      as [H | [H | H]]; auto. now apply not_elem_of_empty in H.
Qed.

(** ** The activation cascade *)

Example ActivateDeactivatedDependencies_chain :
  map Activated
    (tasks (fst (ActivateDeactivatedDependencies firstReadySort 9%Z ["a"]
                   "me" deactivatedChain)))
  = [true; true; true].
Proof. vm_compute. reflexivity. Qed.

Lemma fold_insert_lookup (L : list Task) (m0 : gmap string Task) k d :
  fold_left (fun m t => <[Id t := t]> m) L m0 !! k = Some d ->
  (In d L /\ Id d = k) \/ m0 !! k = Some d.
Proof.
  revert m0. induction L as [| x L IH]; simpl; intros m0 H; [now right |].
  apply IH in H as [[Hin Hid] | H]; [left; auto |].
  rewrite lookup_insert in H. destruct (decide (Id x = k)) as [He | Hne].
  - injection H as <-. left. auto.
  - now right.
Qed.

Lemma depsSatisfied_spec (taskMap : gset string)
  (missing acc : gmap string Task) deps :
  depsSatisfied taskMap missing acc deps = true ->
  forall dep, In dep deps ->
    is_Some (acc !! Dependency.TaskId dep)
    \/ Dependency.TaskId dep ∈ taskMap
    \/ Activated (default zeroTask (missing !! Dependency.TaskId dep)) = true.
Proof.
  induction deps as [| d rest IH]; simpl; [now intros _ dep [] |].
  intros H dep [<- | Hin].
  - destruct (bool_decide (is_Some (acc !! Dependency.TaskId d))) eqn:H1.
    + left. now apply bool_decide_eq_true in H1.
    + destruct (bool_decide (Dependency.TaskId d ∈ taskMap)) eqn:H2.
      * right. left. now apply bool_decide_eq_true in H2.
      * simpl in H. right. right.
        destruct (Activated _); [reflexivity | discriminate].
  - apply IH; [| exact Hin].
    destruct (negb _ && negb _); [| exact H].
    destruct (negb _); [discriminate | exact H].
Qed.

(** What holds of every entry of [tasksToActivate] once the tasks of
    [seen] have been gone through. *)
Definition activationInvariant (taskMap : gset string)
  (missing : gmap string Task) (seen : list Task) (acc : gmap string Task)
  : Prop :=
  forall k t, acc !! k = Some t ->
    k = Id t /\ In t seen
    /\ Activated t = false /\ DeactivatedForDependency t = true
    /\ forall dep, In dep (DependsOn t) ->
         is_Some (acc !! Dependency.TaskId dep)
         \/ Dependency.TaskId dep ∈ taskMap
         \/ Activated (default zeroTask (missing !! Dependency.TaskId dep))
            = true.

Lemma decideActivation_invariant taskMap missing seen acc x :
  activationInvariant taskMap missing seen acc ->
  activationInvariant taskMap missing (seen ++ [x])
    (decideActivation taskMap missing acc x).
Proof.
  intros Hinv. unfold decideActivation.
  assert (Hkeep : activationInvariant taskMap missing (seen ++ [x]) acc).
  { intros k t Hk. destruct (Hinv k t Hk) as (H1 & H2 & H3 & H4 & H5).
    repeat split; auto. apply in_or_app. now left. }
  destruct (Activated x) eqn:Ha; simpl; [exact Hkeep |].
  destruct (DeactivatedForDependency x) eqn:Hd; simpl; [| exact Hkeep].
  destruct (depsSatisfied taskMap missing acc (DependsOn x)) eqn:Hs;
    [| exact Hkeep].
  intros k t Hk. rewrite lookup_insert in Hk.
  assert (Hmono : forall id, is_Some (acc !! id) ->
            is_Some (<[Id x := x]> acc !! id)).
  { intros id Hid. rewrite lookup_insert. destruct (decide (Id x = id)); eauto. }
  destruct (decide (Id x = k)) as [He | Hne].
  - injection Hk as <-. repeat split; auto.
    + apply in_or_app. right. now left.
    + intros dep Hdep.
      destruct (depsSatisfied_spec _ _ _ _ Hs dep Hdep) as [H | [H | H]]; auto.
  - destruct (Hkeep k t Hk) as (H1 & H2 & H3 & H4 & H5).
    repeat split; auto. intros dep Hdep.
    destruct (H5 dep Hdep) as [H | [H | H]]; auto.
Qed.

Lemma fold_decideActivation_invariant taskMap missing l :
  forall seen acc,
  activationInvariant taskMap missing seen acc ->
  activationInvariant taskMap missing (seen ++ l)
    (fold_left (decideActivation taskMap missing) l acc).
Proof.
  induction l as [| x l IH]; simpl; intros seen acc Hinv.
  - now rewrite app_nil_r.
  - replace (seen ++ x :: l)%list with ((seen ++ [x]) ++ l)%list
      by (rewrite <- app_assoc; reflexivity).
    apply IH. now apply decideActivation_invariant.
Qed.

Lemma tasksToActivateOf_sound taskIDs sorted db :
  forall k t, tasksToActivateOf taskIDs sorted db !! k = Some t ->
    k = Id t /\ In t sorted
    /\ Activated t = false /\ DeactivatedForDependency t = true
    /\ forall dep, In dep (DependsOn t) ->
         In (Dependency.TaskId dep) taskIDs
         \/ is_Some (tasksToActivateOf taskIDs sorted db
                       !! Dependency.TaskId dep)
         \/ exists d, In d (tasks db)
              /\ Id d = Dependency.TaskId dep /\ Activated d = true.
Proof.
  unfold tasksToActivateOf.
  set (taskMap := list_to_set taskIDs : gset string).
  set (tasksToGet := snd (fold_left (collectMissing taskMap) sorted (∅, []))).
  set (missing := match tasksToGet with [] => ∅ | _ => _ end).
  pose proof (fold_decideActivation_invariant taskMap missing sorted [] ∅)
    as Hinv.
  simpl in Hinv. intros k t Hk.
  destruct (Hinv (fun k t H => ltac:(now rewrite lookup_empty in H)) k t Hk)
    as (H1 & H2 & H3 & H4 & H5).
  repeat split; auto. intros dep Hdep.
  destruct (H5 dep Hdep) as [H | [H | H]]; auto.
  - left. now apply in_of_set.
  - right. right.
    destruct (missing !! Dependency.TaskId dep) as [d |] eqn:Hm;
      [| discriminate].
    simpl in H. subst missing.
    destruct tasksToGet; [now rewrite lookup_empty in Hm |].
    apply fold_insert_lookup in Hm as [[Hin Hid] | Hm];
      [| now rewrite lookup_empty in Hm].
    apply FindAllWithFields_In in Hin as (d0 & Hin & _ & ->).
    exists d0. auto.
Qed.

Lemma topologicalSort_tasks topoSort ts sorted :
  topologicalSort topoSort ts = (sorted, None) ->
  forall t, In t sorted -> t = zeroTask \/ In t ts.
Proof.
  unfold topologicalSort.
  destruct (existsb _ (dependencyEdges ts)); [now intros [= <-] t [] |].
  destruct (topoSort _ _) as [nodes |]; [| discriminate].
  intros [= <-] t Hin. apply in_map_iff in Hin as (i & <- & _).
  destruct (Nat.lt_ge_cases i (length ts)) as [Hlt | Hge].
  - right. now apply nth_In.
  - left. now apply nth_overflow.
Qed.

Lemma activated_ids (m : gmap string Task) id :
  (forall k t, m !! k = Some t -> k = Id t) ->
  In id (map (fun kt => Id (snd kt)) (map_to_list m)) <-> is_Some (m !! id).
Proof.
  intros Hkey. rewrite in_map_iff. split.
  - intros ([k t] & <- & Hin). simpl.
    apply list_elem_of_In, elem_of_map_to_list in Hin.
    rewrite <- (Hkey k t Hin). eauto.
  - intros [t Ht]. exists (id, t). split.
    + simpl. symmetry. now apply Hkey.
    + now apply list_elem_of_In, elem_of_map_to_list.
Qed.

Lemma map_if_none (u : Update) (l : list Task) :
  map (fun d => if utility.StringSliceContains [] (Id d) then u d else d) l = l.
Proof. induction l as [| d l IH]; simpl; [reflexivity | now f_equal]. Qed.

(** The cascade rewrites records by id, with one update. *)
Lemma ActivateDeactivatedDependencies_by_id
  (topoSort : nat -> list (nat * nat) -> option (list nat))
  (now : Time) (taskIDs : list string) (caller : string) (db : DB) :
  exists activated,
    tasks (fst (ActivateDeactivatedDependencies topoSort now taskIDs
                  caller db))
    = map (fun d => if utility.StringSliceContains activated (Id d)
                    then activationUpdate caller now d else d)
        (tasks db).
Proof.
  unfold ActivateDeactivatedDependencies.
  destruct (getRecursiveDependenciesDown _ _ _ _) as [closure |];
    [| exists []; now rewrite map_if_none].
  destruct (topologicalSort topoSort closure) as [sorted [e |]];
    [exists []; now rewrite map_if_none |].
  destruct (size _ =? 0)%nat; [exists []; now rewrite map_if_none |].
  eexists. reflexivity.
Qed.

(** Whatever order the sort returns, [ActivateDeactivatedDependencies]
    rewrites exactly the records whose id it decided to activate; each
    such id is that of a task of the downward walk which was not
    activated and was deactivated for a dependency, and every dependency
    of that task is one of the given tasks, is activated in the same
    pass, or was found activated in the store. The given tasks
    themselves and the archive are never rewritten. *)
Theorem ActivateDeactivatedDependencies_sound
  (topoSort : nat -> list (nat * nat) -> option (list nat))
  (now : Time) (taskIDs : list string) (caller : string) (db : DB) :
  exists closure activated,
    getRecursiveDependenciesDown (walkFuel db) taskIDs ∅ db = Some closure
    /\ tasks (fst (ActivateDeactivatedDependencies topoSort now taskIDs
                     caller db))
       = map (fun d => if utility.StringSliceContains activated (Id d)
                       then activationUpdate caller now d else d)
           (tasks db)
    /\ old_tasks (fst (ActivateDeactivatedDependencies topoSort now taskIDs
                         caller db))
       = old_tasks db
    /\ forall id, In id activated ->
         ~ In id taskIDs
         /\ exists t,
              In t closure /\ Id t = id
              /\ Activated t = false /\ DeactivatedForDependency t = true
              /\ forall dep, In dep (DependsOn t) ->
                   In (Dependency.TaskId dep) taskIDs
                   \/ In (Dependency.TaskId dep) activated
                   \/ exists d, In d (tasks db)
                        /\ Id d = Dependency.TaskId dep
                        /\ Activated d = true.
Proof.
  destruct (getRecursiveDependenciesDown_total taskIDs ∅ db) as [closure Hc].
  exists closure. unfold ActivateDeactivatedDependencies. rewrite Hc.
  destruct (topologicalSort topoSort closure) as [sorted err] eqn:Hsort.
  destruct err as [e |].
  { exists []. rewrite map_if_none. do 3 (split; [reflexivity |]).
    intros ? []. }
  pose proof (tasksToActivateOf_sound taskIDs sorted db) as Hsound.
  set (acc := tasksToActivateOf taskIDs sorted db) in *.
  assert (Hkey : forall k t, acc !! k = Some t -> k = Id t)
    by (intros k t Hk; now destruct (Hsound k t Hk)).
  destruct (size acc =? 0)%nat eqn:Hsize.
  { exists []. rewrite map_if_none. do 3 (split; [reflexivity |]).
    intros ? []. }
  exists (map (fun kt => Id (snd kt)) (map_to_list acc)).
  split; [reflexivity |]. split; [reflexivity |]. split; [reflexivity |].
  intros id Hid. apply (activated_ids acc id Hkey) in Hid as [t Ht].
  destruct (Hsound id t Ht) as (H1 & H2 & H3 & H4 & H5).
  assert (Hin : In t closure).
  { destruct (topologicalSort_tasks _ _ _ Hsort t H2) as [-> | H]; auto.
    discriminate. }
  destruct (getRecursiveDependenciesDown_sound _ _ _ _ _ Hc t Hin)
    as (_ & Hnot & _).
  split; [now rewrite H1 |].
  exists t. repeat split; auto.
  intros dep Hdep. destruct (H5 dep Hdep) as [H | [H | H]]; auto.
  right. left. now apply (activated_ids acc _ Hkey).
Qed.

(** *** Decisions made earlier are seen later *)

Lemma fold_decideActivation_mono taskMap missing l :
  forall acc k, is_Some (acc !! k) ->
    is_Some (fold_left (decideActivation taskMap missing) l acc !! k).
Proof.
  induction l as [| x l IH]; simpl; intros acc k Hk; [exact Hk |].
  apply IH. unfold decideActivation.
  destruct (Activated x || negb (DeactivatedForDependency x)); [exact Hk |].
  destruct (depsSatisfied _ _ _ _); [| exact Hk].
  rewrite lookup_insert. destruct (decide (Id x = k)); eauto.
Qed.

Lemma fold_decideActivation_keys taskMap missing l :
  forall acc k,
    is_Some (fold_left (decideActivation taskMap missing) l acc !! k) ->
    is_Some (acc !! k) \/ In k (map Id l).
Proof.
  induction l as [| x l IH]; simpl; intros acc k Hk; [now left |].
  apply IH in Hk as [Hk | Hk]; [| right; now right].
  unfold decideActivation in Hk.
  destruct (Activated x || negb (DeactivatedForDependency x)); [now left |].
  destruct (depsSatisfied _ _ _ _); [| now left].
  rewrite lookup_insert in Hk. destruct (decide (Id x = k)); auto.
Qed.

Lemma depsSatisfied_intro (taskMap : gset string)
  (missing acc : gmap string Task) deps :
  (forall dep, In dep deps ->
     is_Some (acc !! Dependency.TaskId dep)
     \/ Dependency.TaskId dep ∈ taskMap
     \/ Activated (default zeroTask (missing !! Dependency.TaskId dep)) = true) ->
  depsSatisfied taskMap missing acc deps = true.
Proof.
  induction deps as [| d rest IH]; simpl; intros H; [reflexivity |].
  rewrite IH by (intros; apply H; now right).
  destruct (H d (or_introl eq_refl)) as [H1 | [H1 | H1]].
  - now rewrite (bool_decide_eq_true_2 _ H1).
  - rewrite (bool_decide_eq_true_2 _ H1). now rewrite andb_false_r.
  - rewrite H1. simpl. now destruct (negb _ && negb _).
Qed.

Lemma fold_decideActivation_complete taskMap missing l :
  forall acc,
  dependenciesFirst l = true ->
  forall t, In t l ->
    Activated t = false -> DeactivatedForDependency t = true ->
    (forall dep, In dep (DependsOn t) ->
       is_Some (fold_left (decideActivation taskMap missing) l acc
                  !! Dependency.TaskId dep)
       \/ Dependency.TaskId dep ∈ taskMap
       \/ Activated (default zeroTask (missing !! Dependency.TaskId dep))
          = true) ->
    is_Some (fold_left (decideActivation taskMap missing) l acc !! Id t).
Proof.
  induction l as [| x l IH]; intros acc Hord t Hin Ha Hd Hdeps; [destruct Hin |].
  cbn [dependenciesFirst] in Hord. apply andb_prop in Hord as [Hx Hord].
  simpl. simpl in Hdeps. destruct Hin as [<- | Hin]; [| now apply IH].
  apply fold_decideActivation_mono. unfold decideActivation.
  rewrite Ha, Hd. simpl.
  rewrite depsSatisfied_intro; [rewrite lookup_insert_eq; eauto |].
  intros dep Hdep. destruct (Hdeps dep Hdep) as [H | [H | H]]; auto.
  apply fold_decideActivation_keys in H as [H | H].
  - unfold decideActivation in H. rewrite Ha, Hd in H. simpl in H.
    destruct (depsSatisfied _ _ _ _); auto.
    rewrite lookup_insert in H.
    destruct (decide (Id x = Dependency.TaskId dep)) as [He | Hne]; auto.
    exfalso. rewrite forallb_forall in Hx. specialize (Hx dep Hdep).
    apply negb_true_iff in Hx.
    assert (Hc : utility.StringSliceContains (map Id (x :: l))
                   (Dependency.TaskId dep) = true)
      by (apply contains_In; left; exact He).
    congruence.
  - exfalso. rewrite forallb_forall in Hx. specialize (Hx dep Hdep).
    apply negb_true_iff in Hx.
    assert (Hc : utility.StringSliceContains (map Id (x :: l))
                   (Dependency.TaskId dep) = true)
      by (apply contains_In; now right).
    congruence.
Qed.

Lemma collectMissing_visited taskMap l :
  forall st id,
    id ∈ fst (fold_left (collectMissing taskMap) l st) ->
    id ∈ fst st \/ In id (map Id l).
Proof.
  induction l as [| x l IH]; simpl; intros st id H; [now left |].
  apply IH in H as [H | H]; [| right; now right].
  assert (Hf : fst (collectMissing taskMap st x) = {[Id x]} ∪ fst st).
  { unfold collectMissing.
    now destruct (Activated x || negb (DeactivatedForDependency x)). }
  rewrite Hf in H. apply elem_of_union in H as [H | H]; [| now left].
  apply elem_of_singleton in H. right. left. congruence.
Qed.

Lemma collectMissing_keeps taskMap l :
  forall st id, In id (snd st) ->
    In id (snd (fold_left (collectMissing taskMap) l st)).
Proof.
  induction l as [| x l IH]; simpl; intros st id H; [exact H |].
  apply IH. unfold collectMissing.
  destruct (Activated x || negb (DeactivatedForDependency x)); [exact H |].
  simpl. apply in_or_app. now left.
Qed.

Lemma collectMissing_collects taskMap l :
  forall st t dep,
    In t l -> Activated t = false -> DeactivatedForDependency t = true ->
    In dep (DependsOn t) ->
    Dependency.TaskId dep ∉ taskMap ->
    Dependency.TaskId dep ∉ fst st ->
    ~ In (Dependency.TaskId dep) (map Id l) ->
    In (Dependency.TaskId dep)
      (snd (fold_left (collectMissing taskMap) l st)).
Proof.
  induction l as [| x l IH]; intros st t dep Hin Ha Hd Hdep Hm Hv Hl;
    [destruct Hin |].
  simpl in Hl. simpl. destruct Hin as [<- | Hin].
  - apply collectMissing_keeps. unfold collectMissing. rewrite Ha, Hd.
    simpl. apply in_or_app. right. apply in_map. apply filter_In.
    split; [exact Hdep |].
    rewrite (bool_decide_eq_false_2 _ Hm). simpl.
    apply negb_true_iff, bool_decide_eq_false_2.
    intros Hc. apply elem_of_union in Hc as [Hc | Hc]; [| contradiction].
    apply elem_of_singleton in Hc. apply Hl. left. congruence.
  - apply (IH _ t dep); auto.
    assert (Hf : fst (collectMissing taskMap st x) = {[Id x]} ∪ fst st).
    { unfold collectMissing.
      now destruct (Activated x || negb (DeactivatedForDependency x)). }
    rewrite Hf. intros Hc. apply elem_of_union in Hc as [Hc | Hc];
      [| contradiction].
    apply elem_of_singleton in Hc. apply Hl. left. congruence.
Qed.

Lemma fold_insert_is_Some (L : list Task) :
  forall (m0 : gmap string Task) k,
    (exists d, In d L /\ Id d = k) \/ is_Some (m0 !! k) ->
    is_Some (fold_left (fun m t => <[Id t := t]> m) L m0 !! k).
Proof.
  induction L as [| x L IH]; simpl; intros m0 k H.
  - destruct H as [(d & [] & _) | H]; exact H.
  - apply IH. destruct H as [(d & [<- | Hin] & Hid) | H].
    + right. rewrite <- Hid, lookup_insert_eq. eauto.
    + left. eauto.
    + right. rewrite lookup_insert. destruct (decide (Id x = k)); eauto.
Qed.

Lemma fold_insert_found (L : list Task) k :
  (exists d, In d L /\ Id d = k) ->
  exists d, In d L /\ Id d = k
    /\ fold_left (fun m t => <[Id t := t]> m) L (∅ : gmap string Task) !! k
       = Some d.
Proof.
  intros Hex.
  destruct (fold_insert_is_Some L ∅ k (or_introl Hex)) as [d Hd].
  exists d. apply fold_insert_lookup in Hd as Hd'.
  destruct Hd' as [[H1 H2] | H]; [auto | now rewrite lookup_empty in H].
Qed.

Lemma tasksToActivateOf_complete taskIDs sorted db t :
  dependenciesFirst sorted = true ->
  In t sorted -> Activated t = false -> DeactivatedForDependency t = true ->
  (forall dep, In dep (DependsOn t) ->
     dependencySettled taskIDs sorted db
       (tasksToActivateOf taskIDs sorted db) dep) ->
  is_Some (tasksToActivateOf taskIDs sorted db !! Id t).
Proof.
  intros Hord Hin Ha Hd Hdeps. unfold tasksToActivateOf in *.
  set (taskMap := list_to_set taskIDs : gset string) in *.
  set (tasksToGet := snd (fold_left (collectMissing taskMap) sorted (∅, [])))
    in *.
  set (missing := match tasksToGet with [] => ∅ | _ => _ end) in *.
  apply fold_decideActivation_complete; auto.
  intros dep Hdep.
  destruct (Hdeps dep Hdep) as [H | [H | (Hout & (d0 & Hd0 & Hid0) & Hall)]];
    [right; left; now apply in_of_set | now left |].
  destruct (decide (Dependency.TaskId dep ∈ taskMap)) as [Hm | Hm];
    [now (right; left) |].
  right. right.
  assert (Hget : In (Dependency.TaskId dep) tasksToGet).
  { apply (collectMissing_collects taskMap sorted (∅, []) t dep); auto.
    simpl. apply not_elem_of_empty. }
  assert (Hex : exists d,
            In d (FindAllWithFields
                    (fun d => utility.StringSliceContains tasksToGet (Id d))
                    activatedField db)
            /\ Id d = Dependency.TaskId dep).
  { exists (activatedField d0). split; [| exact Hid0].
    apply FindAllWithFields_In. exists d0. split; [exact Hd0 |].
    split; [| reflexivity]. apply contains_In. now rewrite Hid0. }
  apply fold_insert_found in Hex as (d & Hd1 & Hd2 & Hlook).
  subst missing. destruct tasksToGet as [| g gs]; [destruct Hget |].
  rewrite Hlook. simpl.
  apply FindAllWithFields_In in Hd1 as (d1 & Hd1 & _ & ->).
  apply (Hall d1); [exact Hd1 | exact Hd2].
Qed.

(** When the sort puts every task after the tasks it depends on, the
    decisions of the pass reach the dependents: a task of the sorted list
    that is deactivated for a dependency and has every dependency settled
    (a given task, a task the pass activates, or an activated stored task
    outside the list) is activated, and every stored record with its id
    is rewritten. *)
Theorem ActivateDeactivatedDependencies_reaches_dependents
  (topoSort : nat -> list (nat * nat) -> option (list nat))
  (now : Time) (taskIDs : list string) (caller : string) (db : DB)
  (closure sorted : list Task) (t : Task) :
  getRecursiveDependenciesDown (walkFuel db) taskIDs ∅ db = Some closure ->
  topologicalSort topoSort closure = (sorted, None) ->
  dependenciesFirst sorted = true ->
  In t sorted -> Activated t = false -> DeactivatedForDependency t = true ->
  (forall dep, In dep (DependsOn t) ->
     dependencySettled taskIDs sorted db
       (tasksToActivateOf taskIDs sorted db) dep) ->
  is_Some (tasksToActivateOf taskIDs sorted db !! Id t)
  /\ forall d, In d (tasks db) -> Id d = Id t ->
       In (activationUpdate caller now d)
         (tasks (fst (ActivateDeactivatedDependencies topoSort now taskIDs
                        caller db))).
Proof.
  intros Hc Hsort Hord Hin Ha Hd Hdeps.
  pose proof (tasksToActivateOf_complete _ _ _ _ Hord Hin Ha Hd Hdeps) as Hsome.
  split; [exact Hsome |]. intros d Hdb Hid.
  unfold ActivateDeactivatedDependencies. rewrite Hc, Hsort.
  set (acc := tasksToActivateOf taskIDs sorted db) in *.
  assert (Hkey : forall k t, acc !! k = Some t -> k = Id t)
    by (intros k t' Hk; now destruct (tasksToActivateOf_sound _ _ _ k t' Hk)).
  destruct (size acc =? 0)%nat eqn:Hsize.
  { apply Nat.eqb_eq, map_size_empty_iff in Hsize. rewrite Hsize in Hsome.
    rewrite lookup_empty in Hsome. now destruct Hsome. }
  simpl. apply in_map_iff. exists d. split; [| exact Hdb].
  assert (Hcont : utility.StringSliceContains
            (map (fun kt => Id (snd kt)) (map_to_list acc)) (Id d) = true).
  { apply contains_In. rewrite Hid. now apply (activated_ids acc _ Hkey). }
  now rewrite Hcont.
Qed.

Lemma ActivateDeactivatedDependencies_reaches_dependents_witness :
  is_Some (tasksToActivateOf ["a"] [chainB; chainC] deactivatedChain !! "c").
Proof.
  apply (ActivateDeactivatedDependencies_reaches_dependents firstReadySort
           9%Z ["a"] "me" deactivatedChain [chainB; chainC] [chainB; chainC]
           chainC).
  - vm_compute. reflexivity.
  - vm_compute. reflexivity.
  - reflexivity.
  - right. left. reflexivity.
  - reflexivity.
  - reflexivity.
  - intros dep [<- | []]. right. left. vm_compute. eauto.
Defined.

(** Every record the cascade rewrites ends activated by the caller and
    no longer deactivated for a dependency, with its cached
    [unattainable_dependency] flag recomputed from its edges; id, status
    and edges stay, and a flag that agreed with the edges on every record
    before agrees after. *)
Theorem ActivateDeactivatedDependencies_rewrites
  (topoSort : nat -> list (nat * nat) -> option (list nat))
  (now : Time) (taskIDs : list string) (caller : string) (db : DB) :
  let db' :=
    fst (ActivateDeactivatedDependencies topoSort now taskIDs caller db) in
  Forall2
    (fun d d' =>
       d' = d
       \/ (Activated d' = true /\ DeactivatedForDependency d' = false
           /\ ActivatedBy d' = caller /\ ActivatedTime d' = now
           /\ unattainableCacheOk d'
           /\ Id d' = Id d /\ Status d' = Status d
           /\ DependsOn d' = DependsOn d /\ Priority d' = Priority d))
    (tasks db) (tasks db')
  /\ (Forall unattainableCacheOk (tasks db) ->
      Forall unattainableCacheOk (tasks db')).
Proof.
  intros db'. subst db'.
  destruct (ActivateDeactivatedDependencies_by_id topoSort now taskIDs caller
              db) as (activated & ->).
  split.
  - induction (tasks db) as [| d l IH]; simpl; constructor; auto.
    destruct (utility.StringSliceContains activated (Id d)); [right | now left].
    repeat split. unfold unattainableCacheOk. simpl.
    apply anyElementTrue_fold.
  - intros Hall. induction Hall as [| d l Hd _ IH]; simpl; constructor; auto.
    destruct (utility.StringSliceContains activated (Id d)); [| exact Hd].
    unfold unattainableCacheOk. simpl. apply anyElementTrue_fold.
Qed.

Lemma ActivateDeactivatedDependencies_rewrites_witness :
  Forall unattainableCacheOk
    (tasks (fst (ActivateDeactivatedDependencies firstReadySort 9%Z ["a"]
                   "me" deactivatedChain))).
Proof.
  apply (ActivateDeactivatedDependencies_rewrites firstReadySort 9%Z ["a"]
           "me" deactivatedChain).
  repeat constructor.
Defined.

(** ** Deactivation of dependents *)

Arguments utility.StringSliceContains : simpl never.

(** [DeactivateDependencies] rewrites stored records by id: the ids are
    those of the activated tasks of the downward walk, never one of the
    given tasks; a rewritten record is deactivated, marked as deactivated
    for a dependency and unscheduled, and keeps its id, status, edges and
    [activated_by]; every activated task of the walk has a stored record
    with its id, and every stored record with its id is rewritten. *)
Theorem DeactivateDependencies_deactivates_dependents
  (taskIDs : list string) (caller : string) (db : DB) :
  exists closure,
    getRecursiveDependenciesDown (walkFuel db) taskIDs ∅ db = Some closure
    /\ old_tasks (fst (DeactivateDependencies taskIDs caller db))
       = old_tasks db
    /\ Forall2
         (fun d d' =>
            d' = d
            \/ (In (Id d) (map Id (List.filter Activated closure))
                /\ ~ In (Id d) taskIDs
                /\ d' = dependencyDeactivatedUpdate d
                /\ Activated d' = false /\ DeactivatedForDependency d' = true
                /\ ScheduledTime d' = utility.ZeroTime
                /\ Id d' = Id d /\ Status d' = Status d
                /\ DependsOn d' = DependsOn d
                /\ ActivatedBy d' = ActivatedBy d))
         (tasks db) (tasks (fst (DeactivateDependencies taskIDs caller db)))
    /\ forall t, In t closure -> Activated t = true ->
         (exists d, In d (tasks db) /\ Id d = Id t)
         /\ forall d, In d (tasks db) -> Id d = Id t ->
              In (dependencyDeactivatedUpdate d)
                (tasks (fst (DeactivateDependencies taskIDs caller db))).
Proof.
  destruct (getRecursiveDependenciesDown_total taskIDs ∅ db) as [closure Hc].
  exists closure. split; [exact Hc |].
  unfold DeactivateDependencies. rewrite Hc.
  assert (Hids : forall id, In id (map Id (List.filter Activated closure)) ->
            ~ In id taskIDs).
  { intros id Hid. apply in_map_iff in Hid as (t & <- & Ht).
    apply filter_In in Ht as [Ht _].
    now destruct (getRecursiveDependenciesDown_sound _ _ _ _ _ Hc t Ht)
      as (_ & Hn & _). }
  destruct (List.filter Activated closure) as [| x xs] eqn:Hf.
  - simpl. split; [reflexivity |].
    split; [induction (tasks db); constructor; auto |].
    intros t Ht Ha. exfalso.
    assert (Hin : In t (List.filter Activated closure))
      by (apply filter_In; auto).
    rewrite Hf in Hin. destruct Hin.
  - simpl fst. split; [reflexivity |]. split.
    + cbn [UpdateAll updateMany fst tasks].
      induction (tasks db) as [| d l IH]; simpl; constructor; auto.
      destruct (utility.StringSliceContains (Id x :: map Id xs) (Id d)) eqn:Hq;
        [right | left; reflexivity].
      apply contains_In in Hq. repeat split; auto.
    + intros t Ht Ha. split.
      { destruct (getRecursiveDependenciesDown_sound _ _ _ _ _ Hc t Ht)
          as ((d & Hd & ->) & _). now exists d. }
      intros d Hd Hid. cbn [UpdateAll updateMany fst tasks].
      apply in_map_iff. exists d. split; [| exact Hd].
      assert (Hq : utility.StringSliceContains (map Id (x :: xs)) (Id d)
                   = true).
      { rewrite Hid. apply contains_In, in_map. rewrite <- Hf.
        apply filter_In. auto. }
      cbn [map] in Hq. cbn [map]. now rewrite Hq.
Qed.

(** ** The graph handed to the sort *)

Lemma nodeFold_cons s x l m0 :
  nodeFold s (x :: l) m0 = nodeFold (S s) l (<[Id x := s]> m0).
Proof. reflexivity. Qed.

Lemma nodeFold_keep l :
  forall s (m0 : gmap string nat) k,
    ~ In k (map Id l) -> nodeFold s l m0 !! k = m0 !! k.
Proof.
  induction l as [| x l IH]; intros s m0 k Hk; [reflexivity |].
  rewrite nodeFold_cons, IH by (intros H; apply Hk; now right).
  apply lookup_insert_ne. intros He. apply Hk. now left.
Qed.

Lemma nodeFold_is_Some l :
  forall s (m0 : gmap string nat) t,
    In t l -> is_Some (nodeFold s l m0 !! Id t).
Proof.
  induction l as [| x l IH]; intros s m0 t Hin; [destruct Hin |].
  rewrite nodeFold_cons.
  destruct (in_dec string_dec (Id t) (map Id l)) as [Hl | Hl].
  - apply in_map_iff in Hl as (t' & He & Ht'). rewrite <- He. now apply IH.
  - rewrite nodeFold_keep by exact Hl.
    destruct Hin as [<- | Hin]; [rewrite lookup_insert_eq; eauto |].
    exfalso. apply Hl. now apply in_map.
Qed.

Lemma nodeFold_lookup l :
  forall s (m0 : gmap string nat) k i,
    nodeFold s l m0 !! k = Some i ->
    (s <= i < s + length l /\ Id (nth (i - s) l zeroTask) = k)
    \/ m0 !! k = Some i.
Proof.
  induction l as [| x l IH]; intros s m0 k i H; [now right |].
  rewrite nodeFold_cons in H. apply IH in H as [[Hr Hid] | H].
  - left. simpl length. split; [lia |].
    replace (i - s) with (S (i - S s)) by lia. exact Hid.
  - rewrite lookup_insert in H. destruct (decide (Id x = k)) as [He | Hne].
    + injection H as <-. left. simpl length. split; [lia |].
      now rewrite Nat.sub_diag.
    + now right.
Qed.

Lemma nodeFold_unique l :
  forall s (m0 : gmap string nat) i,
    List.NoDup (map Id l) -> i < length l ->
    nodeFold s l m0 !! Id (nth i l zeroTask) = Some (s + i).
Proof.
  induction l as [| x l IH]; intros s m0 i Hnd Hi; [simpl in Hi; lia |].
  simpl in Hnd. inversion Hnd as [| ? ? Hx Hnd']; subst.
  rewrite nodeFold_cons. destruct i as [| i]; simpl nth.
  - rewrite nodeFold_keep by exact Hx.
    now rewrite lookup_insert_eq, Nat.add_0_r.
  - simpl in Hi. rewrite IH by (auto; lia). f_equal. lia.
Qed.

Lemma dependencyEdges_In ts a b :
  In (a, b) (dependencyEdges ts) <->
  exists task dep,
    In task ts /\ In dep (DependsOn task)
    /\ taskNodeMap ts !! Dependency.TaskId dep = Some a
    /\ b = default 0 (taskNodeMap ts !! Id task).
Proof.
  unfold dependencyEdges. rewrite in_flat_map. split.
  - intros (task & Ht & H). apply in_flat_map in H as (dep & Hd & H).
    destruct (taskNodeMap ts !! Dependency.TaskId dep) as [f |] eqn:Hf;
      [| destruct H].
    destruct H as [[= <- <-] | []]. exists task, dep. auto.
  - intros (task & dep & Ht & Hd & Hf & ->). exists task. split; [exact Ht |].
    apply in_flat_map. exists dep. split; [exact Hd |]. rewrite Hf. now left.
Qed.

Lemma self_edge_panics ts t dep :
  In t ts -> In dep (DependsOn t) -> Dependency.TaskId dep = Id t ->
  existsb (fun e => Nat.eqb (fst e) (snd e)) (dependencyEdges ts) = true.
Proof.
  intros Ht Hd Hid.
  destruct (nodeFold_is_Some ts 0 ∅ t Ht) as [i Hi].
  apply existsb_exists. exists (i, i). split; [| apply Nat.eqb_refl].
  apply dependencyEdges_In. exists t, dep. repeat split; auto.
  - rewrite Hid. exact Hi.
  - unfold taskNodeMap. fold (nodeFold 0 ts ∅). now rewrite Hi.
Qed.

(** A task of the downward walk that has an edge to itself stops the
    whole cascade: setting that edge panics in the graph library, the
    deferred handler recovers, [topologicalSort] returns no task and no
    error, and [ActivateDeactivatedDependencies] returns without an error
    and without having rewritten anything. *)
Theorem ActivateDeactivatedDependencies_self_edge
  (topoSort : nat -> list (nat * nat) -> option (list nat))
  (now : Time) (taskIDs : list string) (caller : string) (db : DB)
  (closure : list Task) (t : Task) (dep : Dependency.t) :
  getRecursiveDependenciesDown (walkFuel db) taskIDs ∅ db = Some closure ->
  In t closure -> In dep (DependsOn t) -> Dependency.TaskId dep = Id t ->
  topologicalSort topoSort closure = ([], None)
  /\ ActivateDeactivatedDependencies topoSort now taskIDs caller db
     = (db, None).
Proof.
  intros Hc Ht Hd Hid.
  assert (Hs : topologicalSort topoSort closure = ([], None)).
  { unfold topologicalSort. now rewrite (self_edge_panics closure t dep). }
  split; [exact Hs |].
  unfold ActivateDeactivatedDependencies. rewrite Hc, Hs. reflexivity.
Qed.

Lemma ActivateDeactivatedDependencies_self_edge_witness :
  ActivateDeactivatedDependencies firstReadySort 9%Z ["a"] "me"
    selfDependentStore
  = (selfDependentStore, None).
Proof.
  apply (ActivateDeactivatedDependencies_self_edge firstReadySort 9%Z ["a"]
           "me" selfDependentStore
           [set_DeactivatedForDependency true
              (set_DependsOn [edgeTo "a" ""; edgeTo "b" ""]
                 (set_Id "b" zeroTask))]
           (set_DeactivatedForDependency true
              (set_DependsOn [edgeTo "a" ""; edgeTo "b" ""]
                 (set_Id "b" zeroTask)))
           (edgeTo "b" "")).
  - vm_compute. reflexivity.
  - left. reflexivity.
  - right. left. reflexivity.
  - reflexivity.
Defined.

Lemma taskNodeMap_unique ts i :
  List.NoDup (map Id ts) -> i < length ts ->
  taskNodeMap ts !! Id (nth i ts zeroTask) = Some i.
Proof.
  intros Hnd Hi. unfold taskNodeMap. fold (nodeFold 0 ts ∅).
  now rewrite nodeFold_unique.
Qed.

Lemma sorted_dependencies_first ts out :
  List.NoDup (map Id ts) ->
  (forall i, In i out -> i < length ts) ->
  respectsEdges out (dependencyEdges ts) = true ->
  dependenciesFirst (map (fun node => nth node ts zeroTask) out) = true.
Proof.
  intros Hnd. induction out as [| x post IH]; intros Hlt Hres; [reflexivity |].
  cbn [respectsEdges] in Hres. apply andb_prop in Hres as [Hx Hres].
  cbn [map dependenciesFirst]. apply andb_true_intro. split.
  - apply forallb_forall. intros dep Hdep. apply negb_true_iff.
    apply not_true_is_false. intros Hc. apply contains_In in Hc.
    cbn [map] in Hc. rewrite map_map in Hc.
    assert (Hex0 : exists y, Id (nth y ts zeroTask) = Dependency.TaskId dep
                     /\ In y (x :: post)).
    { destruct Hc as [Hc | Hc]; [exists x; split; [exact Hc | now left] |].
      apply in_map_iff in Hc as (y & Hy & Hin). exists y. split; auto.
      now right. }
    destruct Hex0 as (y & Hy & Hin).
    assert (Hxl : x < length ts) by (apply Hlt; now left).
    assert (Hyl : y < length ts) by (now apply Hlt).
    assert (He : In (y, x) (dependencyEdges ts)).
    { apply dependencyEdges_In. exists (nth x ts zeroTask), dep.
      split; [now apply nth_In |]. split; [exact Hdep |]. split.
      - rewrite <- Hy. now apply taskNodeMap_unique.
      - now rewrite taskNodeMap_unique. }
    rewrite forallb_forall in Hx. specialize (Hx _ He). simpl in Hx.
    rewrite Nat.eqb_refl in Hx. simpl in Hx. apply negb_true_iff in Hx.
    assert (Hex : existsb (Nat.eqb y) (x :: post) = true).
    { apply existsb_exists. exists y. split; [exact Hin | apply Nat.eqb_refl]. }
    simpl in Hex. congruence.
  - apply IH; auto. intros i Hi. apply Hlt. now right.
Qed.

(** When the tasks have distinct ids and the library's sort returns
    nodes of the graph in an order that respects its edges,
    [topologicalSort] returns tasks of its input only, each of them after
    the tasks it depends on. *)
Theorem topologicalSort_dependencies_first
  (topoSort : nat -> list (nat * nat) -> option (list nat))
  (ts : list Task) (out : list nat) :
  List.NoDup (map Id ts) ->
  topoSort (length ts) (dependencyEdges ts) = Some out ->
  (forall i, In i out -> i < length ts) ->
  respectsEdges out (dependencyEdges ts) = true ->
  snd (topologicalSort topoSort ts) = None
  /\ dependenciesFirst (fst (topologicalSort topoSort ts)) = true
  /\ (forall t, In t (fst (topologicalSort topoSort ts)) -> In t ts)
  /\ (existsb (fun e => Nat.eqb (fst e) (snd e)) (dependencyEdges ts) = false ->
      fst (topologicalSort topoSort ts)
      = map (fun node => nth node ts zeroTask) out).
Proof.
  intros Hnd Hout Hlt Hres. unfold topologicalSort. rewrite Hout.
  destruct (existsb _ (dependencyEdges ts)); simpl.
  - repeat split; auto. intros t []. discriminate.
  - repeat split; auto.
    + now apply sorted_dependencies_first.
    + intros t Ht. apply in_map_iff in Ht as (i & <- & Hi).
      apply nth_In. now apply Hlt.
Qed.

Lemma topologicalSort_dependencies_first_witness :
  dependenciesFirst (fst (topologicalSort firstReadySort [chainC; chainB]))
  = true.
Proof.
  apply (topologicalSort_dependencies_first firstReadySort [chainC; chainB]
           [1; 0]).
  - repeat constructor; simpl; intuition discriminate.
  - vm_compute. reflexivity.
  - intros i [<- | [<- | []]]; simpl; lia.
  - vm_compute. reflexivity.
Defined.

(** ** Deactivating and activating again *)

Lemma stdpp_filter_map (q : Query) (g : Update) (c : list Task) :
  (forall d, q (g d) = q d) ->
  filter q (map g c) = map g (filter q c).
Proof.
  intros Hq. induction c as [| d c IH]; [reflexivity |].
  cbn [map]. rewrite !filter_cons, Hq, IH.
  destruct (decide (q d)); reflexivity.
Qed.

Lemma List_filter_map (q : Query) (g : Update) (c : list Task) :
  (forall d, q (g d) = q d) ->
  List.filter q (map g c) = map g (List.filter q c).
Proof.
  intros Hq. induction c as [| d c IH]; [reflexivity |].
  simpl. rewrite Hq, IH. now destruct (q d).
Qed.

(** The walk does not look beyond ids and edges: when every record of
    the store is rewritten by [g], which keeps both, the walk returns the
    same tasks, each rewritten by what [g] does to the projected
    fields. *)
Lemma getRecursiveDependenciesDown_map (g g' : Update) fuel :
  (forall d, Id (g d) = Id d) ->
  (forall d, DependsOn (g d) = DependsOn d) ->
  (forall t, Id (g' t) = Id t) ->
  (forall d, recursiveDependencyFields (g d)
             = g' (recursiveDependencyFields d)) ->
  forall taskIDs V c old,
    getRecursiveDependenciesDown fuel taskIDs V (mkDB (map g c) old)
    = map g' <$> getRecursiveDependenciesDown fuel taskIDs V (mkDB c old).
Proof.
  intros Hid Hdep Hid' Hproj.
  induction fuel as [| fuel IH]; intros taskIDs V c old; [reflexivity |].
  cbn [getRecursiveDependenciesDown]. unfold FindAllWithFields, FindAll.
  cbn [tasks].
  rewrite stdpp_filter_map
    by (intros d; unfold dependsOnAny; now rewrite Hdep).
  rewrite map_map.
  rewrite (map_ext (fun d => recursiveDependencyFields (g d))
             (fun d => g' (recursiveDependencyFields d))) by exact Hproj.
  rewrite <- (map_map recursiveDependencyFields g').
  rewrite List_filter_map
    by (intros d; unfold notVisited; now rewrite Hid').
  destruct (List.filter _ (map recursiveDependencyFields
                             (filter (dependsOnAny taskIDs) c))) as [| x N];
    [reflexivity |].
  cbn [map]. rewrite map_map.
  rewrite (map_ext (fun x => Id (g' x)) Id) by exact Hid'.
  rewrite Hid'. change (Id x :: map Id N) with (map Id (x :: N)).
  rewrite IH.
  destruct (getRecursiveDependenciesDown fuel _ _ _) as [R |]; [| reflexivity].
  simpl. now rewrite map_app.
Qed.

Lemma collectMissing_fetched taskMap l t dep :
  In t l -> Activated t = false -> DeactivatedForDependency t = true ->
  In dep (DependsOn t) ->
  Dependency.TaskId dep ∉ taskMap ->
  ~ In (Dependency.TaskId dep) (map Id l) ->
  In (Dependency.TaskId dep)
    (snd (fold_left (collectMissing taskMap) l (∅, []))).
Proof.
  intros. apply (collectMissing_collects taskMap l (∅, []) t dep); auto.
  simpl. apply not_elem_of_empty.
Qed.

Lemma fold_decideActivation_all taskMap missing l :
  forall acc,
  dependenciesFirst l = true ->
  (forall t, In t l ->
     Activated t = false /\ DeactivatedForDependency t = true
     /\ forall dep, In dep (DependsOn t) ->
          is_Some (acc !! Dependency.TaskId dep)
          \/ Dependency.TaskId dep ∈ taskMap
          \/ Activated (default zeroTask (missing !! Dependency.TaskId dep))
             = true
          \/ In (Dependency.TaskId dep) (map Id l)) ->
  forall t, In t l ->
    is_Some (fold_left (decideActivation taskMap missing) l acc !! Id t).
Proof.
  induction l as [| x l IH]; intros acc Hord Hall t Hin; [destruct Hin |].
  cbn [dependenciesFirst] in Hord. apply andb_prop in Hord as [Hx Hord].
  destruct (Hall x (or_introl eq_refl)) as (Ha & Hd & Hdeps).
  assert (Hstep : decideActivation taskMap missing acc x = <[Id x := x]> acc).
  { unfold decideActivation. rewrite Ha, Hd. simpl.
    rewrite depsSatisfied_intro; [reflexivity |].
    intros dep Hdep. destruct (Hdeps dep Hdep) as [H | [H | [H | H]]]; auto.
    exfalso. rewrite forallb_forall in Hx. specialize (Hx dep Hdep).
    apply negb_true_iff in Hx.
    assert (Hc : utility.StringSliceContains (map Id (x :: l))
                   (Dependency.TaskId dep) = true) by now apply contains_In.
    congruence. }
  cbn [fold_left]. rewrite Hstep. destruct Hin as [<- | Hin].
  - apply fold_decideActivation_mono. rewrite lookup_insert_eq. eauto.
  - apply IH; auto. intros t' Ht'.
    destruct (Hall t' (or_intror Ht')) as (Ha' & Hd' & Hdeps').
    repeat split; auto. intros dep Hdep.
    destruct (Hdeps' dep Hdep) as [H | [H | [H | H]]]; auto.
    + left. rewrite lookup_insert. destruct (decide _); eauto.
    + destruct H as [H | H]; [| auto].
      left. rewrite <- H, lookup_insert_eq. eauto.
Qed.

Lemma tasksToActivateOf_all taskIDs sorted db :
  dependenciesFirst sorted = true ->
  (forall t, In t sorted ->
     Activated t = false /\ DeactivatedForDependency t = true
     /\ forall dep, In dep (DependsOn t) ->
          In (Dependency.TaskId dep) taskIDs
          \/ In (Dependency.TaskId dep) (map Id sorted)
          \/ ((exists d, In d (tasks db) /\ Id d = Dependency.TaskId dep)
              /\ forall d, In d (tasks db) -> Id d = Dependency.TaskId dep ->
                   Activated d = true)) ->
  forall t, In t sorted ->
    is_Some (tasksToActivateOf taskIDs sorted db !! Id t).
Proof.
  intros Hord Hall. unfold tasksToActivateOf.
  set (taskMap := list_to_set taskIDs : gset string).
  set (tasksToGet := snd (fold_left (collectMissing taskMap) sorted (∅, []))).
  set (missing := match tasksToGet with [] => ∅ | _ => _ end).
  apply fold_decideActivation_all; auto.
  intros t Ht. destruct (Hall t Ht) as (Ha & Hd & Hdeps).
  repeat split; auto. intros dep Hdep.
  destruct (in_dec string_dec (Dependency.TaskId dep) (map Id sorted))
    as [Hs | Hs]; [now (right; right; right) |].
  destruct (decide (Dependency.TaskId dep ∈ taskMap)) as [Hm | Hm];
    [now (right; left) |].
  destruct (Hdeps dep Hdep) as [H | [H | ((d0 & Hd0 & Hid0) & Hact)]];
    [right; left; now apply in_of_set | contradiction |].
  right. right. left.
  assert (Hget : In (Dependency.TaskId dep) tasksToGet)
    by (apply (collectMissing_fetched taskMap sorted t dep); auto).
  assert (Hex : exists d,
            In d (FindAllWithFields
                    (fun d => utility.StringSliceContains tasksToGet (Id d))
                    activatedField db)
            /\ Id d = Dependency.TaskId dep).
  { exists (activatedField d0). split; [| exact Hid0].
    apply FindAllWithFields_In. exists d0. split; [exact Hd0 |].
    split; [| reflexivity]. apply contains_In. now rewrite Hid0. }
  apply fold_insert_found in Hex as (d & Hd1 & Hd2 & Hlook).
  subst missing. destruct tasksToGet as [| g gs]; [destruct Hget |].
  rewrite Hlook. simpl.
  apply FindAllWithFields_In in Hd1 as (d1 & Hd1 & _ & ->).
  apply (Hact d1); [exact Hd1 | exact Hd2].
Qed.

Lemma Forall2_map_self (P : Task -> Task -> Prop) (f : Update) l :
  (forall d, In d l -> P d (f d)) -> Forall2 P l (map f l).
Proof.
  induction l as [| d l IH]; intros H; simpl; constructor.
  - apply H. now left.
  - apply IH. intros d' Hd'. apply H. now right.
Qed.

Lemma Forall2_map_self_id (P : Task -> Task -> Prop) l :
  (forall d, P d d) -> Forall2 P l l.
Proof. intros H. induction l; constructor; auto. Qed.

Lemma unique_by_id (l : list Task) a b :
  List.NoDup (map Id l) -> In a l -> In b l -> Id a = Id b -> a = b.
Proof.
  induction l as [| x l IH]; intros Hnd Ha Hb He; [destruct Ha |].
  simpl in Hnd. inversion Hnd as [| ? ? Hx Hnd']; subst.
  destruct Ha as [<- | Ha], Hb as [<- | Hb]; auto.
  - exfalso. apply Hx. rewrite He. now apply in_map.
  - exfalso. apply Hx. rewrite <- He. now apply in_map.
Qed.

Lemma List_filter_all (P : Task -> bool) l :
  (forall t, In t l -> P t = true) -> List.filter P l = l.
Proof.
  induction l as [| x l IH]; intros H; [reflexivity |].
  simpl. rewrite (H x (or_introl eq_refl)), IH; [reflexivity |].
  intros; apply H; now right.
Qed.

Lemma DeactivateDependencies_all_active taskIDs caller db closure :
  getRecursiveDependenciesDown (walkFuel db) taskIDs ∅ db = Some closure ->
  (forall t, In t closure -> Activated t = true) ->
  fst (DeactivateDependencies taskIDs caller db)
  = mkDB (map (deactivateIn (map Id closure)) (tasks db)) (old_tasks db).
Proof.
  intros Hc Hact. unfold DeactivateDependencies. rewrite Hc.
  rewrite List_filter_all by exact Hact.
  destruct closure as [| x xs].
  - simpl. unfold deactivateIn. rewrite map_if_none. now destruct db.
  - reflexivity.
Qed.

Lemma deactivateIn_closure closure :
  map (fun t => recursiveDependencyFields (deactivateIn (map Id closure) t))
    closure
  = map (fun t => recursiveDependencyFields (dependencyDeactivatedUpdate t))
      closure.
Proof.
  apply map_ext_in. intros t Ht. unfold deactivateIn.
  assert (Hq : utility.StringSliceContains (map Id closure) (Id t) = true)
    by (apply contains_In; now apply in_map).
  now rewrite Hq.
Qed.

Lemma deactivateIn_fields ids d :
  recursiveDependencyFields (deactivateIn ids d)
  = recursiveDependencyFields
      (deactivateIn ids (recursiveDependencyFields d)).
Proof.
  unfold deactivateIn.
  change (Id (recursiveDependencyFields d)) with (Id d).
  now destruct (utility.StringSliceContains ids (Id d)).
Qed.

(** Deactivating the dependents of some tasks and activating them again
    gives every record its activation back. Let the store hold one
    record per id, let every task of the downward walk be activated, and
    every dependency of such a task be a given task, a task of the walk,
    or an activated stored task; and let the sort of the tasks walked
    over after the deactivation return no error and exactly those tasks,
    each after the tasks it depends on (which no sort can do when one of
    them depends on itself). Then after [DeactivateDependencies] and
    [ActivateDeactivatedDependencies] every record has the id, status,
    edges and activation it had, a record outside the walk is as it was,
    and a record of the walk has gone through the two updates. *)
Theorem deactivate_then_activate
  (topoSort : nat -> list (nat * nat) -> option (list nat))
  (now : Time) (taskIDs : list string) (caller caller' : string) (db : DB)
  (closure closure' sorted : list Task) :
  List.NoDup (map Id (tasks db)) ->
  getRecursiveDependenciesDown (walkFuel db) taskIDs ∅ db = Some closure ->
  (forall t, In t closure -> Activated t = true) ->
  (forall t dep, In t closure -> In dep (DependsOn t) ->
     In (Dependency.TaskId dep) taskIDs
     \/ In (Dependency.TaskId dep) (map Id closure)
     \/ exists d, In d (tasks db) /\ Id d = Dependency.TaskId dep
          /\ Activated d = true) ->
  getRecursiveDependenciesDown
    (walkFuel (fst (DeactivateDependencies taskIDs caller db))) taskIDs ∅
    (fst (DeactivateDependencies taskIDs caller db))
  = Some closure' ->
  topologicalSort topoSort closure' = (sorted, None) ->
  dependenciesFirst sorted = true ->
  (forall t, In t sorted <-> In t closure') ->
  Forall2
    (fun d d2 =>
       Id d2 = Id d /\ Activated d2 = Activated d
       /\ DependsOn d2 = DependsOn d /\ Status d2 = Status d
       /\ (~ In (Id d) (map Id closure) -> d2 = d)
       /\ (In (Id d) (map Id closure) ->
           d2 = activationUpdate caller' now (dependencyDeactivatedUpdate d)))
    (tasks db)
    (tasks (fst (ActivateDeactivatedDependencies topoSort now taskIDs caller'
                   (fst (DeactivateDependencies taskIDs caller db))))).
Proof.
  intros Hnd Hc Hact Hdeps Hc1 Hsort Hord Hperm.
  rewrite (DeactivateDependencies_all_active _ _ _ _ Hc Hact) in *.
  set (g := deactivateIn (map Id closure)) in *.
  assert (Hgid : forall d, Id (g d) = Id d).
  { intros d. unfold g, deactivateIn.
    now destruct (utility.StringSliceContains _ _). }
  assert (Hgdep : forall d, DependsOn (g d) = DependsOn d).
  { intros d. unfold g, deactivateIn.
    now destruct (utility.StringSliceContains _ _). }
  assert (Hgout : forall d, ~ In (Id d) (map Id closure) -> g d = d).
  { intros d Hn. unfold g, deactivateIn.
    destruct (utility.StringSliceContains _ _) eqn:Hq; [| reflexivity].
    apply contains_In in Hq. contradiction. }
  assert (Hgin : forall d, In (Id d) (map Id closure) ->
            g d = dependencyDeactivatedUpdate d).
  { intros d Hin. unfold g, deactivateIn.
    apply contains_In in Hin. now rewrite Hin. }
  assert (Hstored : forall d, In d (tasks db) -> In (Id d) (map Id closure) ->
            In (recursiveDependencyFields d) closure).
  { intros d Hd Hin. apply in_map_iff in Hin as (t & He & Ht).
    destruct (getRecursiveDependenciesDown_sound _ _ _ _ _ Hc t Ht)
      as ((d0 & Hd0 & Ht0) & _).
    rewrite Ht0 in He. change (Id d0 = Id d) in He.
    rewrite (unique_by_id _ d d0 Hnd Hd Hd0 (eq_sym He)). now rewrite <- Ht0. }
  (* the walk over the deactivated store *)
  assert (Hclosure' : closure' =
            map (fun t => recursiveDependencyFields
                            (dependencyDeactivatedUpdate t)) closure).
  { unfold walkFuel in Hc1. cbn [tasks] in Hc1. rewrite length_map in Hc1.
    rewrite (getRecursiveDependenciesDown_map g
               (fun t => recursiveDependencyFields (g t)))
      in Hc1; auto.
    - fold (walkFuel db) in Hc1. destruct db as [c old].
      cbn [tasks old_tasks] in *. rewrite Hc in Hc1. simpl in Hc1.
      injection Hc1 as <-. apply deactivateIn_closure.
    - intros d. apply deactivateIn_fields. }
  subst closure'.
  unfold ActivateDeactivatedDependencies. rewrite Hc1, Hsort.
  set (db1 := mkDB (map g (tasks db)) (old_tasks db)).
  set (acc := tasksToActivateOf taskIDs sorted db1).
  assert (Hids : forall id, In id (map Id sorted) <-> In id (map Id closure)).
  { intros id. rewrite !in_map_iff. split.
    - intros (t & He & Ht). apply Hperm, in_map_iff in Ht as (t0 & <- & Ht0).
      exists t0. auto.
    - intros (t0 & He & Ht0).
      exists (recursiveDependencyFields (dependencyDeactivatedUpdate t0)).
      split; [exact He |]. apply Hperm.
      apply (in_map (fun t => recursiveDependencyFields
                                (dependencyDeactivatedUpdate t))). exact Ht0. }
  assert (Hall : forall t, In t sorted -> is_Some (acc !! Id t)).
  { apply tasksToActivateOf_all; auto. intros t1 Ht1.
    apply Hperm, in_map_iff in Ht1 as (t & <- & Ht).
    split; [reflexivity |]. split; [reflexivity |].
    intros dep Hdep. change (In dep (DependsOn t)) in Hdep.
    destruct (Hdeps t dep Ht Hdep) as [H | [H | (d & Hd & Hid & Ha)]];
      [now left | right; left; now apply Hids |].
    destruct (in_dec string_dec (Dependency.TaskId dep) (map Id closure))
      as [Hin | Hout]; [right; left; now apply Hids |].
    right. right. split.
    - exists d. split; [| exact Hid]. cbn [db1 tasks].
      rewrite <- (Hgout d) by now rewrite Hid. now apply in_map.
    - intros d1 Hd1 Hid1. cbn [db1 tasks] in Hd1.
      apply in_map_iff in Hd1 as (d' & <- & Hd').
      rewrite Hgid in Hid1.
      rewrite (unique_by_id _ d' d Hnd Hd' Hd) by congruence.
      rewrite Hgout by now rewrite Hid. exact Ha. }
  pose proof (tasksToActivateOf_sound taskIDs sorted db1) as Hsound.
  fold acc in Hsound.
  assert (Hkey : forall k t, acc !! k = Some t -> k = Id t)
    by (intros k t Hk; now destruct (Hsound k t Hk)).
  assert (Hkeys : forall id, is_Some (acc !! id) <-> In id (map Id closure)).
  { intros id. split.
    - intros [t Ht]. destruct (Hsound id t Ht) as (-> & Hin & _).
      apply Hids. now apply in_map.
    - intros Hin. apply Hids, in_map_iff in Hin as (t & <- & Ht). auto. }
  destruct (size acc =? 0)%nat eqn:Hsize.
  - apply Nat.eqb_eq, map_size_empty_iff in Hsize.
    assert (Hempty : closure = []).
    { destruct closure as [| x xs]; [reflexivity |]. exfalso.
      assert (Hx : is_Some (acc !! Id x)) by (apply Hkeys; now left).
      rewrite Hsize, lookup_empty in Hx. now destruct Hx. }
    cbn [fst db1 tasks]. apply Forall2_map_self. intros d _.
    rewrite Hgout by (rewrite Hempty; intros []).
    repeat split; auto. rewrite Hempty. intros [].
  - cbn [fst db1 tasks UpdateAll updateMany].
    assert (Hmem : forall d,
              utility.StringSliceContains
                (map (fun kt => Id (snd kt)) (map_to_list acc)) (Id d) = true
              <-> In (Id d) (map Id closure)).
    { intros d. rewrite contains_In, (activated_ids acc _ Hkey). apply Hkeys. }
    assert (Hrec : forall d, In d (tasks db) ->
      let d2 :=
        (fun d1 =>
           if utility.StringSliceContains
                (map (fun kt => Id (snd kt)) (map_to_list acc)) (Id d1)
           then activationUpdate caller' now d1 else d1) (g d) in
      Id d2 = Id d /\ Activated d2 = Activated d
      /\ DependsOn d2 = DependsOn d /\ Status d2 = Status d
      /\ (~ In (Id d) (map Id closure) -> d2 = d)
      /\ (In (Id d) (map Id closure) ->
          d2 = activationUpdate caller' now (dependencyDeactivatedUpdate d))).
    { intros d Hd. cbv zeta.
      destruct (in_dec string_dec (Id d) (map Id closure)) as [Hin | Hout].
      - assert (Hq : utility.StringSliceContains
                       (map (fun kt => Id (snd kt)) (map_to_list acc))
                       (Id (g d)) = true)
          by (apply Hmem; now rewrite Hgid).
        rewrite Hq, (Hgin d Hin).
        assert (Hda : Activated d = true)
          by (apply (Hact (recursiveDependencyFields d));
              now apply Hstored).
        repeat split; auto. contradiction.
      - rewrite (Hgout d Hout).
        destruct (utility.StringSliceContains _ (Id d)) eqn:Hq;
          [apply Hmem in Hq; contradiction |].
        repeat split; auto. contradiction. }
    rewrite map_map. apply Forall2_map_self. exact Hrec.
Qed.

Lemma deactivate_then_activate_witness :
  Forall2 (fun d d2 => Activated d2 = Activated d)
    (tasks activeChain)
    (tasks (fst (ActivateDeactivatedDependencies firstReadySort 9%Z ["a"]
                   "you"
                   (fst (DeactivateDependencies ["a"] "me" activeChain))))).
Proof.
  eapply Forall2_impl;
    [apply (deactivate_then_activate firstReadySort 9%Z ["a"] "me" "you"
              activeChain [activeB; activeC]
              [chainB; chainC] [chainB; chainC])
    | intros d d2 (_ & H & _); exact H].
  - repeat constructor; simpl; intuition discriminate.
  - vm_compute. reflexivity.
  - intros t [<- | [<- | []]]; reflexivity.
  - intros t dep [<- | [<- | []]] [<- | []].
    + left. left. reflexivity.
    + right. left. left. reflexivity.
  - vm_compute. reflexivity.
  - vm_compute. reflexivity.
  - reflexivity.
  - intros t. reflexivity.
Defined.

(** The round trip is lost on a task that depends on itself: it is
    deactivated with the dependents, and the cascade, whose sort gives up
    on the edge from the task to itself, does not activate it again and
    reports no error. *)
Example deactivate_then_activate_self_dependent :
  map Activated (tasks (fst (DeactivateDependencies ["a"] "me"
                               activeSelfDependent)))
  = [true; false]
  /\ ActivateDeactivatedDependencies firstReadySort 9%Z ["a"] "you"
       (fst (DeactivateDependencies ["a"] "me" activeSelfDependent))
     = (fst (DeactivateDependencies ["a"] "me" activeSelfDependent), None).
Proof. vm_compute. split; reflexivity. Qed.

(** ** Deactivation of tasks *)

Lemma DeactivateDependencies_pointwise taskIDs caller db :
  Forall2 (fun d d' => d' = d \/ d' = dependencyDeactivatedUpdate d)
    (tasks db) (tasks (fst (DeactivateDependencies taskIDs caller db))).
Proof.
  unfold DeactivateDependencies.
  destruct (getRecursiveDependenciesDown _ _ _ _) as [closure |];
    [| apply Forall2_map_self_id; auto].
  destruct (List.filter Activated closure) as [| x xs];
    [apply Forall2_map_self_id; auto |].
  cbn [UpdateAll updateMany fst tasks]. apply Forall2_map_self.
  intros d _. destruct (utility.StringSliceContains _ (Id d)); auto.
Qed.

Lemma Forall2_map_l_compose (P Q : Task -> Task -> Prop) (f : Update) l l' :
  Forall2 Q (map f l) l' ->
  (forall d d', Q (f d) d' -> P d d') ->
  Forall2 P l l'.
Proof.
  revert l'. induction l as [| d l IH]; intros l' H HPQ; simpl in H;
    inversion H; subst; constructor; auto.
Qed.

(** [DeactivateTasks] deactivates, by id, the given tasks and the
    execution tasks of the display tasks among them, and records the
    caller; with or without the cascade to dependents it activates
    nothing: a record that is activated afterwards was not touched. *)
Theorem DeactivateTasks_deactivates (ts : list Task)
  (updateDependencies : bool) (caller : string) (db : DB) :
  Forall2
    (fun d d' =>
       Id d' = Id d /\ DependsOn d' = DependsOn d /\ Status d' = Status d
       /\ (Activated d' = true -> d' = d)
       /\ (In (Id d) (deactivatedTaskIDs ts) ->
           Activated d' = false /\ ActivatedBy d' = caller
           /\ ScheduledTime d' = utility.ZeroTime)
       /\ (updateDependencies = false ->
           ~ In (Id d) (deactivatedTaskIDs ts) -> d' = d))
    (tasks db)
    (tasks (fst (DeactivateTasks ts updateDependencies caller db))).
Proof.
  unfold DeactivateTasks. fold (deactivatedTaskIDs ts).
  cbn [UpdateAll updateMany fst]. cbv iota beta.
  set (f := fun d : Task =>
         if utility.StringSliceContains (deactivatedTaskIDs ts) (Id d)
         then set_ScheduledTime utility.ZeroTime
                (set_ActivatedBy caller (set_Activated false d))
         else d).
  assert (Hf : forall d,
    Id (f d) = Id d /\ DependsOn (f d) = DependsOn d
    /\ Status (f d) = Status d
    /\ (Activated (f d) = true -> f d = d)
    /\ (In (Id d) (deactivatedTaskIDs ts) ->
        Activated (f d) = false /\ ActivatedBy (f d) = caller
        /\ ScheduledTime (f d) = utility.ZeroTime)
    /\ (~ In (Id d) (deactivatedTaskIDs ts) -> f d = d)).
  { intros d. unfold f.
    destruct (utility.StringSliceContains _ (Id d)) eqn:Hq.
    - apply contains_In in Hq. do 3 (split; [reflexivity |]).
      split; [simpl; discriminate |].
      split; [intros _; repeat split | intros Hn; contradiction].
    - do 3 (split; [reflexivity |]). split; [reflexivity |].
      split; [intros Hin; apply contains_In in Hin; congruence | reflexivity]. }
  destruct updateDependencies.
  - eapply Forall2_map_l_compose;
      [apply (DeactivateDependencies_pointwise
                (deactivatedTaskIDs ts) caller (mkDB (map f (tasks db))
                                                  (old_tasks db))) |].
    intros d d' Hd. destruct (Hf d) as (H1 & H2 & H3 & H4 & H5 & H6).
    destruct Hd as [-> | ->].
    + do 4 (split; [assumption |]). split; [assumption | discriminate].
    + do 3 (split; [assumption |]). split; [simpl; discriminate |].
      split; [| discriminate].
      intros Hin. destruct (H5 Hin) as (_ & Hb & _).
      split; [reflexivity |]. split; [exact Hb | reflexivity].
  - cbn [fst tasks]. apply Forall2_map_self. intros d _.
    destruct (Hf d) as (H1 & H2 & H3 & H4 & H5 & H6).
    do 5 (split; [assumption |]). intros _. exact H6.
Qed.

(** ** Time spent on a set of tasks *)

Lemma wrapInt_add_l a b : wrapInt (wrapInt a + b) = wrapInt (a + b).
Proof.
  unfold wrapInt. f_equal.
  replace ((a + 2 ^ 63) mod 2 ^ 64 - 2 ^ 63 + b + 2 ^ 63)%Z
    with ((a + 2 ^ 63) mod 2 ^ 64 + b)%Z by lia.
  rewrite Z.add_mod_idemp_l by lia. f_equal. lia.
Qed.

Lemma timeSpentStep_comm st a b :
  timeSpentStep (timeSpentStep st a) b = timeSpentStep (timeSpentStep st b) a.
Proof.
  destruct st as [[tt e] l]. unfold timeSpentStep.
  destruct (DisplayOnly a) eqn:Ha, (DisplayOnly b) eqn:Hb; cbn [fst snd];
    rewrite ?Ha, ?Hb; cbn [fst snd]; try reflexivity.
  f_equal; [f_equal |].
  - rewrite !wrapInt_add_l. f_equal. lia.
  - unfold time.Before.
    destruct (utility.IsZeroTime (StartTime a)),
             (utility.IsZeroTime (StartTime b)); cbn [negb andb];
      try reflexivity.
    all: destruct (Z.ltb_spec (StartTime a) e), (Z.ltb_spec (StartTime b) e);
      repeat match goal with
             | |- context [(?x <? ?y)%Z] => destruct (Z.ltb_spec x y)
             end; lia.
  - unfold time.Before.
    destruct (Z.ltb_spec l (FinishTime a)), (Z.ltb_spec l (FinishTime b));
      repeat match goal with
             | |- context [(?x <? ?y)%Z] => destruct (Z.ltb_spec x y)
             end; lia.
Qed.

Lemma fold_timeSpentStep_perm l l' :
  Permutation l l' ->
  forall st, fold_left timeSpentStep l st = fold_left timeSpentStep l' st.
Proof.
  induction 1 as [| x l l' _ IH | x y l | l l' l'' _ IH1 _ IH2]; intros st;
    simpl; auto.
  - now rewrite timeSpentStep_comm.
  - now rewrite IH1.
Qed.

Lemma fold_timeSpentStep_display l :
  forall st,
    fold_left timeSpentStep (List.filter (fun t => negb (DisplayOnly t)) l) st
    = fold_left timeSpentStep l st.
Proof.
  induction l as [| x l IH]; intros st; [reflexivity |].
  cbn [List.filter fold_left].
  destruct (DisplayOnly x) eqn:Hx; cbn [negb fold_left]; rewrite IH;
    [| reflexivity].
  f_equal. unfold timeSpentStep. now rewrite Hx.
Qed.

Lemma fold_timeSpentStep_unstarted l :
  (forall t, In t l -> DisplayOnly t = false ->
     utility.IsZeroTime (StartTime t) = true) ->
  forall st, snd (fst (fold_left timeSpentStep l st)) = snd (fst st).
Proof.
  induction l as [| x l IH]; intros H st; [reflexivity |]. simpl.
  rewrite IH by (intros; apply H; auto; now right).
  unfold timeSpentStep. destruct (DisplayOnly x) eqn:Hx; [reflexivity |].
  cbn [fst snd]. now rewrite (H x (or_introl eq_refl) Hx).
Qed.

(** [GetTimeSpent] does not depend on the order of the tasks and leaves
    display tasks out; when no task that counts has a start time it
    returns zero for both the time taken and the makespan, whatever the
    tasks' own times taken. *)
Theorem GetTimeSpent_order_and_display (MaxTime : Time) (ts : list Task) :
  (forall ts', Permutation ts ts' ->
     GetTimeSpent MaxTime ts' = GetTimeSpent MaxTime ts)
  /\ GetTimeSpent MaxTime (List.filter (fun t => negb (DisplayOnly t)) ts)
     = GetTimeSpent MaxTime ts
  /\ ((forall t, In t ts -> DisplayOnly t = false ->
         utility.IsZeroTime (StartTime t) = true) ->
      GetTimeSpent MaxTime ts = (0%Z, 0%Z)).
Proof.
  unfold GetTimeSpent. split; [| split].
  - intros ts' Hp. now rewrite (fold_timeSpentStep_perm _ _ Hp).
  - now rewrite fold_timeSpentStep_display.
  - intros H. rewrite fold_timeSpentStep_unstarted by exact H.
    cbn [fst snd]. unfold time.Equal. now rewrite Z.eqb_refl.
Qed.
